(** * Baseline tools of the Firecracker repository: model and properties

    A shallow embedding of the Python tools under [tools/print_baselines]
    and [tools/compare_baselines]: the dimension enumerations
    ([utils/types.py]), the baseline loader ([utils/parser.py],
    [utils/net_throughput.py]), the worktree scope ([utils/git_worktree.py]),
    the revision commands ([compare_baselines/main.py]) and the rendering
    step ([compare_baselines/output_images.py]).

    Python values are one dynamically typed universe ([Py.value]); raising
    is the [Raise] branch of [Py.result]; a [dict] is an association list in
    insertion order. Text is a [string] whose characters are the code points
    below 256. Floating point numbers are binary64 ([PrimFloat.float]), as
    Python's are. *)

From Stdlib Require Import ZArith List String Ascii Bool Lia FinFun.
From Stdlib Require Import Floats.
Import ListNotations.
Open Scope string_scope.
Set Warnings "-register-all".

(* ===================================================================== *)
(** ** Python values, exceptions and the error monad                      *)
(* ===================================================================== *)

Module Py.

Inductive value : Type :=
| VNone
| VBool (b : bool)
| VInt (n : Z)
| VFloat (f : float)
| VStr (s : string)
| VList (l : list value)
| VTuple (l : list value)
| VDict (kvs : list (string * value)).

(** The exceptions the modelled code can raise. An f-string message such as
    [f"Unknown metric {raw_str}"] is kept as its literal prefix and the
    interpolated value. *)
Inductive exn : Type :=
| Exception (msg : string)
| ExceptionF (prefix : string) (arg : value)
| AssertionError
| KeyError (key : value)
| IndexError
| TypeError
| AttributeError (attr : string)
| FileNotFoundError (path : string)
| CalledProcessError (cmd : list string).

Inductive result (A : Type) : Type :=
| Ok (a : A)
| Raise (e : exn).
Arguments Ok {A} a.
Arguments Raise {A} e.

Definition bind {A B} (r : result A) (k : A -> result B) : result B :=
  match r with
  | Ok a => k a
  | Raise e => Raise e
  end.

(** [for x in xs: body], threading the variables the body assigns. *)
Fixpoint for_each {A S} (xs : list A) (body : A -> S -> result S) (s : S)
  : result S :=
  match xs with
  | [] => Ok s
  | x :: rest => bind (body x s) (for_each rest body)
  end.

(** A list comprehension [[f x for x in xs]]. *)
Fixpoint map_result {A B} (f : A -> result B) (xs : list A)
  : result (list B) :=
  match xs with
  | [] => Ok []
  | x :: rest =>
      bind (f x) (fun y => bind (map_result f rest) (fun ys => Ok (y :: ys)))
  end.

(** [v == "literal"]: only a [str] equals a [str]. *)
Definition eq_str (v : value) (s : string) : bool :=
  match v with
  | VStr t => String.eqb t s
  | _ => false
  end.

(** Lists and dicts (and tuples holding one) are unhashable. *)
Fixpoint hashable (v : value) : bool :=
  match v with
  | VList _ | VDict _ => false
  | VTuple l => forallb hashable l
  | _ => true
  end.

(** Dictionaries: lookup takes the entry of the key; assignment replaces the
    value in place when the key is present and appends otherwise. *)
Section Dict.
Context {K V : Type} (eqb : K -> K -> bool).

Fixpoint dict_get (k : K) (d : list (K * V)) : option V :=
    match d with
    | [] => None
    | (k', v) :: rest => if eqb k' k then Some v else dict_get k rest
    end.

Fixpoint dict_set (k : K) (v : V) (d : list (K * V)) : list (K * V) :=
    match d with
    | [] => [(k, v)]
    | (k', v') :: rest =>
        if eqb k' k then (k', v) :: rest else (k', v') :: dict_set k v rest
    end.
End Dict.

Definition chars (s : string) : list value :=
  map (fun c => VStr (String c EmptyString)) (list_ascii_of_string s).

(** [seq[i]] with Python's negative indices. *)
Definition index {A} (l : list A) (i : Z) : result A :=
  let n := Z.of_nat (List.length l) in
  let j := (if i <? 0 then i + n else i)%Z in
  if ((j <? 0) || (n <=? j))%Z then Raise IndexError
  else match nth_error l (Z.to_nat j) with
       | Some x => Ok x
       | None => Raise IndexError
       end.

Definition as_index (key : value) : option Z :=
  match key with
  | VInt i => Some i
  | VBool b => Some (if b then 1 else 0)%Z
  | _ => None
  end.

(** [container[key]]. *)
Definition getitem (container key : value) : result value :=
  match container with
  | VDict kvs =>
      if hashable key then
        match key with
        | VStr s =>
            match dict_get String.eqb s kvs with
            | Some v => Ok v
            | None => Raise (KeyError key)
            end
        | _ => Raise (KeyError key)
        end
      else Raise TypeError
  | VList l | VTuple l =>
      match as_index key with
      | Some i => index l i
      | None => Raise TypeError
      end
  | VStr s =>
      match as_index key with
      | Some i => index (chars s) i
      | None => Raise TypeError
      end
  | _ => Raise TypeError
  end.

(** [for x in v]: the elements of a list, the keys of a dict, the characters
    of a string. *)
Definition iter (v : value) : result (list value) :=
  match v with
  | VDict kvs => Ok (map (fun kv => VStr (fst kv)) kvs)
  | VList l | VTuple l => Ok l
  | VStr s => Ok (chars s)
  | _ => Raise TypeError
  end.

Definition keys (v : value) : result (list string) :=
  match v with
  | VDict kvs => Ok (map fst kvs)
  | _ => Raise (AttributeError "keys")
  end.

Definition items (v : value) : result (list (string * value)) :=
  match v with
  | VDict kvs => Ok kvs
  | _ => Raise (AttributeError "items")
  end.

Definition values (v : value) : result (list value) :=
  match v with
  | VDict kvs => Ok (map snd kvs)
  | _ => Raise (AttributeError "values")
  end.

(** [str.lower] on the code points below 256: the capitals of ASCII and of
    Latin-1 (all of 192..222 but the multiplication sign 215) move up by 32. *)
Definition lower_char (c : ascii) : ascii :=
  let n := nat_of_ascii c in
  if ((65 <=? n) && (n <=? 90)
      || (192 <=? n) && (n <=? 222) && negb (n =? 215))%nat
  then ascii_of_nat (n + 32)
  else c.

Fixpoint lower (s : string) : string :=
  match s with
  | EmptyString => EmptyString
  | String c rest => String (lower_char c) (lower rest)
  end.

(** [sub in s] for strings. *)
Fixpoint contains (sub s : string) : bool :=
  String.prefix sub s ||
  match s with
  | EmptyString => false
  | String _ rest => contains sub rest
  end.

(** [float(n)] for an [int]: the nearest binary64 number. *)
Definition float_of_Z (n : Z) : float :=
  SF2Prim (SpecFloat.binary_normalize prec emax n 0 false).

End Py.

Import Py.

Declare Scope py_scope.
Delimit Scope py_scope with py.
Notation "x <- c ;; k" := (bind c (fun x => k))
  (at level 61, c at next level, right associativity) : py_scope.
Notation "' p <- c ;; k" := (bind c (fun p => k))
  (at level 61, p pattern, c at next level, right associativity) : py_scope.
Open Scope py_scope.

(* ===================================================================== *)
(** ** utils/types.py: the dimension enumerations                         *)
(* ===================================================================== *)

Module CpuModel.

Inductive t : Set :=
  | SKY_LAKE | CASCADE_LAKE | ICE_LAKE | MILAN
  | GRAVITON2 | GRAVITON3 | GRAVITON4.

Definition eqb (a b : t) : bool :=
  match a, b with
  | SKY_LAKE, SKY_LAKE | CASCADE_LAKE, CASCADE_LAKE | ICE_LAKE, ICE_LAKE
  | MILAN, MILAN | GRAVITON2, GRAVITON2 | GRAVITON3, GRAVITON3
  | GRAVITON4, GRAVITON4 => true
  | _, _ => false
  end.

Definition __str__ (self : t) : string :=
  match self with
  | SKY_LAKE => "SkyLake"
  | CASCADE_LAKE => "CascadeLake"
  | ICE_LAKE => "IceLake"
  | MILAN => "Milan"
  | GRAVITON2 => "Graviton2"
  | GRAVITON3 => "Graviton3"
  | GRAVITON4 => "Graviton4"
  end.

Definition MODELCODE : list (string * string * t) :=
  [ ("m5d.metal", "Intel(R) Xeon(R) Platinum 8175M CPU @ 2.50GHz", SKY_LAKE);
    ("m5d.metal", "Intel(R) Xeon(R) Platinum 8259CL CPU @ 2.50GHz", CASCADE_LAKE);
    ("m6i.metal", "Intel(R) Xeon(R) Platinum 8375C CPU @ 2.90GHz", ICE_LAKE);
    ("m6a.metal", "AMD EPYC 7R13 48-Core Processor", MILAN);
    ("m6g.metal", "ARM_NEOVERSE_N1", GRAVITON2);
    ("m6g.metal", "ARM_NEOVERSE_V1", GRAVITON3);
    ("c7g.metal", "ARM_NEOVERSE_V1", GRAVITON4) ].

(** [MODELCODE[(instance_type, model)]]: hashing the key comes first. *)
Definition from_str (instance_type model : value) : result t :=
  if hashable instance_type && hashable model then
    match find (fun e => eq_str instance_type (fst (fst e))
                         && eq_str model (snd (fst e))) MODELCODE with
    | Some e => Ok (snd e)
    | None => Raise (KeyError (VTuple [instance_type; model]))
    end
  else Raise TypeError.

Definition from_codename (name : value) : result t :=
  match name with
  | VStr s =>
      let name := lower s in
      if name =? "skylake" then Ok SKY_LAKE
      else if name =? "cascadelake" then Ok CASCADE_LAKE
      else if name =? "icelake" then Ok ICE_LAKE
      else if name =? "milan" then Ok MILAN
      else if name =? "graviton2" then Ok GRAVITON2
      else if name =? "graviton3" then Ok GRAVITON3
      else if name =? "graviton4" then Ok GRAVITON4
      else Raise (ExceptionF "Unknown CPU model: " (VStr name))
  | _ => Raise (AttributeError "lower")
  end.

(** The names [from_codename] compares the lowercased argument with. *)
Definition codenames : list string :=
  ["skylake"; "cascadelake"; "icelake"; "milan";
   "graviton2"; "graviton3"; "graviton4"].

End CpuModel.

Module GuestOs.

Inductive t : Set := UBUNTU_18_04.

Definition eqb (a b : t) : bool := true.

Definition __str__ (self : t) : string :=
  match self with
  | UBUNTU_18_04 => "Ubuntu 18.04"
  end.

Definition from_str (raw_str : value) : result t :=
  if eq_str raw_str "ubuntu-18.04.ext4" then Ok UBUNTU_18_04
  else Raise (ExceptionF "Unknown guest os: " raw_str).

(** The strings [from_str] compares its argument with. *)
Definition tokens : list string := ["ubuntu-18.04.ext4"].

End GuestOs.

Module MachineConfig.

Inductive t : Set := VCPU_1_MEM_1G | VCPU_2_MEM_1G.

Definition eqb (a b : t) : bool :=
  match a, b with
  | VCPU_1_MEM_1G, VCPU_1_MEM_1G | VCPU_2_MEM_1G, VCPU_2_MEM_1G => true
  | _, _ => false
  end.

Definition __str__ (self : t) : string :=
  match self with
  | VCPU_1_MEM_1G => "1vcpu_1024mb"
  | VCPU_2_MEM_1G => "2vcpu_1024mb"
  end.

Definition from_str (raw_str : value) : result t :=
  if eq_str raw_str "1vcpu_1024mb.json" then Ok VCPU_1_MEM_1G
  else if eq_str raw_str "2vcpu_1024mb.json" then Ok VCPU_2_MEM_1G
  else Raise (ExceptionF "Unknown machine configuration: " raw_str).

(** The strings [from_str] compares its argument with. *)
Definition tokens : list string :=
  ["1vcpu_1024mb.json"; "2vcpu_1024mb.json"].

End MachineConfig.

Module Metric.

Inductive t : Set := CPU_TOTAL | CPU_IO | THROUGHPUT.

Definition eqb (a b : t) : bool :=
  match a, b with
  | CPU_TOTAL, CPU_TOTAL | CPU_IO, CPU_IO | THROUGHPUT, THROUGHPUT => true
  | _, _ => false
  end.

Definition __str__ (self : t) : string :=
  match self with
  | CPU_TOTAL => "cpu_utilization_vcpus_total"
  | CPU_IO => "cpu_utilization_vmm"
  | THROUGHPUT => "throughput"
  end.

Definition from_str (raw_str : value) : result t :=
  if eq_str raw_str "cpu_utilization_vcpus_total" then Ok CPU_TOTAL
  else if eq_str raw_str "cpu_utilization_vmm" then Ok CPU_IO
  else if eq_str raw_str "throughput" then Ok THROUGHPUT
  else Raise (ExceptionF "Unknown metric " raw_str).

(** The strings [from_str] compares its argument with. *)
Definition tokens : list string :=
  ["cpu_utilization_vcpus_total"; "cpu_utilization_vmm"; "throughput"].

End Metric.

Module KernelVersion.

Inductive t : Set := KERNEL_5_10 | KERNEL_4_14.

Definition eqb (a b : t) : bool :=
  match a, b with
  | KERNEL_5_10, KERNEL_5_10 | KERNEL_4_14, KERNEL_4_14 => true
  | _, _ => false
  end.

Definition __str__ (self : t) : string :=
  match self with
  | KERNEL_5_10 => "5.10"
  | KERNEL_4_14 => "4.14"
  end.

(** [raw_str in [...]] compares with each element in turn. *)
Definition from_str (raw_str : value) : result t :=
  if existsb (eq_str raw_str) ["5.10"; "vmlinux-5.10.bin"]
  then Ok KERNEL_5_10
  else if existsb (eq_str raw_str) ["4.14"; "vmlinux-4.14.bin"]
  then Ok KERNEL_4_14
  else Raise (ExceptionF "Unknown kernel version: " raw_str).

(** The strings [from_str] compares its argument with. *)
Definition tokens : list string :=
  ["5.10"; "vmlinux-5.10.bin"; "4.14"; "vmlinux-4.14.bin"].

End KernelVersion.

(* ===================================================================== *)
(** ** utils/parser.py: the baseline loader                               *)
(* ===================================================================== *)

(** The nested dictionaries [_parse_data] builds, outermost first:
    CPU model, metric, guest kernel, guest OS, machine configuration, and at
    the bottom the container the test family's extraction function fills. *)
Definition configs_t := list (MachineConfig.t * value).
Definition os_t := list (GuestOs.t * configs_t).
Definition guest_kernels_t := list (KernelVersion.t * os_t).
Definition metrics_t := list (Metric.t * guest_kernels_t).
Definition instances_t := list (CpuModel.t * metrics_t).

(** [container[k1][k2]...], evaluated left to right. *)
Fixpoint getitems (container : value) (ks : list value) : result value :=
  match ks with
  | [] => Ok container
  | k :: rest => c <- getitem container k ;; getitems c rest
  end.

Module BaselineParser.

Record t : Type := mk {
  _meta : list (string * value);
  _baselines : value;
  _instances : instances_t;
  _host_kernel : KernelVersion.t;
  _git_version : value
}.

Section Files.

(** [json.load] of the file at a path: the parsed document, or the error of
    [open] or of the JSON decoder. *)
Variable json_load : string -> result value.

Definition __init__ (baselines : string) (host_kernel : KernelVersion.t)
    (git_version : value) : result t :=
  raw <- json_load baselines ;;
  ks <- keys raw ;;
  if negb (existsb (fun k => k =? "hosts") ks)
  then Raise (Exception "Malformed baseline file")
  else
    meta <- for_each (filter (fun x => negb (x =? "hosts")) ks)
              (fun x meta =>
                 v <- getitem raw (VStr x) ;;
                 Ok (dict_set String.eqb x v meta)) [] ;;
    hosts <- getitem raw (VStr "hosts") ;;
    instances <- getitem hosts (VStr "instances") ;;
    Ok {| _meta := meta;
          _baselines := instances;
          _instances := [];
          _host_kernel := host_kernel;
          _git_version := git_version |}.

End Files.

Definition metadata (self : t) := _meta self.
Definition cpu_models (self : t) := _instances self.
Definition host_kernel (self : t) := _host_kernel self.
Definition git_version (self : t) := _git_version self.

(** The accessors index the nested dictionaries; a missing key raises
    [KeyError]. The key is reported as its display string. *)
Definition lookup {K V} (eqb : K -> K -> bool) (show : K -> string)
    (k : K) (d : list (K * V)) : result V :=
  match dict_get eqb k d with
  | Some v => Ok v
  | None => Raise (KeyError (VStr (show k)))
  end.

Definition metrics (self : t) (instance_type : CpuModel.t) : result metrics_t :=
  lookup CpuModel.eqb CpuModel.__str__ instance_type (_instances self).

Definition guest_kernels (self : t) (instance_type : CpuModel.t)
    (metric : Metric.t) : result guest_kernels_t :=
  m <- metrics self instance_type ;;
  lookup Metric.eqb Metric.__str__ metric m.

Definition guest_rootfs (self : t) (instance_type : CpuModel.t)
    (metric : Metric.t) (guest_kernel : KernelVersion.t) : result os_t :=
  g <- guest_kernels self instance_type metric ;;
  lookup KernelVersion.eqb KernelVersion.__str__ guest_kernel g.

Definition machine_configs (self : t) (instance_type : CpuModel.t)
    (metric : Metric.t) (guest_kernel : KernelVersion.t)
    (guest_rootfs_ : GuestOs.t) : result configs_t :=
  r <- guest_rootfs self instance_type metric guest_kernel ;;
  lookup GuestOs.eqb GuestOs.__str__ guest_rootfs_ r.

Section ParseData.

(** The caller's extraction function: it receives the statistics under the
    statistic-kind key and the fresh container [{}] stored for the
    configuration, and fills the container in place; here it returns the
    container as it leaves it. *)
Variable parser : value -> value -> result value.

(** Body of [for config in baselines[metric][guest_kernel][userspace]]. *)
Definition config_body (baselines metric guest_kernel userspace : value)
    (config : value) (machine_config : configs_t) : result configs_t :=
  leaf <- getitems baselines [metric; guest_kernel; userspace; config] ;;
  metric_type <- keys leaf ;;
  if negb (List.length metric_type =? 1)%nat then Raise AssertionError
  else
    metric_type <- index metric_type 0 ;;
    leaf <- getitems baselines [metric; guest_kernel; userspace; config] ;;
    data <- getitem leaf (VStr metric_type) ;;
    config <- MachineConfig.from_str config ;;
    let machine_config :=
      dict_set MachineConfig.eqb config (VDict []) machine_config in
    container <- parser data (VDict []) ;;
    Ok (dict_set MachineConfig.eqb config container machine_config).

(** Body of [for userspace in baselines[metric][guest_kernel]]. *)
Definition userspace_body (baselines metric guest_kernel : value)
    (userspace : value) (os : os_t) : result os_t :=
  u <- getitems baselines [metric; guest_kernel; userspace] ;;
  cs <- iter u ;;
  machine_config <-
    for_each cs (config_body baselines metric guest_kernel userspace) [] ;;
  k <- GuestOs.from_str userspace ;;
  Ok (dict_set GuestOs.eqb k machine_config os).

(** Body of [for guest_kernel in baselines[metric]]. *)
Definition guest_kernel_body (baselines metric : value)
    (guest_kernel : value) (guest_kernels : guest_kernels_t)
  : result guest_kernels_t :=
  k <- getitems baselines [metric; guest_kernel] ;;
  us <- iter k ;;
  os <- for_each us (userspace_body baselines metric guest_kernel) [] ;;
  kv <- KernelVersion.from_str guest_kernel ;;
  Ok (dict_set KernelVersion.eqb kv os guest_kernels).

(** Body of [for metric in baselines]. *)
Definition metric_body (baselines : value)
    (metric : value) (metrics : metrics_t) : result metrics_t :=
  m <- getitem baselines metric ;;
  gks <- iter m ;;
  guest_kernels <- for_each gks (guest_kernel_body baselines metric) [] ;;
  mt <- Metric.from_str metric ;;
  Ok (dict_set Metric.eqb mt guest_kernels metrics).

(** Body of [for cpu in instance_data['cpus']]. *)
Definition cpu_body (instance_type : string)
    (cpu : value) (instances : instances_t) : result instances_t :=
  model <- getitem cpu (VStr "model") ;;
  baselines <- getitem cpu (VStr "baselines") ;;
  ms <- iter baselines ;;
  metrics <- for_each ms (metric_body baselines) [] ;;
  c <- CpuModel.from_str (VStr instance_type) model ;;
  Ok (dict_set CpuModel.eqb c metrics instances).

(** Body of [for (instance_type, instance_data) in self._baselines.items()]. *)
Definition instance_body (entry : string * value) (instances : instances_t)
  : result instances_t :=
  cpus <- getitem (snd entry) (VStr "cpus") ;;
  cl <- iter cpus ;;
  for_each cl (cpu_body (fst entry)) instances.

(** [_parse_data]: the loops above, started from [self._instances = {}];
    the object is returned with the tree stored. *)
Definition _parse_data (self : t) : result t :=
  entries <- items (_baselines self) ;;
  instances <- for_each entries instance_body [] ;;
  Ok {| _meta := _meta self;
        _baselines := _baselines self;
        _instances := instances;
        _host_kernel := _host_kernel self;
        _git_version := _git_version self |}.

End ParseData.

End BaselineParser.

(* ===================================================================== *)
(** ** utils/net_throughput.py: the TCP throughput loader                 *)
(* ===================================================================== *)

Module NetworkTCPThroughput.

Definition TESTS : list string :=
  ["tcp-p1024K-ws16k"; "tcp-p1024K-ws256k"; "tcp-p1024K-wsDEFAULT";
   "tcp-pDEFAULT-ws16k"; "tcp-pDEFAULT-ws256k"; "tcp-pDEFAULT-wsDEFAULT"].

(** [container[key] = v]. *)
Definition setitem (container : value) (key : string) (v : value)
  : result value :=
  match container with
  | VDict kvs => Ok (VDict (dict_set String.eqb key v kvs))
  | _ => Raise TypeError
  end.

(** [[data[type][field] for type in data.keys() if tag in type]]. *)
Definition column (data : value) (tag field : string) : result value :=
  ks <- keys data ;;
  l <- map_result
         (fun type => getitems data [VStr type; VStr field])
         (filter (contains tag) ks) ;;
  Ok (VList l).

Definition parser (data container : value) : result value :=
  d <- column data "h2g" "delta_percentage" ;;
  g <- column data "h2g" "target" ;;
  container <- setitem container "host-to-guest"
                 (VDict [("delta_percentage", d); ("target", g)]) ;;
  d <- column data "g2h" "delta_percentage" ;;
  g <- column data "g2h" "target" ;;
  container <- setitem container "guest-to-host"
                 (VDict [("delta_percentage", d); ("target", g)]) ;;
  ks <- keys data ;;
  d <- column data "bd" "delta_percentage" ;;
  g <- column data "bd" "target" ;;
  setitem container "bidirectional"
    (VDict [("test_type", VList (map VStr (filter (contains "bd") ks)));
            ("delta_percentage", d); ("target", g)]).

Section Files.

Variable json_load : string -> result value.

(** The constructor: the file name is built from the directory and the host
    kernel's display string, the base class loads it, then the tree is
    parsed. Any exception leaves the caller without an object. *)
Definition __init__ (baseline_dir : string) (host_kernel : KernelVersion.t)
    (git_version : value) : result BaselineParser.t :=
  let baselines_file :=
    baseline_dir ++ "/test_network_tcp_throughput_config_"
      ++ KernelVersion.__str__ host_kernel ++ ".json" in
  self <- BaselineParser.__init__ json_load baselines_file
            host_kernel git_version ;;
  BaselineParser._parse_data parser self.

End Files.

Definition guest_to_host_target (self : BaselineParser.t)
    (instance_type : CpuModel.t) (metric : Metric.t)
    (guest_kernel : KernelVersion.t) (guest_rootfs : GuestOs.t)
    (machine_config : MachineConfig.t) : result value :=
  cs <- BaselineParser.machine_configs self instance_type metric
          guest_kernel guest_rootfs ;;
  c <- BaselineParser.lookup MachineConfig.eqb MachineConfig.__str__
         machine_config cs ;;
  getitems c [VStr "guest-to-host"; VStr "target"].

Definition test_names : list string := TESTS.

(** The five other accessors index the container of a coordinate the same
    way, each with its own two keys. *)
Definition guest_to_host_target_delta (self : BaselineParser.t)
    (instance_type : CpuModel.t) (metric : Metric.t)
    (guest_kernel : KernelVersion.t) (guest_rootfs : GuestOs.t)
    (machine_config : MachineConfig.t) : result value :=
  cs <- BaselineParser.machine_configs self instance_type metric
          guest_kernel guest_rootfs ;;
  c <- BaselineParser.lookup MachineConfig.eqb MachineConfig.__str__
         machine_config cs ;;
  getitems c [VStr "guest-to-host"; VStr "delta"].

Definition host_to_guest_target (self : BaselineParser.t)
    (instance_type : CpuModel.t) (metric : Metric.t)
    (guest_kernel : KernelVersion.t) (guest_rootfs : GuestOs.t)
    (machine_config : MachineConfig.t) : result value :=
  cs <- BaselineParser.machine_configs self instance_type metric
          guest_kernel guest_rootfs ;;
  c <- BaselineParser.lookup MachineConfig.eqb MachineConfig.__str__
         machine_config cs ;;
  getitems c [VStr "host-to-guest"; VStr "target"].

Definition host_to_guest_target_delta (self : BaselineParser.t)
    (instance_type : CpuModel.t) (metric : Metric.t)
    (guest_kernel : KernelVersion.t) (guest_rootfs : GuestOs.t)
    (machine_config : MachineConfig.t) : result value :=
  cs <- BaselineParser.machine_configs self instance_type metric
          guest_kernel guest_rootfs ;;
  c <- BaselineParser.lookup MachineConfig.eqb MachineConfig.__str__
         machine_config cs ;;
  getitems c [VStr "host-to-guest"; VStr "delta"].

Definition bidirectional_target (self : BaselineParser.t)
    (instance_type : CpuModel.t) (metric : Metric.t)
    (guest_kernel : KernelVersion.t) (guest_rootfs : GuestOs.t)
    (machine_config : MachineConfig.t) : result value :=
  cs <- BaselineParser.machine_configs self instance_type metric
          guest_kernel guest_rootfs ;;
  c <- BaselineParser.lookup MachineConfig.eqb MachineConfig.__str__
         machine_config cs ;;
  getitems c [VStr "bidirectional"; VStr "target"].

Definition bidirectional_target_delta (self : BaselineParser.t)
    (instance_type : CpuModel.t) (metric : Metric.t)
    (guest_kernel : KernelVersion.t) (guest_rootfs : GuestOs.t)
    (machine_config : MachineConfig.t) : result value :=
  cs <- BaselineParser.machine_configs self instance_type metric
          guest_kernel guest_rootfs ;;
  c <- BaselineParser.lookup MachineConfig.eqb MachineConfig.__str__
         machine_config cs ;;
  getitems c [VStr "bidirectional"; VStr "delta"].

End NetworkTCPThroughput.

(* ===================================================================== *)
(** ** Commands that act on the checkout: state and exceptions            *)
(* ===================================================================== *)

Module Cmd.

(** What the tools change outside the process: the worktrees registered
    with git, named by their path. *)
Record world : Type := { worktrees : list string }.

(** A command runs in a world and leaves a world, whether it returns or
    raises: nothing is rolled back by an exception. *)
Definition cmd (A : Type) : Type := world -> result A * world.

Definition ret {A} (a : A) : cmd A := fun w => (Ok a, w).

Definition raise {A} (e : exn) : cmd A := fun w => (Raise e, w).

Definition lift {A} (r : world -> result A) : cmd A := fun w => (r w, w).

Definition seq {A B} (c : cmd A) (k : A -> cmd B) : cmd B :=
  fun w =>
    match c w with
    | (Ok a, w') => k a w'
    | (Raise e, w') => (Raise e, w')
    end.

(** [with mgr as x: body]: [__exit__] runs when the body returns and when it
    raises; it returns [None], so the body's exception is raised again, and
    an exception of [__exit__] itself replaces it. Nothing runs when
    [__enter__] raises. [exit] receives what [__enter__] left in the
    manager. *)
Definition with_ {A B} (enter : cmd A) (exit : A -> cmd unit)
    (body : A -> cmd B) : cmd B :=
  fun w =>
    match enter w with
    | (Raise e, w1) => (Raise e, w1)
    | (Ok a, w1) =>
        let (r, w2) := body a w1 in
        match exit a w2 with
        | (Ok _, w3) => (r, w3)
        | (Raise e, w3) => (Raise e, w3)
        end
    end.

End Cmd.

Import Cmd.

Declare Scope cmd_scope.
Delimit Scope cmd_scope with cmd.
Notation "x <-- c ;; k" := (seq c (fun x => k))
  (at level 61, c at next level, right associativity) : cmd_scope.
Notation "c ;;; k" := (seq c (fun _ => k))
  (at level 61, right associativity) : cmd_scope.

(** ** git, as the tools call it through [subprocess] *)

Module Git.

Section Repository.

(** The commit a revision resolves to, when it resolves. *)
Variable rev_parse : string -> option string.

Definition mem (p : string) (l : list string) : bool :=
  existsb (String.eqb p) l.

(** [subprocess.run(["git", "rev-parse", ref], check=True)] and the stripped
    output. *)
Definition run_rev_parse (git_ref : string) : cmd string :=
  match rev_parse git_ref with
  | Some hash => ret hash
  | None => raise (CalledProcessError ["git"; "rev-parse"; git_ref])
  end.

(** [subprocess.run(["git", "worktree", "add", path, commit], check=True)]:
    git refuses a path that is in use and a commit it cannot resolve. *)
Definition worktree_add (path commit : string) : cmd unit :=
  fun w =>
    match rev_parse commit with
    | Some _ =>
        if mem path (worktrees w)
        then (Raise (CalledProcessError
                       ["git"; "worktree"; "add"; path; commit]), w)
        else (Ok tt, {| worktrees := worktrees w ++ [path] |})
    | None => (Raise (CalledProcessError
                        ["git"; "worktree"; "add"; path; commit]), w)
    end.

(** [subprocess.run(["git", "worktree", "remove", path], check=True)]. *)
Definition worktree_remove (path : string) : cmd unit :=
  fun w =>
    if mem path (worktrees w)
    then (Ok tt,
          {| worktrees :=
               filter (fun p => negb (String.eqb path p)) (worktrees w) |})
    else (Raise (CalledProcessError ["git"; "worktree"; "remove"; path]), w).

End Repository.

End Git.

(* ===================================================================== *)
(** ** utils/git_worktree.py                                              *)
(* ===================================================================== *)

Module GitWorktree.

Section Repository.

Variable rev_parse : string -> option string.

Definition __enter__ (git_ref : string) : cmd string :=
  (hash <-- Git.run_rev_parse rev_parse git_ref ;;
   Git.worktree_add rev_parse hash hash ;;;
   ret hash)%cmd.

(** [__exit__] removes [self._hash], which only [__enter__] sets. *)
Definition __exit__ (hash : string) : cmd unit :=
  Git.worktree_remove hash.

(** [with GitWorktree(git_ref) as worktree: body]; [__exit__] receives the
    hash [__enter__] stored in [self._hash]. *)
Definition scope {B} (git_ref : string) (body : string -> cmd B) : cmd B :=
  with_ (__enter__ git_ref) __exit__ body.

End Repository.

End GitWorktree.

(* ===================================================================== *)
(** ** compare_baselines/main.py: the revision commands                   *)
(* ===================================================================== *)

Module CompareMain.

Record args : Type := {
  source : string;
  target : option string;
  tests : list string;
  kernels : list string;
  codenames : list string;
  auxiliary : bool;
  output : string
}.

(** [os.path.join(a, b)] on POSIX. *)
Definition ends_with_slash (a : string) : bool :=
  match rev (list_ascii_of_string a) with
  | c :: _ => Ascii.eqb c "/"
  | [] => false
  end.

Definition path_join (a b : string) : string :=
  if String.prefix "/" b then b
  else if (a =? "") || ends_with_slash a then a ++ b
  else a ++ "/" ++ b.

Section Collaborators.

Variable rev_parse : string -> option string.

(** [git show --format='%H' --no-patch], after [[:-1].decode().strip("'")]:
    the hash of the checked out commit, when the command succeeds. *)
Variable head_hash : option string.

(** [utils/defs.py] and [utils/comparator.py] are not part of the sources at
    hand: the constant and the comparator's three entry points are taken as
    they come. The comparator reads and writes files; it registers and
    removes no worktree, so it is a function of the world it runs in. *)
Variable DEFAULT_BASELINE_DIRECTORY : string.
Variable comparator : Type.
Variable DirectoryComparator :
  string -> string -> list string -> list string -> list string ->
  world -> result comparator.
Variable compare : comparator -> bool -> world -> result comparator.
Variable dump_json : comparator -> string -> world -> result unit.

Definition show_head : cmd string :=
  match head_hash with
  | Some h => ret h
  | None =>
      raise (CalledProcessError
               ["git"; "show"; "--format='%H'"; "--no-patch"])
  end.

Definition cmd_commit (a : args) : cmd unit :=
  (target <-- match target a with
              | None => show_head
              | Some t => ret t
              end ;;
   Git.worktree_add rev_parse (source a) (source a) ;;;
   Git.worktree_add rev_parse target target ;;;
   comp <-- lift (DirectoryComparator
                    (path_join (source a) DEFAULT_BASELINE_DIRECTORY)
                    (path_join target DEFAULT_BASELINE_DIRECTORY)
                    (tests a) (kernels a) (codenames a)) ;;
   Git.worktree_remove (source a) ;;;
   Git.worktree_remove target ;;;
   comp <-- lift (compare comp (auxiliary a)) ;;
   lift (dump_json comp (output a)))%cmd.

Definition cmd_latest (a : args) : cmd unit :=
  (latest_hash <-- show_head ;;
   Git.worktree_add rev_parse latest_hash latest_hash ;;;
   comp <-- lift (DirectoryComparator
                    (path_join latest_hash DEFAULT_BASELINE_DIRECTORY)
                    DEFAULT_BASELINE_DIRECTORY
                    (tests a) (kernels a) (codenames a)) ;;
   Git.worktree_remove latest_hash ;;;
   comp <-- lift (compare comp (auxiliary a)) ;;
   lift (dump_json comp (output a)))%cmd.

End Collaborators.

End CompareMain.

(* ===================================================================== *)
(** ** compare_baselines/output_images.py: the rendering step             *)
(* ===================================================================== *)

Module OutputImages.

(** [a + base] for the integer offset [base]: a float takes the offset as a
    float, an integer (and a boolean, which is one) stays an integer,
    anything else a report can hold raises [TypeError]. *)
Definition add (a : value) (base : Z) : result value :=
  match a with
  | VFloat f => Ok (VFloat (f + float_of_Z base))
  | VInt n => Ok (VInt (n + base))
  | VBool b => Ok (VInt ((if b then 1 else 0) + base))
  | _ => Raise TypeError
  end.

(** One saved image: the arguments of [plt.title], [plt.ylabel], [plt.bar]
    and [plt.savefig]. An f-string is kept as its pieces in order. *)
Record figure : Type := {
  title : list value;
  ylabel : list value;
  x_vals : list Z;
  y_vals : list value;
  tick_label : list value;
  yerr : list value;
  fname : string * list value
}.

Record columns : Type := {
  c_labels : list value;
  c_x : list Z;
  c_y : list value;
  c_yerrs : list value
}.

Definition enumerate {A} (l : list A) : list (Z * A) :=
  combine (map Z.of_nat (List.seq 0 (List.length l))) l.

Section Defs.

(** [utils/defs.py] is not part of the sources at hand: the table of short
    model names is taken as it comes. *)
Variable MODEL2SHORT : value.

(** Body of [for i, cpu in enumerate(cpus)]. *)
Definition cpu_body (base : Z) (ic : Z * value) (c : columns)
  : result columns :=
  let (i, cpu) := ic in
  m <- getitem cpu (VStr "model") ;;
  label <- getitem MODEL2SHORT m ;;
  mean <- getitems cpu [VStr "value"; VStr "mean"] ;;
  y <- add mean base ;;
  stdev <- getitems cpu [VStr "value"; VStr "stdev"] ;;
  Ok {| c_labels := (c_labels c ++ [label])%list;
        c_x := (c_x c ++ [i])%list;
        c_y := (c_y c ++ [y])%list;
        c_yerrs := (c_yerrs c ++ [stdev])%list |}.

(** Body of [for metric, value in stats.items()]. *)
Definition metric_body (raw : value) (dpath key : string) (base : Z)
    (mv : string * value) (saved : list figure) : result (list figure) :=
  let (metric, value) := mv in
  cpus <- getitem value (VStr key) ;;
  cl <- iter cpus ;;
  c <- for_each (enumerate cl) (cpu_body base)
         {| c_labels := []; c_x := []; c_y := []; c_yerrs := [] |} ;;
  m0 <- getitems cpus [VInt 0; VStr "model"] ;;
  basis <- getitem MODEL2SHORT m0 ;;
  test <- getitem raw (VStr "test") ;;
  kernel <- getitem raw (VStr "kernel") ;;
  Ok (saved ++
      [{| title := [VStr metric; VStr " - "; VStr key];
          ylabel := [VStr "% on basis of "; basis];
          x_vals := c_x c;
          y_vals := c_y c;
          tick_label := c_labels c;
          yerr := c_yerrs c;
          fname := (dpath, [test; VStr "_"; kernel; VStr "_"; VStr metric;
                            VStr "_"; VStr key; VStr ".png"]) |}])%list.

(** Body of [for raw in result.values()]. *)
Definition raw_body (dpath key : string) (base : Z)
    (raw : value) (saved : list figure) : result (list figure) :=
  stats <- getitem raw (VStr "stats") ;;
  entries <- items stats ;;
  for_each entries (metric_body raw dpath key base) saved.

Definition output_images (result : value) (dpath key : string) (base : Z)
    (saved : list figure) : Py.result (list figure) :=
  raws <- values result ;;
  for_each raws (raw_body dpath key base) saved.

(** The two passes of [main]: the key read from the report and the offset
    added to its values. *)
Definition passes : list (string * Z) :=
  [("target_diff_percentage", 100%Z); ("delta_percentage_diff", 0%Z)].

(** [main], from the parsed arguments on; the images saved, in order. *)
Definition main (json_load : string -> Py.result value)
    (input output : string) : Py.result (list figure) :=
  result <- json_load input ;;
  for_each passes
    (fun kb saved => output_images result output (fst kb) (snd kb) saved) [].

End Defs.

End OutputImages.

(* ===================================================================== *)
(** ** The comparison records                                             *)
(* ===================================================================== *)

Module Comparator.

(** Modelled from the spec: [utils/comparator.py] ([CpuComparator],
    [DirectoryComparator]) is imported by [compare_baselines/main.py] but is
    not part of the sources at hand. The leaf, the record and the two
    formulas follow the specification's data model and comparison
    algorithm. *)
Record BaselineLeaf : Type := {
  target : value;
  delta_percentage : value
}.

(** Modelled from the spec: the record computed for a leaf; a field is
    absent when the specification leaves it undefined. *)
Record ComparisonRecord : Type := {
  target_diff_percentage : option float;
  delta_percentage_diff : option float
}.

(** Modelled from the spec: a statistic is numeric when it is a JSON
    number. *)
Definition numeric (v : value) : option float :=
  match v with
  | VFloat f => Some f
  | VInt n => Some (float_of_Z n)
  | _ => None
  end.

(** Modelled from the spec: the comparison of two leaves at one coordinate.
    The ratio is [(comparison.target / basis.target) * 100] when the basis
    target is numeric and non-zero and absent otherwise; the tolerance
    change is [comparison.delta_percentage - basis.delta_percentage]. *)
Definition compare_leaves (basis comparison : BaselineLeaf)
  : ComparisonRecord :=
  {| target_diff_percentage :=
       match numeric (target basis), numeric (target comparison) with
       | Some b, Some c =>
           if (b =? 0)%float then None else Some (c / b * 100)%float
       | _, _ => None
       end;
     delta_percentage_diff :=
       match numeric (delta_percentage basis),
             numeric (delta_percentage comparison) with
       | Some b, Some c => Some (c - b)%float
       | _, _ => None
       end |}.

(** Modelled from the spec: the entry of the report for one compared model
    and one key, in the shape the rendering step reads. *)
Definition report_entry (model : string) (mean stdev : float) : value :=
  VDict [("model", VStr model);
         ("value", VDict [("mean", VFloat mean); ("stdev", VFloat stdev)])].

End Comparator.

(* ===================================================================== *)
(** ** utils/net_throughput.py: plotting the history of the throughput    *)
(* ===================================================================== *)

(** [for x in xs: body] for commands. *)
Fixpoint for_cmd {A S} (xs : list A) (body : A -> S -> cmd S) (s : S)
  : cmd S :=
  match xs with
  | [] => ret s
  | x :: rest => seq (body x s) (for_cmd rest body)
  end.

Module PlotThroughput.

(** A [defaultdict(lambda: [])] from test names to lists. *)
Definition series : Type := list (string * list value).

(** [d[test].append(v)]: a missing key starts from the empty list. *)
Definition append (test : string) (v : value) (d : series) : series :=
  match dict_get String.eqb test d with
  | Some l => dict_set String.eqb test (l ++ [v])%list d
  | None => dict_set String.eqb test [v] d
  end.

Record guest_to_host_t : Type := {
  metric : series;
  io_util : series;
  total_util : series
}.

(** [for (test, value) in zip(TESTS, values): d[test].append(value)]. *)
Definition zip_append (values : list value) (d : series) : series :=
  fold_left (fun acc tv => append (fst tv) (snd tv) acc)
    (combine NetworkTCPThroughput.TESTS values) d.

(** What is drawn: one call of [ax.bar] per test, the ticks of the x axis
    and the file the figure is saved to. Styles, legend and printed
    messages are left out. *)
Record bar : Type := {
  positions : list float;
  heights : list value;
  bar_width : float;
  bar_label : string
}.

Record plot : Type := {
  title : string;
  bars : list bar;
  xticks : list float;
  xtick_labels : list string;
  outfile : string
}.

Definition newline : string := String (ascii_of_nat 10) EmptyString.

(** [1 / (len(TESTS) + 1)]. *)
Definition width : float :=
  (float_of_Z 1
   / float_of_Z (Z.of_nat (List.length NetworkTCPThroughput.TESTS) + 1))%float.

(** [np.arange(n) + offset]. *)
Definition arange_plus (n : nat) (offset : float) : list float :=
  map (fun i => (float_of_Z (Z.of_nat i) + offset)%float) (List.seq 0 n).

Section Repository.

Variable rev_parse : string -> option string.

(** [json.load] of a file as the checkouts of a world show it. *)
Variable json_load : world -> string -> result value.

(** The builtin [hash], which the function passes as the git version. *)
Variable hash_builtin : value.

Definition state : Type := list string * guest_to_host_t.

(** The block under [with GitWorktree(git_ref) as worktree]; a [continue]
    leaves the block with the state unchanged. *)
Definition in_worktree
    (data_parser : BaselineParser.t -> result (value * value * value))
    (machine : CpuModel.t) (host_kernel guest_kernel : KernelVersion.t)
    (git_ref : string) (st : state) (worktree : string) : cmd state :=
  fun w =>
    let data_file :=
      worktree
      ++ "/tests/integration_tests/performance/configs/test_network_tcp_throughput_config_"
      ++ KernelVersion.__str__ host_kernel ++ ".json" in
    (parser <- NetworkTCPThroughput.__init__ (json_load w) data_file
                 host_kernel hash_builtin ;;
     if negb (existsb (CpuModel.eqb machine)
                (map fst (BaselineParser.cpu_models parser)))
     then Ok st
     else
       gks <- BaselineParser.guest_kernels parser machine
                Metric.THROUGHPUT ;;
       if negb (existsb (KernelVersion.eqb guest_kernel) (map fst gks))
       then Ok st
       else
         let found_git_versions := (fst st ++ [git_ref])%list in
         t <- data_parser parser ;;
         m <- iter (fst (fst t)) ;;
         i <- iter (snd (fst t)) ;;
         u <- iter (snd t) ;;
         Ok (found_git_versions,
             {| metric := zip_append m (metric (snd st));
                io_util := zip_append i (io_util (snd st));
                total_util := zip_append u (total_util (snd st)) |}),
     w).

Definition _plot_network_tcp_throughput
    (data_parser : BaselineParser.t -> result (value * value * value))
    (title : string) (git_versions : list string) (machine : CpuModel.t)
    (host_kernel guest_kernel : KernelVersion.t) (outfile_ : string)
    (saved : list plot) : cmd (list plot) :=
  seq (for_cmd git_versions
         (fun git_ref st =>
            GitWorktree.scope rev_parse git_ref
              (in_worktree data_parser machine host_kernel guest_kernel
                 git_ref st))
         ([], {| metric := []; io_util := []; total_util := [] |}))
      (fun st =>
         let found_git_versions := fst st in
         let n := List.length found_git_versions in
         ret (saved ++
              [{| title :=
                    "Network TCP throughput" ++ newline ++ "Machine: "
                    ++ CpuModel.__str__ machine ++ " Host Kernel: "
                    ++ KernelVersion.__str__ host_kernel
                    ++ " Guest Kernel: "
                    ++ KernelVersion.__str__ guest_kernel;
                  bars :=
                    map (fun imv =>
                           {| positions :=
                                arange_plus n
                                  (float_of_Z (Z.of_nat (fst imv)) * width);
                              heights := snd (snd imv);
                              bar_width := width;
                              bar_label := fst (snd imv) |})
                      (combine
                         (List.seq 0 (List.length (metric (snd st))))
                         (metric (snd st)));
                  xticks := arange_plus n (2.5 * width);
                  xtick_labels := found_git_versions;
                  outfile := outfile_ |}])%list).

(** The three lists the plot reads from a loader. *)
Definition data_parser (machine : CpuModel.t) (guest_kernel : KernelVersion.t)
    (parser : BaselineParser.t) : result (value * value * value) :=
  a <- NetworkTCPThroughput.guest_to_host_target parser machine
         Metric.THROUGHPUT guest_kernel GuestOs.UBUNTU_18_04
         MachineConfig.VCPU_2_MEM_1G ;;
  b <- NetworkTCPThroughput.guest_to_host_target parser machine
         Metric.CPU_IO guest_kernel GuestOs.UBUNTU_18_04
         MachineConfig.VCPU_2_MEM_1G ;;
  c <- NetworkTCPThroughput.guest_to_host_target parser machine
         Metric.CPU_TOTAL guest_kernel GuestOs.UBUNTU_18_04
         MachineConfig.VCPU_2_MEM_1G ;;
  Ok (a, b, c).

Definition plot_network_tcp_throughput (git_versions : list string)
    (machine : CpuModel.t) (host_kernel guest_kernel : KernelVersion.t)
    (outdir : string) (saved : list plot) : cmd (list plot) :=
  _plot_network_tcp_throughput
    (data_parser machine guest_kernel)
    ("guest-to-host TCP throughput" ++ newline ++ "Machine: "
     ++ CpuModel.__str__ machine ++ " Host kernel: "
     ++ KernelVersion.__str__ host_kernel ++ " Guest kernel: "
     ++ KernelVersion.__str__ guest_kernel)
    git_versions machine host_kernel guest_kernel
    (outdir ++ "/network_tcp_throughput_" ++ CpuModel.__str__ machine
     ++ "_host-" ++ KernelVersion.__str__ host_kernel ++ "_guest-"
     ++ KernelVersion.__str__ guest_kernel ++ "_host-to-guest.png")
    saved.

End Repository.

End PlotThroughput.

(* ===================================================================== *)
(** ** print_baselines/main.py                                            *)
(* ===================================================================== *)

Module PrintMain.

Record args : Type := {
  tests : list string;
  host_kernels : list string;
  guest_kernels : list string;
  cpu_models : list string;
  git_versions : list string;
  out_dir : string
}.

Section Repository.

Variable rev_parse : string -> option string.
Variable json_load : world -> string -> result value.
Variable hash_builtin : value.

Definition plot_guest_kernel_metrics (a : args) (machine : CpuModel.t)
    (host_kernel guest_kernel : KernelVersion.t) (saved : list PlotThroughput.plot)
  : cmd (list PlotThroughput.plot) :=
  for_cmd (tests a)
    (fun test saved =>
       if test =? "network_tcp_throughput"
       then PlotThroughput.plot_network_tcp_throughput rev_parse json_load
              hash_builtin (git_versions a) machine host_kernel guest_kernel
              (out_dir a) saved
       else ret saved)
    saved.

Definition plot_host_kernel_metrics (a : args) (machine : CpuModel.t)
    (host_kernel : KernelVersion.t) (saved : list PlotThroughput.plot)
  : cmd (list PlotThroughput.plot) :=
  for_cmd (guest_kernels a)
    (fun guest_kernel saved =>
       seq (lift (fun _ => KernelVersion.from_str (VStr guest_kernel)))
         (fun guest_kernel =>
            plot_guest_kernel_metrics a machine host_kernel guest_kernel
              saved))
    saved.

Definition plot_machine_metrics (a : args) (machine : CpuModel.t)
    (saved : list PlotThroughput.plot) : cmd (list PlotThroughput.plot) :=
  for_cmd (host_kernels a)
    (fun host_kernel saved =>
       seq (lift (fun _ => KernelVersion.from_str (VStr host_kernel)))
         (fun host_kernel =>
            plot_host_kernel_metrics a machine host_kernel saved))
    saved.

Definition cmd_git (a : args) (saved : list PlotThroughput.plot)
  : cmd (list PlotThroughput.plot) :=
  for_cmd (cpu_models a)
    (fun machine saved =>
       seq (lift (fun _ => CpuModel.from_codename (VStr machine)))
         (fun machine => plot_machine_metrics a machine saved))
    saved.

End Repository.

End PrintMain.

(* ===================================================================== *)
(** ** utils/plotter.py                                                   *)
(* ===================================================================== *)

Module MetricPlotter.

(** [itertools.product] of its iterables: the tuples with one element of
    each iterable, the last varying fastest. *)
Fixpoint product (iterables : list (list value)) : list (list value) :=
  match iterables with
  | [] => [[]]
  | xs :: rest =>
      flat_map (fun x => map (cons x) (product rest)) xs
  end.

(** The lists of a plotter that [git_combinations] reads. *)
Record t : Type := {
  _machines : list value;
  _host_kernels : list value;
  _guest_kernels : list value
}.

(** [itertools.product([self.machines, self.host_kernels,
    self.guest_kernels])]: the three lists are the elements of the one
    iterable given. *)
Definition git_combinations (self : t) : list value :=
  map VTuple
    (product [[VList (_machines self); VList (_host_kernels self);
               VList (_guest_kernels self)]]).

End MetricPlotter.

(* ===================================================================== *)
(** ** .buildkite/pipeline_perf.py: the performance pipeline              *)
(* ===================================================================== *)

Module PipelinePerf.

(** A dictionary of keyword arguments or of a test definition. *)
Definition dict : Type := list (string * value).

Definition dict_del (k : string) (d : dict) : dict :=
  filter (fun e => negb (fst e =? k)) d.

(** [d.pop(k)]: the value and the dictionary without the key. *)
Definition pop (k : string) (d : dict) : result (value * dict) :=
  match dict_get String.eqb k d with
  | Some v => Ok (v, dict_del k d)
  | None => Raise (KeyError (VStr k))
  end.

(** [d.setdefault(k, v)]. *)
Definition setdefault (k : string) (v : value) (d : dict) : dict :=
  match dict_get String.eqb k d with
  | Some _ => d
  | None => dict_set String.eqb k v d
  end.

(** [d.update(other)]. *)
Definition update (other d : dict) : dict :=
  fold_left (fun acc e => dict_set String.eqb (fst e) (snd e) acc) other d.

(** The keywords [build_group] passes to [group] by name: a key of the
    same name among the remaining ones is a [TypeError] of the call. *)
Definition named : list string :=
  ["label"; "command"; "agent_tags"; "artifacts"; "instances"; "kernels"].

(** The arguments after parsing and after the defaults of lines 90 to 95:
    [extra] is the dictionary made of the [key=value] options. *)
Record args : Type := {
  test : list string;
  instances : list string;
  kernels : list string;
  retries : Z;
  extra : dict
}.

Section Common.

(** [common.py] is not part of the sources at hand: the two default lists
    and [group] are taken as they come. [group] receives its six named
    arguments, the command as the pieces of its f-string, and the remaining
    keyword arguments. *)
Variable DEFAULT_INSTANCES DEFAULT_KERNELS : value.
Variable group :
  value -> list value -> value -> value -> value -> value -> dict ->
  result value.

(** [build_group(test)]: the step, and the dictionary as the pops leave
    it. *)
Definition build_group (test : dict) : result (value * dict) :=
  p <- pop "devtool_opts" test ;;
  let devtool_opts := fst p in
  p <- pop "test_path" (snd p) ;;
  let test_path := fst p in
  p <- pop "label" (snd p) ;;
  let label := fst p in
  p <- pop "instances" (snd p) ;;
  let instances := fst p in
  p <- pop "kernels" (snd p) ;;
  let kernels := fst p in
  let test := snd p in
  if existsb (fun e => existsb (String.eqb (fst e)) named) test
  then Raise TypeError
  else
    step <- group label
              [VStr "./tools/devtool -y test "; devtool_opts;
               VStr " -- --nonci -s --dump-results-to-file --log-cli-level=INFO ";
               test_path]
              (VList [VStr "ag=1"]) (VList [VStr "./test_results/*"])
              instances kernels test ;;
    Ok (step, test).

Definition strings (l : list string) : value := VList (map VStr l).

(** Lines 90 to 93. *)
Definition instances_of (a : args) : value :=
  match instances a with [] => DEFAULT_INSTANCES | l => strings l end.

Definition kernels_of (a : args) : value :=
  match kernels a with [] => DEFAULT_KERNELS | l => strings l end.

Definition retry (limit : Z) : value :=
  VDict [("automatic",
          VDict [("exit_status", VInt 1); ("limit", VInt limit)])].

(** Lines 99 to 104: what the loop does to a test definition before it
    builds the step. *)
Definition prepare (a : args) (test_data : dict) : dict :=
  let test_data := setdefault "kernels" (kernels_of a) test_data in
  let test_data := setdefault "instances" (instances_of a) test_data in
  let test_data := update (extra a) test_data in
  if (0 <? retries a)%Z
  then setdefault "retry" (retry (retries a)) test_data
  else test_data.

(** The loop of lines 98 to 105 over the selected tests. [tests] holds the
    dictionaries of [perf_test] themselves, so the loop works on the table:
    the state is the table and the steps built so far. *)
Definition loop_body (a : args) (name : string)
    (st : list (string * dict) * list value)
  : result (list (string * dict) * list value) :=
  match dict_get String.eqb name (fst st) with
  | None => Raise (KeyError (VStr name))
  | Some test_data =>
      p <- build_group (prepare a test_data) ;;
      Ok (dict_set String.eqb name (snd p) (fst st),
          (snd st ++ [fst p])%list)
  end.

(** Lines 96 to 114: the selection of line 97 fails before any step is
    built when a name is not in the table; the result is the pipeline. *)
Definition pipeline (perf_test : list (string * dict)) (a : args)
  : result value :=
  _ <- map_result
         (fun name =>
            match dict_get String.eqb name perf_test with
            | Some d => Ok d
            | None => Raise (KeyError (VStr name))
            end) (test a) ;;
  st <- for_each (test a) (loop_body a) (perf_test, []) ;;
  Ok (VDict
        [("env", VDict [("AWS_EMF_SERVICE_NAME", VStr "PerfTests");
                        ("AWS_EMF_NAMESPACE", VStr "PerfTests")]);
         ("agents", VDict [("queue", VStr "public-prod-us-east-1")]);
         ("steps", VList (snd st))]).

End Common.

(** The table of the tests. The pictograph of a label is held as the bytes
    of its UTF-8 encoding. *)
Definition perf_test : list (string * dict) :=
  [("block",
    [("label", VStr "🖴 Block Performance");
     ("test_path",
      VStr "integration_tests/performance/test_block_performance.py");
     ("devtool_opts", VStr "-r 16834m -c 1-10 -m 0");
     ("timeout_in_minutes", VInt 240)]);
   ("snapshot-latency",
    [("label", VStr "📸 Snapshot Latency");
     ("test_path",
      VStr "integration_tests/performance/test_snapshot_restore_performance.py");
     ("devtool_opts", VStr "-c 1-12 -m 0");
     ("timeout_in_minutes", VInt 45)]);
   ("vsock-throughput",
    [("label", VStr "🧦 Vsock Throughput");
     ("test_path",
      VStr "integration_tests/performance/test_vsock_throughput.py");
     ("devtool_opts", VStr "-c 1-10 -m 0");
     ("timeout_in_minutes", VInt 20)]);
   ("network-latency",
    [("label", VStr "🖧 Network Latency");
     ("test_path",
      VStr "integration_tests/performance/test_network_latency.py");
     ("devtool_opts", VStr "-c 1-10 -m 0");
     ("timeout_in_minutes", VInt 10)]);
   ("network-throughput",
    [("label", VStr "🖧 Network TCP Throughput");
     ("test_path",
      VStr "integration_tests/performance/test_network_tcp_throughput.py");
     ("devtool_opts", VStr "-c 1-10 -m 0");
     ("timeout_in_minutes", VInt 45)])].

End PipelinePerf.

(* ===================================================================== *)
(** ** Vocabulary of the properties                                       *)
(* ===================================================================== *)

(** A computation that raises. *)
Definition fails {A} (r : result A) : Prop := exists e, r = Raise e.

(** What a parser of tokens does on a string: a value for a known token,
    the given exception for any other. *)
Definition parses_exactly {T} (from : value -> result T)
    (tokens : list string) (prefix : string) : Prop :=
  forall s : string,
    match from (VStr s) with
    | Ok _ => In s tokens
    | Raise e => ~ In s tokens /\ e = ExceptionF prefix (VStr s)
    end.

(** The top-level entries of a document that are metadata. *)
Definition not_hosts (kv : string * value) : bool := negb (fst kv =? "hosts").

(** [x] is what [c[k]] gives for a [k] met when iterating over [c]. *)
Definition child (c k x : value) : Prop :=
  exists ks, iter c = Ok ks /\ In k ks /\ getitem c k = Ok x.

(** The machine-configuration leaves of the per-instance baselines: the
    objects at instance, CPU entry, metric, guest kernel, guest OS and
    configuration. *)
Definition config_leaf (instances leaf : value) : Prop :=
  exists entries instance_type instance_data cpus cl cpu baselines
         metric m guest_kernel k userspace u config,
    items instances = Ok entries
    /\ In (instance_type, instance_data) entries
    /\ getitem instance_data (VStr "cpus") = Ok cpus
    /\ iter cpus = Ok cl /\ In cpu cl
    /\ getitem cpu (VStr "baselines") = Ok baselines
    /\ child baselines metric m
    /\ child m guest_kernel k
    /\ child k userspace u
    /\ child u config leaf.

(** The same, for the element the iteration over [c] meets first. *)
Definition first_child (c k x : value) : Prop :=
  exists rest, iter c = Ok (k :: rest) /\ getitem c k = Ok x.

(** The leaf the traversal reaches first: first instance type, first CPU
    entry (which has a model), first metric, guest kernel, guest OS and
    configuration. *)
Definition first_config_leaf (instances leaf : value) : Prop :=
  exists instance_type instance_data entries cpus cpu cl model baselines
         metric m guest_kernel k userspace u config,
    items instances = Ok ((instance_type, instance_data) :: entries)
    /\ getitem instance_data (VStr "cpus") = Ok cpus
    /\ iter cpus = Ok (cpu :: cl)
    /\ getitem cpu (VStr "model") = Ok model
    /\ getitem cpu (VStr "baselines") = Ok baselines
    /\ first_child baselines metric m
    /\ first_child m guest_kernel k
    /\ first_child k userspace u
    /\ first_child u config leaf.

(** A leaf with exactly one statistic-kind key. *)
Definition one_statistic_kind (leaf : value) : Prop :=
  forall ks, keys leaf = Ok ks -> List.length ks = 1%nat.

(** A computation that does not raise [AssertionError]. *)
Definition quiet {A} (r : result A) : Prop := r <> Raise AssertionError.

(** The bar drawn for an entry is its mean plus the offset. *)
Definition bar_of (base : Z) (cpu y : value) : Prop :=
  exists mean,
    getitems cpu [VStr "value"; VStr "mean"] = Ok mean
    /\ OutputImages.add mean base = Ok y.

(** The coordinates of the leaves of a tree, in order: the keys met from
    the CPU model down to the machine configuration. *)
Definition paths {K V C} (f : V -> list C) (d : list (K * V))
  : list (K * C) :=
  flat_map (fun e => map (pair (fst e)) (f (snd e))) d.

Definition coordinate : Type :=
  CpuModel.t * (Metric.t * (KernelVersion.t * (GuestOs.t * MachineConfig.t))).

Definition coordinates (instances : instances_t) : list coordinate :=
  paths (paths (paths (paths (map fst)))) instances.

(** A dictionary holds each key once, and its values are well formed. *)
Definition wf_dict {K V} (P : V -> Prop) (d : list (K * V)) : Prop :=
  NoDup (map fst d) /\ Forall (fun e => P (snd e)) d.

Definition wf_configs : configs_t -> Prop := wf_dict (fun _ => True).
Definition wf_os : os_t -> Prop := wf_dict wf_configs.
Definition wf_guest_kernels : guest_kernels_t -> Prop := wf_dict wf_os.
Definition wf_metrics : metrics_t -> Prop := wf_dict wf_guest_kernels.
Definition wf_instances : instances_t -> Prop := wf_dict wf_metrics.

(** The per-instance baselines of one instance type with the given CPU
    entries, and a loader holding them. *)
Definition one_instance (instance_type : string) (cpus : list value)
  : value :=
  VDict [(instance_type, VDict [("cpus", VList cpus)])].

Definition holding (self : BaselineParser.t) (baselines : value)
  : BaselineParser.t :=
  {| BaselineParser._meta := BaselineParser._meta self;
     BaselineParser._baselines := baselines;
     BaselineParser._instances := BaselineParser._instances self;
     BaselineParser._host_kernel := BaselineParser._host_kernel self;
     BaselineParser._git_version := BaselineParser._git_version self |}.

(** ** Sample documents *)

Module Sample.

Definition stat (target delta : float) : value :=
  VDict [("target", VFloat target); ("delta_percentage", VFloat delta)].

(** A leaf with one statistic kind, and one with two. *)
Definition one_kind (target : float) : value :=
  VDict [("Avg", VDict [("tcp-p1024K-ws16k-g2h", stat target 10);
                        ("tcp-p1024K-ws16k-h2g", stat 200 5);
                        ("tcp-p1024K-ws16k-bd", stat 300 7)])].

Definition two_kinds : value :=
  VDict [("Avg", VDict []); ("Total", VDict [])].

Definition userspaces (configs : list (string * value)) : value :=
  VDict [("ubuntu-18.04.ext4", VDict configs)].

Definition guest_kernels (configs : list (string * value)) : value :=
  VDict [("vmlinux-5.10.bin", userspaces configs)].

Definition baselines (configs : list (string * value)) : value :=
  VDict [("throughput", guest_kernels configs)].

Definition cpu (model : string) (configs : list (string * value)) : value :=
  VDict [("model", VStr model); ("baselines", baselines configs)].

Definition instances (cpus : list value) : value :=
  VDict [("m6g.metal", VDict [("cpus", VList cpus)])].

Definition top_level (cpus : list value) : list (string * value) :=
  [("name", VStr "network_tcp_throughput");
   ("hosts", VDict [("instances", instances cpus)])].

Definition document (cpus : list value) : value := VDict (top_level cpus).

(** A file system holding one document, at the path the throughput loader
    builds for the directory [configs] and the host kernel 5.10. *)
Definition files (doc : value) (path : string) : result value :=
  if path =? "configs/test_network_tcp_throughput_config_5.10.json"
  then Ok doc
  else Raise (FileNotFoundError path).

Definition loader (instances : value) : BaselineParser.t :=
  {| BaselineParser._meta := [];
     BaselineParser._baselines := instances;
     BaselineParser._instances := [];
     BaselineParser._host_kernel := KernelVersion.KERNEL_5_10;
     BaselineParser._git_version := VNone |}.

(** One CPU entry whose only leaf has two statistic kinds. *)
Definition ambiguous : list value :=
  [cpu "ARM_NEOVERSE_N1" [("2vcpu_1024mb.json", two_kinds)]].

(** The same leaf after a configuration of unknown name. *)
Definition unknown_then_ambiguous : list value :=
  [cpu "ARM_NEOVERSE_N1" [("4vcpu_1024mb.json", one_kind 100);
                          ("2vcpu_1024mb.json", two_kinds)]].

(** Two CPU entries of one instance type with the same model. *)
Definition duplicated : list value :=
  [cpu "ARM_NEOVERSE_N1" [("2vcpu_1024mb.json", one_kind 100)];
   cpu "ARM_NEOVERSE_N1" [("2vcpu_1024mb.json", one_kind 105)]].

Definition single (target : float) : list value :=
  [cpu "ARM_NEOVERSE_N1" [("2vcpu_1024mb.json", one_kind target)]].

End Sample.

(** ** A sample run of the revision commands *)

Module SampleRun.

(** A repository in which every revision resolves, to itself. *)
Definition rev_parse (git_ref : string) : option string := Some git_ref.

Definition head_hash : option string := Some "c0ffee".

Definition DEFAULT_BASELINE_DIRECTORY : string :=
  "tests/integration_tests/performance/configs".

(** A comparator whose construction fails, as on a malformed baseline file
    in one of the two checkouts. *)
Definition failing_comparator (source target : string)
    (tests kernels codenames : list string) (w : world) : result unit :=
  Raise (Exception "Malformed baseline file").

(** A comparator that succeeds throughout. *)
Definition working_comparator (source target : string)
    (tests kernels codenames : list string) (w : world) : result unit :=
  Ok tt.

Definition compare (c : unit) (auxiliary : bool) (w : world) : result unit :=
  Ok tt.

Definition dump_json (c : unit) (output : string) (w : world)
  : result unit :=
  Ok tt.

Definition args : CompareMain.args :=
  {| CompareMain.source := "1111111";
     CompareMain.target := Some "2222222";
     CompareMain.tests := ["network_tcp_throughput"];
     CompareMain.kernels := ["5.10"];
     CompareMain.codenames := ["skylake"];
     CompareMain.auxiliary := false;
     CompareMain.output := "result.json" |}.

Definition clean : world := {| worktrees := [] |}.

(** The same revision given as source and as target. *)
Definition same_revision : CompareMain.args :=
  {| CompareMain.source := "1111111";
     CompareMain.target := Some "1111111";
     CompareMain.tests := ["network_tcp_throughput"];
     CompareMain.kernels := ["5.10"];
     CompareMain.codenames := ["skylake"];
     CompareMain.auxiliary := false;
     CompareMain.output := "result.json" |}.

End SampleRun.

(** ** A sample report *)

Module SampleReport.

(** The leaves of the specification's example: basis target 100 with
    tolerance 10, comparison target 105 with tolerance 12. *)
Definition basis : Comparator.BaselineLeaf :=
  {| Comparator.target := VFloat 100;
     Comparator.delta_percentage := VFloat 10 |}.

Definition comparison : Comparator.BaselineLeaf :=
  {| Comparator.target := VFloat 105;
     Comparator.delta_percentage := VFloat 12 |}.

Definition MODEL2SHORT : value :=
  VDict [("Intel(R) Xeon(R) Platinum 8175M CPU @ 2.50GHz", VStr "SkyLake");
         ("Intel(R) Xeon(R) Platinum 8259CL CPU @ 2.50GHz",
          VStr "CascadeLake")].

(** A report with one test, one metric and one compared model, holding the
    two values of the example. *)
Definition report : value :=
  VDict
    [("network_tcp_throughput_5.10",
      VDict
        [("test", VStr "network_tcp_throughput");
         ("kernel", VStr "5.10");
         ("stats",
          VDict
            [("throughput",
              VDict
                [("target_diff_percentage",
                  VList [Comparator.report_entry
                           "Intel(R) Xeon(R) Platinum 8259CL CPU @ 2.50GHz"
                           105 0]);
                 ("delta_percentage_diff",
                  VList [Comparator.report_entry
                           "Intel(R) Xeon(R) Platinum 8259CL CPU @ 2.50GHz"
                           2 0])])])])].

Definition files (path : string) : result value :=
  if path =? "result.json" then Ok report
  else Raise (FileNotFoundError path).

(** The image of the first pass for the metric of the report, saved under
    the directory [out]. *)
Definition figure : OutputImages.figure :=
  {| OutputImages.title :=
       [VStr "throughput"; VStr " - "; VStr "target_diff_percentage"];
     OutputImages.ylabel := [VStr "% on basis of "; VStr "CascadeLake"];
     OutputImages.x_vals := [0%Z];
     OutputImages.y_vals := [VFloat 205];
     OutputImages.tick_label := [VStr "CascadeLake"];
     OutputImages.yerr := [VFloat 0];
     OutputImages.fname :=
       ("out",
        [VStr "network_tcp_throughput"; VStr "_"; VStr "5.10"; VStr "_";
         VStr "throughput"; VStr "_"; VStr "target_diff_percentage";
         VStr ".png"]) |}.

End SampleReport.

(** ** Where the entries of a loaded tree come from *)

(** The container stored for a configuration: the extraction function
    applied to the statistics under the single statistic kind of the leaf at
    the four keys, starting from the empty container. *)
Definition leaf_at (parser : value -> value -> result value)
    (baselines metric guest_kernel userspace config container : value)
  : Prop :=
  exists leaf kind data,
    getitems baselines [metric; guest_kernel; userspace; config] = Ok leaf
    /\ keys leaf = Ok [kind]
    /\ getitem leaf (VStr kind) = Ok data
    /\ parser data (VDict []) = Ok container.

(** The CPU entries of the per-instance baselines: instance type, model and
    baselines of each. *)
Definition cpu_entry (instances : value) (instance_type : string)
    (model baselines : value) : Prop :=
  exists entries instance_data cpus cl cpu,
    items instances = Ok entries
    /\ In (instance_type, instance_data) entries
    /\ getitem instance_data (VStr "cpus") = Ok cpus
    /\ iter cpus = Ok cl /\ In cpu cl
    /\ getitem cpu (VStr "model") = Ok model
    /\ getitem cpu (VStr "baselines") = Ok baselines.

(** The container at a coordinate was extracted from the document: some CPU
    entry and four keys under its baselines parse to the coordinate, and the
    container is what the extraction function made of the leaf there. *)
Definition extracted (parser : value -> value -> result value)
    (instances : value) (c : coordinate) (container : value) : Prop :=
  exists instance_type model baselines metric guest_kernel userspace config,
    cpu_entry instances instance_type model baselines
    /\ CpuModel.from_str (VStr instance_type) model = Ok (fst c)
    /\ Metric.from_str metric = Ok (fst (snd c))
    /\ KernelVersion.from_str guest_kernel = Ok (fst (snd (snd c)))
    /\ GuestOs.from_str userspace = Ok (fst (snd (snd (snd c))))
    /\ MachineConfig.from_str config = Ok (snd (snd (snd (snd c))))
    /\ leaf_at parser baselines metric guest_kernel userspace config
         container.

(** What the accessors find at a coordinate of a loader. *)
Definition container_at (self : BaselineParser.t) (c : coordinate)
  : result value :=
  cs <- BaselineParser.machine_configs self (fst c) (fst (snd c))
          (fst (snd (snd c))) (fst (snd (snd (snd c)))) ;;
  BaselineParser.lookup MachineConfig.eqb MachineConfig.__str__
    (snd (snd (snd (snd c)))) cs.

(** The invariants of the loops of [_parse_data], level by level. *)
Definition from_configs (parser : value -> value -> result value)
    (baselines metric guest_kernel userspace : value) (d : configs_t)
  : Prop :=
  Forall (fun e => exists config,
            MachineConfig.from_str config = Ok (fst e)
            /\ leaf_at parser baselines metric guest_kernel userspace config
                 (snd e)) d.

Definition from_os (parser : value -> value -> result value)
    (baselines metric guest_kernel : value) (d : os_t) : Prop :=
  Forall (fun e => exists userspace,
            GuestOs.from_str userspace = Ok (fst e)
            /\ from_configs parser baselines metric guest_kernel userspace
                 (snd e)) d.

Definition from_guest_kernels (parser : value -> value -> result value)
    (baselines metric : value) (d : guest_kernels_t) : Prop :=
  Forall (fun e => exists guest_kernel,
            KernelVersion.from_str guest_kernel = Ok (fst e)
            /\ from_os parser baselines metric guest_kernel (snd e)) d.

Definition from_metrics (parser : value -> value -> result value)
    (baselines : value) (d : metrics_t) : Prop :=
  Forall (fun e => exists metric,
            Metric.from_str metric = Ok (fst e)
            /\ from_guest_kernels parser baselines metric (snd e)) d.

Definition from_instances (parser : value -> value -> result value)
    (instances : value) (d : instances_t) : Prop :=
  Forall (fun e => exists instance_type model baselines,
            cpu_entry instances instance_type model baselines
            /\ CpuModel.from_str (VStr instance_type) model = Ok (fst e)
            /\ from_metrics parser baselines (snd e)) d.

(** ** The containers of the throughput loader *)

(** The keys of the statistics that carry a tag, in order. *)
Definition tagged (tag : string) (ks : list string) : list string :=
  filter (contains tag) ks.

(** [l] holds, for each tagged key in order, the field of its entry. *)
Definition column_is (data : value) (ks : list string) (tag field : string)
    (l : list value) : Prop :=
  Forall2 (fun k x => getitems data [VStr k; VStr field] = Ok x)
    (tagged tag ks) l.

Definition section (delta target : list value) : value :=
  VDict [("delta_percentage", VList delta); ("target", VList target)].

(** ** The images of a report *)

(** The number of metrics under the [stats] of one entry of a report, and
    over all entries. *)
Definition plots_of (raw : value) : nat :=
  match getitem raw (VStr "stats") with
  | Ok (VDict kvs) => List.length kvs
  | _ => 0%nat
  end.

Definition plots_total (raws : list value) : nat :=
  list_sum (map plots_of raws).

(** ** The performance pipeline *)

(** The definition of a test in the table has been consumed: it has lost
    its [devtool_opts] (or the test is not in the table). *)
Definition consumed (name : string)
    (table : list (string * PipelinePerf.dict)) : Prop :=
  match dict_get String.eqb name table with
  | Some d => dict_get String.eqb "devtool_opts" d = None
  | None => True
  end.

(** The value a step gets for a key: the one of [--extra] when given, else
    the test's own, else the default. *)
Definition chosen (k : string) (extra d : PipelinePerf.dict)
    (default : value) : value :=
  match dict_get String.eqb k extra with
  | Some v => v
  | None =>
      match dict_get String.eqb k d with
      | Some v => v
      | None => default
      end
  end.

(** The same arguments with another selection of tests. *)
Definition selecting (a : PipelinePerf.args) (tests : list string)
  : PipelinePerf.args :=
  {| PipelinePerf.test := tests;
     PipelinePerf.instances := PipelinePerf.instances a;
     PipelinePerf.kernels := PipelinePerf.kernels a;
     PipelinePerf.retries := PipelinePerf.retries a;
     PipelinePerf.extra := PipelinePerf.extra a |}.

(** A group that accepts whatever it is given. *)
Definition sample_group (label : value) (command : list value)
    (agent_tags artifacts instances kernels : value)
    (kwargs : PipelinePerf.dict) : result value :=
  Ok (VDict ([("label", label); ("command", VTuple command);
              ("instances", instances); ("kernels", kernels)] ++ kwargs)).

(** A test definition with the keys of the table's, what is left of it once
    its step is built with the sample arguments, and the step. *)
Definition sample_definition : PipelinePerf.dict :=
  [("label", VStr "Block Performance");
   ("test_path",
    VStr "integration_tests/performance/test_block_performance.py");
   ("devtool_opts", VStr "-r 16834m -c 1-10 -m 0");
   ("timeout_in_minutes", VInt 240)].

Definition sample_rest : PipelinePerf.dict :=
  [("timeout_in_minutes", VStr "30"); ("retry", PipelinePerf.retry 2)].

Definition sample_step : value :=
  VDict
    [("label", VStr "Block Performance");
     ("command",
      VTuple
        [VStr "./tools/devtool -y test "; VStr "-r 16834m -c 1-10 -m 0";
         VStr " -- --nonci -s --dump-results-to-file --log-cli-level=INFO ";
         VStr "integration_tests/performance/test_block_performance.py"]);
     ("instances", VList []);
     ("kernels", VList [VStr "linux_5.10"]);
     ("timeout_in_minutes", VStr "30");
     ("retry", PipelinePerf.retry 2)].

Definition sample_args (tests : list string) : PipelinePerf.args :=
  {| PipelinePerf.test := tests;
     PipelinePerf.instances := [];
     PipelinePerf.kernels := ["linux_5.10"];
     PipelinePerf.retries := 2;
     PipelinePerf.extra := [("timeout_in_minutes", VStr "30")] |}.

(** ** The history plots *)

(** A command that leaves the registered worktrees as it found them,
    whether it returns or raises. *)
Definition keeps_worktrees {A} (c : cmd A) : Prop :=
  forall w, worktrees (snd (c w)) = worktrees w.

(** The number of tests of a selection that have a history plot. *)
Definition plotted (tests : list string) : nat :=
  List.length (filter (fun t => t =? "network_tcp_throughput") tests).

(** The list a series holds for a test so far. *)
Definition stored (test : string) (d : PlotThroughput.series) : list value :=
  match dict_get String.eqb test d with
  | Some l => l
  | None => []
  end.

(** The file the history plot reads in a worktree: the loader is handed the
    path of the configuration file as its directory and appends the file
    name once more. *)
Definition history_file (worktree : string) (host_kernel : KernelVersion.t)
  : string :=
  (worktree
   ++ "/tests/integration_tests/performance/configs/test_network_tcp_throughput_config_"
   ++ KernelVersion.__str__ host_kernel ++ ".json")
  ++ "/test_network_tcp_throughput_config_"
  ++ KernelVersion.__str__ host_kernel ++ ".json".

(** A run over one CPU model, one host kernel and one guest kernel with no
    revision to plot. *)
Definition sample_print_args : PrintMain.args :=
  {| PrintMain.tests := ["network_tcp_throughput"];
     PrintMain.host_kernels := ["5.10"];
     PrintMain.guest_kernels := ["4.14"];
     PrintMain.cpu_models := ["skylake"];
     PrintMain.git_versions := [];
     PrintMain.out_dir := "plots" |}.

(** The same arguments with another list of CPU codenames. *)
Definition with_cpu_models (a : PrintMain.args) (l : list string)
  : PrintMain.args :=
  {| PrintMain.tests := PrintMain.tests a;
     PrintMain.host_kernels := PrintMain.host_kernels a;
     PrintMain.guest_kernels := PrintMain.guest_kernels a;
     PrintMain.cpu_models := l;
     PrintMain.git_versions := PrintMain.git_versions a;
     PrintMain.out_dir := PrintMain.out_dir a |}.

Definition sample_plots : list PlotThroughput.plot :=
  match fst (PrintMain.cmd_git SampleRun.rev_parse
               (fun w p => Raise (FileNotFoundError p)) VNone
               sample_print_args [] SampleRun.clean) with
  | Ok l => l
  | Raise _ => []
  end.

(** A file system that holds nothing but one file. *)
Definition only_file (path : string) (content : result value)
    (w : world) (p : string) : result value :=
  if p =? path then content else Raise (FileNotFoundError p).

(** ** A loaded sample *)

Module SampleLoaded.

Definition unparsed : BaselineParser.t :=
  Sample.loader (Sample.instances (Sample.single 100)).

(** The loader after [_parse_data] with the throughput extraction
    function. *)
Definition loaded : BaselineParser.t :=
  match BaselineParser._parse_data NetworkTCPThroughput.parser unparsed with
  | Ok self => self
  | Raise _ => unparsed
  end.

(** The loader the throughput constructor returns for the sample file. *)
Definition constructed : BaselineParser.t :=
  match NetworkTCPThroughput.__init__
          (Sample.files (Sample.document (Sample.single 100)))
          "configs" KernelVersion.KERNEL_5_10 VNone with
  | Ok self => self
  | Raise _ => unparsed
  end.

(** The one coordinate of the sample. *)
Definition at_2vcpu : coordinate :=
  (CpuModel.GRAVITON2,
   (Metric.THROUGHPUT,
    (KernelVersion.KERNEL_5_10,
     (GuestOs.UBUNTU_18_04, MachineConfig.VCPU_2_MEM_1G)))).

(** The statistics under the statistic kind of the sample's leaf. *)
Definition statistics : value :=
  VDict [("tcp-p1024K-ws16k-g2h", Sample.stat 100 10);
         ("tcp-p1024K-ws16k-h2g", Sample.stat 200 5);
         ("tcp-p1024K-ws16k-bd", Sample.stat 300 7)].

Definition container : value :=
  VDict
    [("host-to-guest",
      VDict [("delta_percentage", VList [VFloat 5]);
             ("target", VList [VFloat 200])]);
     ("guest-to-host",
      VDict [("delta_percentage", VList [VFloat 10]);
             ("target", VList [VFloat 100])]);
     ("bidirectional",
      VDict [("test_type", VList [VStr "tcp-p1024K-ws16k-bd"]);
             ("delta_percentage", VList [VFloat 7]);
             ("target", VList [VFloat 300])])].

End SampleLoaded.

(* ===================================================================== *)
(** * Properties                                                          *)
(* ===================================================================== *)

Open Scope list_scope.

(** ** The error monad and the loops *)

Lemma bind_ok_inv {A B} (r : result A) (k : A -> result B) (b : B) :
  bind r k = Ok b -> exists a, r = Ok a /\ k a = Ok b.
Proof.
  destruct r as [a|e]; simpl; intros H; [eauto | discriminate].
Qed.

Lemma bind_raise_inv {A B} (r : result A) (k : A -> result B) (e : exn) :
  bind r k = Raise e ->
  r = Raise e \/ exists a, r = Ok a /\ k a = Raise e.
Proof.
  destruct r as [a|e']; simpl; intros H; [right; eauto | left; congruence].
Qed.

Lemma fails_raise {A} (e : exn) : fails (@Raise A e).
Proof. exists e; reflexivity. Qed.

Lemma fails_bind {A B} (r : result A) (k : A -> result B) :
  (forall a, r = Ok a -> fails (k a)) -> fails (bind r k).
Proof.
  intros H. destruct r as [a|e]; simpl.
  - apply H; reflexivity.
  - apply fails_raise.
Qed.

(** A loop whose body fails at one of the elements, whatever the state it is
    entered with, fails: at that element or before it. *)
Lemma for_each_fails {A S} (xs : list A) (body : A -> S -> result S) x :
  In x xs -> (forall s, fails (body x s)) ->
  forall s, fails (for_each xs body s).
Proof.
  induction xs as [|y ys IH]; simpl; intros Hin Hx s; [contradiction|].
  apply fails_bind. intros s' Hy.
  destruct Hin as [->|Hin].
  - destruct (Hx s) as [e He]. congruence.
  - apply IH; assumption.
Qed.

(** The exception of a loop is the exception of its body at an element. *)
Lemma for_each_raise_inv {A S} (xs : list A) (body : A -> S -> result S) e :
  forall s, for_each xs body s = Raise e ->
  exists x s', In x xs /\ body x s' = Raise e.
Proof.
  induction xs as [|y ys IH]; simpl; intros s H; [discriminate|].
  apply bind_raise_inv in H. destruct H as [H | (s' & _ & H)].
  - exists y, s. auto.
  - destruct (IH _ H) as (x & s'' & Hin & Hx). exists x, s''. auto.
Qed.

(** An invariant of the state that the body keeps holds when the loop
    returns. *)
Lemma for_each_invariant {A S} (P : S -> Prop) (xs : list A)
    (body : A -> S -> result S) :
  (forall x s s', In x xs -> P s -> body x s = Ok s' -> P s') ->
  forall s s', P s -> for_each xs body s = Ok s' -> P s'.
Proof.
  induction xs as [|y ys IH]; simpl; intros Hb s s' Hs H.
  - congruence.
  - apply bind_ok_inv in H. destruct H as (s1 & H1 & H2).
    eapply IH; [ | | exact H2]; eauto.
Qed.

(** ** Strings *)

Lemma lower_char_idempotent (c : ascii) :
  lower_char (lower_char c) = lower_char c.
Proof.
  destruct c as [[] [] [] [] [] [] [] []]; reflexivity.
Qed.

Lemma lower_idempotent (s : string) : lower (lower s) = lower s.
Proof.
  induction s as [|c s IH]; simpl; [reflexivity|].
  now rewrite lower_char_idempotent, IH.
Qed.

(** ** The dimension enumerations *)

Ltac split_eqb s lit :=
  let E := fresh "E" in
  destruct (String.eqb_spec s lit) as [E|E]; [try subst s | ].

(** [CpuModel.from_codename] on a string: a model when the lowercased name
    is one of the seven codenames, the unknown-model exception on the
    lowercased name otherwise. *)
Lemma CpuModel_from_codename_parses (s : string) :
  match CpuModel.from_codename (VStr s) with
  | Ok _ => In (lower s) CpuModel.codenames
  | Raise e =>
      ~ In (lower s) CpuModel.codenames
      /\ e = ExceptionF "Unknown CPU model: " (VStr (lower s))
  end.
Proof.
  unfold CpuModel.from_codename, CpuModel.codenames.
  generalize (lower s); intros n.
  split_eqb n "skylake"; [simpl; tauto|].
  split_eqb n "cascadelake"; [simpl; tauto|].
  split_eqb n "icelake"; [simpl; tauto|].
  split_eqb n "milan"; [simpl; tauto|].
  split_eqb n "graviton2"; [simpl; tauto|].
  split_eqb n "graviton3"; [simpl; tauto|].
  split_eqb n "graviton4"; [simpl; tauto|].
  split; [|reflexivity]. simpl. intuition congruence.
Qed.

(** C9. [CpuModel.from_codename] ignores case: a name and its lowercase
    resolve alike ("SkyLake", "SKYLAKE" and "skylake" to the same model);
    it returns a model exactly when the lowercased name is one of the seven
    codenames, and raises the unknown-model exception on it otherwise. *)
Theorem from_codename_case_insensitive (s : string) :
  CpuModel.from_codename (VStr s) = CpuModel.from_codename (VStr (lower s))
  /\ match CpuModel.from_codename (VStr s) with
     | Ok _ => In (lower s) CpuModel.codenames
     | Raise e =>
         ~ In (lower s) CpuModel.codenames
         /\ e = ExceptionF "Unknown CPU model: " (VStr (lower s))
     end
  /\ CpuModel.from_codename (VStr "SkyLake") = Ok CpuModel.SKY_LAKE
  /\ CpuModel.from_codename (VStr "SKYLAKE") = Ok CpuModel.SKY_LAKE
  /\ CpuModel.from_codename (VStr "skylake") = Ok CpuModel.SKY_LAKE.
Proof.
  split; [|split; [|repeat split]].
  - unfold CpuModel.from_codename. now rewrite lower_idempotent.
  - apply CpuModel_from_codename_parses.
Qed.

(** C8. [KernelVersion.from_str] maps the numeric version and the name of
    the kernel binary to the same enumeration value, for both kernels. *)
Theorem kernel_spellings_agree :
  KernelVersion.from_str (VStr "5.10") = Ok KernelVersion.KERNEL_5_10
  /\ KernelVersion.from_str (VStr "vmlinux-5.10.bin")
     = Ok KernelVersion.KERNEL_5_10
  /\ KernelVersion.from_str (VStr "4.14") = Ok KernelVersion.KERNEL_4_14
  /\ KernelVersion.from_str (VStr "vmlinux-4.14.bin")
     = Ok KernelVersion.KERNEL_4_14.
Proof. repeat split. Qed.

Lemma Metric_parses :
  parses_exactly Metric.from_str Metric.tokens "Unknown metric ".
Proof.
  intros s. unfold Metric.from_str, Metric.tokens, eq_str.
  split_eqb s "cpu_utilization_vcpus_total"; [simpl; tauto|].
  split_eqb s "cpu_utilization_vmm"; [simpl; tauto|].
  split_eqb s "throughput"; [simpl; tauto|].
  split; [|reflexivity]. simpl. intuition congruence.
Qed.

Lemma GuestOs_parses :
  parses_exactly GuestOs.from_str GuestOs.tokens "Unknown guest os: ".
Proof.
  intros s. unfold GuestOs.from_str, GuestOs.tokens, eq_str.
  split_eqb s "ubuntu-18.04.ext4"; [simpl; tauto|].
  split; [|reflexivity]. simpl. intuition congruence.
Qed.

Lemma MachineConfig_parses :
  parses_exactly MachineConfig.from_str MachineConfig.tokens
    "Unknown machine configuration: ".
Proof.
  intros s. unfold MachineConfig.from_str, MachineConfig.tokens, eq_str.
  split_eqb s "1vcpu_1024mb.json"; [simpl; tauto|].
  split_eqb s "2vcpu_1024mb.json"; [simpl; tauto|].
  split; [|reflexivity]. simpl. intuition congruence.
Qed.

Lemma KernelVersion_parses :
  parses_exactly KernelVersion.from_str KernelVersion.tokens
    "Unknown kernel version: ".
Proof.
  intros s. unfold KernelVersion.from_str, KernelVersion.tokens, eq_str.
  simpl existsb.
  split_eqb s "5.10"; [simpl; tauto|].
  split_eqb s "vmlinux-5.10.bin"; [simpl; tauto|].
  split_eqb s "4.14"; [simpl; tauto|].
  split_eqb s "vmlinux-4.14.bin"; [simpl; tauto|].
  split; [|reflexivity]. simpl. intuition congruence.
Qed.

(** The table lookup of [CpuModel.from_str] on two strings: the model of
    the pair when the table has it, [KeyError] on the pair otherwise. *)
Lemma CpuModel_from_str_pairs (instance_type model : string) :
  match CpuModel.from_str (VStr instance_type) (VStr model) with
  | Ok c => In (instance_type, model, c) CpuModel.MODELCODE
  | Raise e =>
      ~ In (instance_type, model) (map fst CpuModel.MODELCODE)
      /\ e = KeyError (VTuple [VStr instance_type; VStr model])
  end.
Proof.
  unfold CpuModel.from_str, CpuModel.MODELCODE. simpl.
  repeat match goal with
  | |- context [(?a =? ?b)%string] =>
      destruct (String.eqb_spec a b); [try subst; simpl | simpl]
  end; try (simpl; tauto);
  (split; [|reflexivity]); intuition congruence.
Qed.

(** C5. A token with no canonical mapping is never given a default: each
    parser of a dimension returns a value only on the tokens it knows and
    raises on every other string, the unknown-token exception of its type
    ([CpuModel.from_str], a table lookup, the [KeyError] of the pair). *)
Theorem unknown_tokens_raise :
  parses_exactly Metric.from_str Metric.tokens "Unknown metric "
  /\ parses_exactly GuestOs.from_str GuestOs.tokens "Unknown guest os: "
  /\ parses_exactly MachineConfig.from_str MachineConfig.tokens
       "Unknown machine configuration: "
  /\ parses_exactly KernelVersion.from_str KernelVersion.tokens
       "Unknown kernel version: "
  /\ (forall s : string,
        match CpuModel.from_codename (VStr s) with
        | Ok _ => In (lower s) CpuModel.codenames
        | Raise e =>
            ~ In (lower s) CpuModel.codenames
            /\ e = ExceptionF "Unknown CPU model: " (VStr (lower s))
        end)
  /\ (forall instance_type model : string,
        match CpuModel.from_str (VStr instance_type) (VStr model) with
        | Ok c => In (instance_type, model, c) CpuModel.MODELCODE
        | Raise e =>
            ~ In (instance_type, model) (map fst CpuModel.MODELCODE)
            /\ e = KeyError (VTuple [VStr instance_type; VStr model])
        end).
Proof.
  split; [exact Metric_parses|].
  split; [exact GuestOs_parses|].
  split; [exact MachineConfig_parses|].
  split; [exact KernelVersion_parses|].
  split; [exact CpuModel_from_codename_parses|].
  exact CpuModel_from_str_pairs.
Qed.

(** C2, as stated, fails: the display strings of [GuestOs] and of
    [MachineConfig] are not tokens their [from_str] accepts. *)
Lemma display_string_not_parsed :
  GuestOs.from_str (VStr (GuestOs.__str__ GuestOs.UBUNTU_18_04))
  = Raise (ExceptionF "Unknown guest os: " (VStr "Ubuntu 18.04"))
  /\ MachineConfig.from_str
       (VStr (MachineConfig.__str__ MachineConfig.VCPU_1_MEM_1G))
     = Raise (ExceptionF "Unknown machine configuration: "
                (VStr "1vcpu_1024mb")).
Proof. split; reflexivity. Qed.

(** C2, amended. Parsing the display string gives the value back for
    [CpuModel] (through [from_codename]), [Metric] and [KernelVersion]. For
    [GuestOs] and [MachineConfig] parsing the display string raises for
    every value; their [from_str] reads the file names of the baseline
    documents instead: the display string followed by [.json] for a machine
    configuration, [ubuntu-18.04.ext4] for the guest OS. *)
Theorem display_parse_round_trip :
  (forall v, CpuModel.from_codename (VStr (CpuModel.__str__ v)) = Ok v)
  /\ (forall v, Metric.from_str (VStr (Metric.__str__ v)) = Ok v)
  /\ (forall v, KernelVersion.from_str (VStr (KernelVersion.__str__ v))
                = Ok v)
  /\ (forall v, GuestOs.from_str (VStr (GuestOs.__str__ v))
                = Raise (ExceptionF "Unknown guest os: "
                           (VStr (GuestOs.__str__ v))))
  /\ (forall v, MachineConfig.from_str (VStr (MachineConfig.__str__ v))
                = Raise (ExceptionF "Unknown machine configuration: "
                           (VStr (MachineConfig.__str__ v))))
  /\ (forall v, GuestOs.from_str (VStr "ubuntu-18.04.ext4") = Ok v)
  /\ (forall v, MachineConfig.from_str
                  (VStr (MachineConfig.__str__ v ++ ".json")%string) = Ok v).
Proof.
  repeat split; intros []; reflexivity.
Qed.

(** ** Dictionaries *)

Section DictFacts.

Context {V : Type}.
Implicit Types (d : list (string * V)) (k : string) (v : V).

Lemma dict_get_in_keys k d :
  In k (map fst d) -> dict_get String.eqb k d <> None.
Proof.
  induction d as [|[k' v'] d IH]; simpl; [tauto|].
  intros [->|H].
  - now rewrite String.eqb_refl.
  - destruct (k' =? k); [discriminate | auto].
Qed.

Lemma dict_get_app_fresh k d d' :
  ~ In k (map fst d) ->
  dict_get String.eqb k (d ++ d') = dict_get String.eqb k d'.
Proof.
  induction d as [|[k' v'] d IH]; simpl; [reflexivity|].
  intros H. destruct (String.eqb_spec k' k); [tauto | apply IH; tauto].
Qed.

Lemma dict_set_fresh k v d :
  ~ In k (map fst d) -> dict_set String.eqb k v d = d ++ [(k, v)].
Proof.
  induction d as [|[k' v'] d IH]; simpl; [reflexivity|].
  intros H. destruct (String.eqb_spec k' k); [tauto|].
  rewrite IH; tauto.
Qed.

Lemma has_key_dict_get k d :
  existsb (fun x => x =? k) (map fst d)
  = match dict_get String.eqb k d with Some _ => true | None => false end.
Proof.
  induction d as [|[k' v'] d IH]; simpl; [reflexivity|].
  destruct (k' =? k); simpl; [reflexivity | exact IH].
Qed.

Lemma keys_filter_subset (f : string * V -> bool) k d :
  In k (map fst (filter f d)) -> In k (map fst d).
Proof.
  rewrite !in_map_iff. intros (x & Hx & Hin).
  apply filter_In in Hin. exists x. tauto.
Qed.

End DictFacts.

(** ** [BaselineParser.__init__] *)

(** The comprehension [{x: raw[x] for x in raw.keys() if x != "hosts"}]
    copies the entries of a document whose keys are distinct, in order. *)
Lemma meta_comprehension (kvs : list (string * value)) :
  NoDup (map fst kvs) ->
  forall pre post, kvs = pre ++ post ->
  for_each (filter (fun x => negb (x =? "hosts")) (map fst post))
    (fun x meta =>
       v <- getitem (VDict kvs) (VStr x) ;;
       Ok (dict_set String.eqb x v meta))
    (filter not_hosts pre)
  = Ok (filter not_hosts kvs).
Proof.
  intros Hnd pre post; revert pre.
  induction post as [|[k v] post IH]; intros pre E.
  - rewrite app_nil_r in E. subst pre. reflexivity.
  - assert (E' : kvs = (pre ++ [(k, v)]) ++ post)
      by (rewrite <- app_assoc; exact E).
    assert (Hfresh : ~ In k (map fst pre)).
    { rewrite E, map_app in Hnd. simpl in Hnd.
      apply NoDup_remove_2 in Hnd. rewrite in_app_iff in Hnd. tauto. }
    specialize (IH _ E'). rewrite filter_app in IH. simpl in IH.
    simpl map. simpl filter. unfold not_hosts at 2 in IH. simpl fst in IH.
    destruct (negb (k =? "hosts")) eqn:Ek.
    + simpl for_each. simpl getitem.
      replace (dict_get String.eqb k kvs) with (Some v).
      * simpl bind. rewrite dict_set_fresh; [exact IH|].
        intros Hin. apply Hfresh. eapply keys_filter_subset; exact Hin.
      * rewrite E, dict_get_app_fresh by exact Hfresh.
        simpl. now rewrite String.eqb_refl.
    + rewrite app_nil_r in IH. exact IH.
Qed.

Lemma meta_comprehension_all (kvs : list (string * value)) :
  NoDup (map fst kvs) ->
  for_each (filter (fun x => negb (x =? "hosts")) (map fst kvs))
    (fun x meta =>
       v <- getitem (VDict kvs) (VStr x) ;;
       Ok (dict_set String.eqb x v meta)) []
  = Ok (filter not_hosts kvs).
Proof.
  intros Hnd. exact (meta_comprehension kvs Hnd [] kvs eq_refl).
Qed.

(** The comprehension never fails on a document's own keys. *)
Lemma meta_comprehension_ok (kvs : list (string * value)) ks :
  (forall k, In k ks -> In k (map fst kvs)) ->
  forall acc, exists meta,
    for_each ks
      (fun x meta =>
         v <- getitem (VDict kvs) (VStr x) ;;
         Ok (dict_set String.eqb x v meta)) acc
    = Ok meta.
Proof.
  induction ks as [|k ks IH]; simpl; intros Hk acc; [eauto|].
  assert (H : dict_get String.eqb k kvs <> None)
    by (apply dict_get_in_keys; auto).
  destruct (dict_get String.eqb k kvs) as [v|]; [|congruence].
  simpl. apply IH. auto.
Qed.

(** C4. A document whose top-level object has no ["hosts"] key is refused
    with the malformed-file exception. When the key is there, the
    constructor keeps as metadata exactly the other top-level entries and
    takes the baselines from [hosts["instances"]]: it returns the loader
    holding both when that lookup succeeds, and raises its error when not. *)
Theorem init_requires_hosts (json_load : string -> result value)
    (baselines : string) (host_kernel : KernelVersion.t)
    (git_version : value) (kvs : list (string * value)) :
  json_load baselines = Ok (VDict kvs) ->
  NoDup (map fst kvs) ->
  match dict_get String.eqb "hosts" kvs with
  | None =>
      BaselineParser.__init__ json_load baselines host_kernel git_version
      = Raise (Exception "Malformed baseline file")
  | Some hosts =>
      BaselineParser.__init__ json_load baselines host_kernel git_version
      = (instances <- getitem hosts (VStr "instances") ;;
         Ok {| BaselineParser._meta := filter not_hosts kvs;
               BaselineParser._baselines := instances;
               BaselineParser._instances := [];
               BaselineParser._host_kernel := host_kernel;
               BaselineParser._git_version := git_version |})
  end.
Proof.
  intros Hload Hnd. unfold BaselineParser.__init__.
  rewrite Hload. cbn [bind keys]. rewrite has_key_dict_get.
  destruct (dict_get String.eqb "hosts" kvs) as [hosts|] eqn:Eh;
    cbn [negb]; [|reflexivity].
  rewrite (meta_comprehension_all kvs Hnd). cbn [bind getitem hashable].
  rewrite Eh. reflexivity.
Qed.

(** C10. The ["hosts"] key is not enough: when the object under it has no
    ["instances"] key the constructor raises the [KeyError] of that lookup,
    not the malformed-file exception, and returns no loader. *)
Theorem init_requires_instances (json_load : string -> result value)
    (baselines : string) (host_kernel : KernelVersion.t)
    (git_version : value) (kvs hosts : list (string * value)) :
  json_load baselines = Ok (VDict kvs) ->
  dict_get String.eqb "hosts" kvs = Some (VDict hosts) ->
  dict_get String.eqb "instances" hosts = None ->
  BaselineParser.__init__ json_load baselines host_kernel git_version
  = Raise (KeyError (VStr "instances")).
Proof.
  intros Hload Hh Hi. unfold BaselineParser.__init__.
  rewrite Hload. cbn [bind keys]. rewrite has_key_dict_get, Hh.
  cbn [negb].
  destruct (meta_comprehension_ok kvs
              (filter (fun x => negb (x =? "hosts")) (map fst kvs))
              (fun k H => proj1 (proj1 (filter_In _ _ _) H)) [])
    as [meta ->].
  cbn [bind getitem hashable]. rewrite Hh.
  cbn [bind getitem hashable]. rewrite Hi. reflexivity.
Qed.

(** ** Only the leaf check raises [AssertionError] *)

Create HintDb quiet.

Lemma index_quiet {A} (l : list A) i : quiet (index l i).
Proof.
  unfold quiet, index.
  destruct (_ || _)%bool; [discriminate|].
  destruct (nth_error _ _); discriminate.
Qed.

Lemma getitem_quiet c k : quiet (getitem c k).
Proof.
  unfold getitem.
  destruct c; try discriminate;
    try (destruct (as_index k); [apply index_quiet | discriminate]).
  destruct (hashable k); [|discriminate].
  destruct k; try discriminate.
  destruct (dict_get _ _ _); discriminate.
Qed.

Lemma getitems_quiet ks : forall c, quiet (getitems c ks).
Proof.
  induction ks as [|k ks IH]; intros c; cbn [getitems]; [discriminate|].
  intros H. apply bind_raise_inv in H. destruct H as [H | (x & _ & H)].
  - exact (getitem_quiet _ _ H).
  - exact (IH _ H).
Qed.

Lemma iter_quiet c : quiet (iter c).
Proof. destruct c; discriminate. Qed.

Lemma keys_quiet c : quiet (keys c).
Proof. destruct c; discriminate. Qed.

Lemma items_quiet c : quiet (items c).
Proof. destruct c; discriminate. Qed.

Lemma MachineConfig_from_str_quiet v : quiet (MachineConfig.from_str v).
Proof.
  unfold quiet, MachineConfig.from_str.
  repeat destruct (eq_str _ _); discriminate.
Qed.

Lemma GuestOs_from_str_quiet v : quiet (GuestOs.from_str v).
Proof.
  unfold quiet, GuestOs.from_str.
  repeat destruct (eq_str _ _); discriminate.
Qed.

Lemma KernelVersion_from_str_quiet v : quiet (KernelVersion.from_str v).
Proof.
  unfold quiet, KernelVersion.from_str.
  repeat destruct (existsb _ _); discriminate.
Qed.

Lemma Metric_from_str_quiet v : quiet (Metric.from_str v).
Proof.
  unfold quiet, Metric.from_str.
  repeat destruct (eq_str _ _); discriminate.
Qed.

Lemma CpuModel_from_str_quiet i m : quiet (CpuModel.from_str i m).
Proof.
  unfold quiet, CpuModel.from_str.
  destruct (_ && _)%bool; [|discriminate].
  destruct (find _ _); discriminate.
Qed.

#[local] Hint Resolve index_quiet getitem_quiet getitems_quiet iter_quiet
  keys_quiet items_quiet MachineConfig_from_str_quiet GuestOs_from_str_quiet
  KernelVersion_from_str_quiet Metric_from_str_quiet CpuModel_from_str_quiet
  : quiet.

Lemma getitems_app c l1 l2 :
  getitems c (l1 ++ l2) = (x <- getitems c l1 ;; getitems x l2).
Proof.
  revert c. induction l1 as [|k l1 IH]; intros c; cbn [app getitems bind].
  - reflexivity.
  - destruct (getitem c k); cbn [bind]; auto.
Qed.

Lemma getitems_one c k : getitems c [k] = getitem c k.
Proof. cbn [getitems]. destruct (getitem c k); reflexivity. Qed.

(** One step of a sequence that raised [AssertionError]: the first
    computation is quiet, so it returned and the rest raised. *)
Ltac assert_step H x Hx :=
  apply bind_raise_inv in H;
  destruct H as [H | (x & Hx & H)];
  [ exfalso;
    match type of H with
    | ?r = _ => let Q := fresh in
                assert (Q : quiet r) by auto with quiet; exact (Q H)
    end
  | ].

(** ** [_parse_data]: the leaf assertion *)

Section Traversal.

Variable parser : value -> value -> result value.

Local Abbreviation config_body := (BaselineParser.config_body parser).
Local Abbreviation userspace_body := (BaselineParser.userspace_body parser).
Local Abbreviation guest_kernel_body := (BaselineParser.guest_kernel_body parser).
Local Abbreviation metric_body := (BaselineParser.metric_body parser).
Local Abbreviation cpu_body := (BaselineParser.cpu_body parser).
Local Abbreviation instance_body := (BaselineParser.instance_body parser).

Lemma failed_loop_fails {A S B} (xs : list A) (body : A -> S -> result S)
    (k : S -> result B) x s :
  In x xs -> (forall s, fails (body x s)) ->
  fails (bind (for_each xs body s) k).
Proof.
  intros Hin Hx. destruct (for_each_fails xs body x Hin Hx s) as [e ->].
  apply fails_raise.
Qed.

Lemma config_body_fails baselines metric m guest_kernel k userspace u
    config leaf ks :
  getitem baselines metric = Ok m -> getitem m guest_kernel = Ok k ->
  getitem k userspace = Ok u -> getitem u config = Ok leaf ->
  keys leaf = Ok ks -> List.length ks <> 1%nat ->
  forall s,
    fails (config_body baselines metric guest_kernel userspace config s).
Proof.
  intros Hm Hk Hu Hl Hks Hlen s. unfold BaselineParser.config_body.
  cbn [getitems bind]. rewrite Hm. cbn [bind]. rewrite Hk. cbn [bind].
  rewrite Hu. cbn [bind]. rewrite Hl. cbn [bind]. rewrite Hks. cbn [bind].
  apply Nat.eqb_neq in Hlen. rewrite Hlen. apply fails_raise.
Qed.

Lemma userspace_body_fails baselines metric m guest_kernel k userspace u
    config leaf ks :
  getitem baselines metric = Ok m -> getitem m guest_kernel = Ok k ->
  child k userspace u -> child u config leaf ->
  keys leaf = Ok ks -> List.length ks <> 1%nat ->
  forall s, fails (userspace_body baselines metric guest_kernel userspace s).
Proof.
  intros Hm Hk (_ & _ & _ & Hu) (cs & Hcs & Hin & Hl) Hks Hlen s.
  unfold BaselineParser.userspace_body.
  cbn [getitems bind]. rewrite Hm. cbn [bind]. rewrite Hk. cbn [bind].
  rewrite Hu. cbn [bind]. rewrite Hcs. cbn [bind].
  eapply failed_loop_fails; [exact Hin|].
  apply (config_body_fails baselines metric m guest_kernel k
           userspace u config leaf ks); auto.
Qed.

Lemma guest_kernel_body_fails baselines metric m guest_kernel k userspace u
    config leaf ks :
  getitem baselines metric = Ok m ->
  child m guest_kernel k -> child k userspace u -> child u config leaf ->
  keys leaf = Ok ks -> List.length ks <> 1%nat ->
  forall s, fails (guest_kernel_body baselines metric guest_kernel s).
Proof.
  intros Hm (_ & _ & _ & Hk) Hu Hl Hks Hlen s.
  unfold BaselineParser.guest_kernel_body.
  cbn [getitems bind]. rewrite Hm. cbn [bind]. rewrite Hk. cbn [bind].
  destruct Hu as (us & Hus & Hin & Hu). rewrite Hus. cbn [bind].
  eapply failed_loop_fails; [exact Hin|].
  apply (userspace_body_fails baselines metric m guest_kernel k
           userspace u config leaf ks); auto.
  exists us; auto.
Qed.

Lemma metric_body_fails baselines metric m guest_kernel k userspace u
    config leaf ks :
  child baselines metric m ->
  child m guest_kernel k -> child k userspace u -> child u config leaf ->
  keys leaf = Ok ks -> List.length ks <> 1%nat ->
  forall s, fails (metric_body baselines metric s).
Proof.
  intros (_ & _ & _ & Hm) Hk Hu Hl Hks Hlen s.
  unfold BaselineParser.metric_body. rewrite Hm. cbn [bind].
  destruct Hk as (gks & Hgks & Hin & Hk). rewrite Hgks. cbn [bind].
  eapply failed_loop_fails; [exact Hin|].
  apply (guest_kernel_body_fails baselines metric m guest_kernel k
           userspace u config leaf ks); auto.
  exists gks; auto.
Qed.

Lemma cpu_body_fails instance_type cpu baselines metric m guest_kernel k
    userspace u config leaf ks :
  getitem cpu (VStr "baselines") = Ok baselines ->
  child baselines metric m ->
  child m guest_kernel k -> child k userspace u -> child u config leaf ->
  keys leaf = Ok ks -> List.length ks <> 1%nat ->
  forall s, fails (cpu_body instance_type cpu s).
Proof.
  intros Hb Hm Hk Hu Hl Hks Hlen s. unfold BaselineParser.cpu_body.
  apply fails_bind. intros model _. rewrite Hb. cbn [bind].
  destruct Hm as (ms & Hms & Hin & Hm). rewrite Hms. cbn [bind].
  eapply failed_loop_fails; [exact Hin|].
  apply (metric_body_fails baselines metric m guest_kernel k
           userspace u config leaf ks); auto.
  exists ms; auto.
Qed.

(** A document with a leaf that has no or several statistic-kind keys does
    not load: the traversal raises at that leaf or before it. *)
Lemma parse_data_fails (self : BaselineParser.t) leaf ks :
  config_leaf (BaselineParser._baselines self) leaf ->
  keys leaf = Ok ks -> List.length ks <> 1%nat ->
  fails (BaselineParser._parse_data parser self).
Proof.
  intros (entries & it & idata & cpus & cl & cpu & baselines & metric & m
          & gk & k & us & u & config
          & He & Hin & Hcpus & Hcl & Hcpu & Hb & Hm & Hk & Hu & Hl)
         Hks Hlen.
  unfold BaselineParser._parse_data. rewrite He. cbn [bind].
  eapply failed_loop_fails; [exact Hin|].
  intros s. unfold BaselineParser.instance_body. cbn [fst snd].
  rewrite Hcpus. cbn [bind]. rewrite Hcl. cbn [bind].
  eapply for_each_fails; [exact Hcpu|].
  apply (cpu_body_fails it cpu baselines metric m gk k us u config
           leaf ks); auto.
Qed.

End Traversal.

Section AssertionOrigin.

Variable parser : value -> value -> result value.
Hypothesis parser_quiet : forall data container, quiet (parser data container).

Lemma config_body_assert baselines metric guest_kernel userspace config s :
  BaselineParser.config_body parser baselines metric guest_kernel userspace
    config s = Raise AssertionError ->
  exists leaf ks,
    getitems baselines [metric; guest_kernel; userspace; config] = Ok leaf
    /\ keys leaf = Ok ks /\ List.length ks <> 1%nat.
Proof.
  unfold BaselineParser.config_body. intros H.
  assert_step H leaf Hleaf. assert_step H ks Hks.
  exists leaf, ks. split; [exact Hleaf|]. split; [exact Hks|].
  destruct (Nat.eqb_spec (List.length ks) 1) as [E|E]; [|exact E].
  exfalso. cbn [negb] in H.
  assert_step H mt Hmt. assert_step H leaf' Hleaf'.
  assert_step H data Hdata. assert_step H cfg Hcfg.
  apply bind_raise_inv in H. destruct H as [H | (c & _ & H)].
  - exact (parser_quiet _ _ H).
  - discriminate.
Qed.

Lemma userspace_body_assert baselines metric guest_kernel userspace s :
  BaselineParser.userspace_body parser baselines metric guest_kernel
    userspace s = Raise AssertionError ->
  exists u config leaf ks,
    getitems baselines [metric; guest_kernel; userspace] = Ok u
    /\ child u config leaf
    /\ keys leaf = Ok ks /\ List.length ks <> 1%nat.
Proof.
  unfold BaselineParser.userspace_body. intros H.
  assert_step H u Hu. assert_step H cs Hcs.
  apply bind_raise_inv in H. destruct H as [H | (mc & _ & H)].
  - apply for_each_raise_inv in H. destruct H as (config & s' & Hin & H).
    apply config_body_assert in H. destruct H as (leaf & ks & Hl & Hks & Hn).
    exists u, config, leaf, ks. repeat split; auto.
    exists cs. repeat split; auto.
    change [metric; guest_kernel; userspace; config]
      with ([metric; guest_kernel; userspace] ++ [config]) in Hl.
    rewrite getitems_app, Hu in Hl. cbn [bind] in Hl.
    now rewrite getitems_one in Hl.
  - assert_step H k Hk. discriminate.
Qed.

Lemma guest_kernel_body_assert baselines metric guest_kernel s :
  BaselineParser.guest_kernel_body parser baselines metric guest_kernel s
  = Raise AssertionError ->
  exists k userspace u config leaf ks,
    getitems baselines [metric; guest_kernel] = Ok k
    /\ child k userspace u /\ child u config leaf
    /\ keys leaf = Ok ks /\ List.length ks <> 1%nat.
Proof.
  unfold BaselineParser.guest_kernel_body. intros H.
  assert_step H k Hk. assert_step H us Hus.
  apply bind_raise_inv in H. destruct H as [H | (os & _ & H)].
  - apply for_each_raise_inv in H. destruct H as (userspace & s' & Hin & H).
    apply userspace_body_assert in H.
    destruct H as (u & config & leaf & ks & Hu & Hl & Hks & Hn).
    exists k, userspace, u, config, leaf, ks. repeat split; auto.
    exists us. repeat split; auto.
    change [metric; guest_kernel; userspace]
      with ([metric; guest_kernel] ++ [userspace]) in Hu.
    rewrite getitems_app, Hk in Hu. cbn [bind] in Hu.
    now rewrite getitems_one in Hu.
  - assert_step H kv Hkv. discriminate.
Qed.

Lemma metric_body_assert baselines metric s :
  BaselineParser.metric_body parser baselines metric s
  = Raise AssertionError ->
  exists m guest_kernel k userspace u config leaf ks,
    getitem baselines metric = Ok m
    /\ child m guest_kernel k /\ child k userspace u /\ child u config leaf
    /\ keys leaf = Ok ks /\ List.length ks <> 1%nat.
Proof.
  unfold BaselineParser.metric_body. intros H.
  assert_step H m Hm. assert_step H gks Hgks.
  apply bind_raise_inv in H. destruct H as [H | (g & _ & H)].
  - apply for_each_raise_inv in H.
    destruct H as (guest_kernel & s' & Hin & H).
    apply guest_kernel_body_assert in H.
    destruct H as (k & userspace & u & config & leaf & ks
                   & Hk & Hu & Hl & Hks & Hn).
    exists m, guest_kernel, k, userspace, u, config, leaf, ks.
    repeat split; auto.
    exists gks. repeat split; auto.
    change [metric; guest_kernel] with ([metric] ++ [guest_kernel]) in Hk.
    rewrite getitems_app, getitems_one, Hm in Hk. cbn [bind] in Hk.
    now rewrite getitems_one in Hk.
  - assert_step H mt Hmt. discriminate.
Qed.

(** [AssertionError] comes from the leaf check alone: when loading raises
    it, some leaf of the document has no or several statistic-kind keys. *)
Lemma parse_data_assert (self : BaselineParser.t) :
  BaselineParser._parse_data parser self = Raise AssertionError ->
  exists leaf ks,
    config_leaf (BaselineParser._baselines self) leaf
    /\ keys leaf = Ok ks /\ List.length ks <> 1%nat.
Proof.
  unfold BaselineParser._parse_data. intros H.
  assert_step H entries He.
  apply bind_raise_inv in H. destruct H as [H | (i & _ & H)];
    [|discriminate].
  apply for_each_raise_inv in H. destruct H as ([it idata] & s' & Hin & H).
  unfold BaselineParser.instance_body in H. cbn [fst snd] in H.
  assert_step H cpus Hcpus. assert_step H cl Hcl.
  apply for_each_raise_inv in H. destruct H as (cpu & s'' & Hcpu & H).
  unfold BaselineParser.cpu_body in H.
  assert_step H model Hmodel. assert_step H baselines Hb.
  assert_step H ms Hms.
  apply bind_raise_inv in H. destruct H as [H | (mts & _ & H)].
  - apply for_each_raise_inv in H. destruct H as (metric & s3 & Hmin & H).
    apply metric_body_assert in H.
    destruct H as (m & gk & k & us & u & config & leaf & ks
                   & Hm & Hk & Hu & Hl & Hks & Hn).
    exists leaf, ks. split; [|auto].
    exists entries, it, idata, cpus, cl, cpu, baselines,
           metric, m, gk, k, us, u, config.
    repeat split; auto.
    exists ms. repeat split; auto.
  - assert_step H c Hc. discriminate.
Qed.

End AssertionOrigin.

(** When the leaf the traversal reaches first has no or several
    statistic-kind keys, the exception is that of the leaf check. *)
Lemma first_leaf_assertion (parser : value -> value -> result value)
    (self : BaselineParser.t) leaf ks :
  first_config_leaf (BaselineParser._baselines self) leaf ->
  keys leaf = Ok ks -> List.length ks <> 1%nat ->
  BaselineParser._parse_data parser self = Raise AssertionError.
Proof.
  intros (it & idata & entries & cpus & cpu & cl & model & baselines
          & metric & m & gk & k & us & u & config
          & He & Hcpus & Hcl & Hmodel & Hb
          & (ms & Hms & Hm) & (gks & Hgks & Hk) & (uss & Huss & Hu)
          & (cs & Hcs & Hl)) Hks Hlen.
  apply Nat.eqb_neq in Hlen.
  unfold BaselineParser._parse_data. rewrite He. cbn [bind for_each].
  unfold BaselineParser.instance_body. cbn [fst snd].
  rewrite Hcpus. cbn [bind]. rewrite Hcl. cbn [bind for_each].
  unfold BaselineParser.cpu_body.
  rewrite Hmodel. cbn [bind]. rewrite Hb. cbn [bind].
  rewrite Hms. cbn [bind for_each].
  unfold BaselineParser.metric_body.
  rewrite Hm. cbn [bind]. rewrite Hgks. cbn [bind for_each].
  unfold BaselineParser.guest_kernel_body. cbn [getitems].
  rewrite Hm. cbn [bind]. rewrite Hk. cbn [bind].
  rewrite Huss. cbn [bind for_each].
  unfold BaselineParser.userspace_body. cbn [getitems].
  rewrite Hm. cbn [bind]. rewrite Hk. cbn [bind]. rewrite Hu. cbn [bind].
  rewrite Hcs. cbn [bind for_each].
  unfold BaselineParser.config_body. cbn [getitems].
  rewrite Hm. cbn [bind]. rewrite Hk. cbn [bind]. rewrite Hu. cbn [bind].
  rewrite Hl. cbn [bind]. rewrite Hks. cbn [bind]. rewrite Hlen.
  reflexivity.
Qed.

(** ** The throughput extraction function *)

Lemma map_result_quiet {A B} (f : A -> result B) xs :
  (forall x, quiet (f x)) -> quiet (map_result f xs).
Proof.
  intros Hf. induction xs as [|x xs IH]; cbn [map_result]; [discriminate|].
  intros H. apply bind_raise_inv in H. destruct H as [H | (y & _ & H)].
  - exact (Hf _ H).
  - apply bind_raise_inv in H. destruct H as [H | (ys & _ & H)].
    + exact (IH H).
    + discriminate.
Qed.

Lemma column_quiet data tag field :
  quiet (NetworkTCPThroughput.column data tag field).
Proof.
  unfold NetworkTCPThroughput.column. intros H.
  assert_step H ks Hks.
  apply bind_raise_inv in H. destruct H as [H | (l & _ & H)].
  - revert H. apply map_result_quiet. intros x. apply getitems_quiet.
  - discriminate.
Qed.

Lemma setitem_quiet c k v : quiet (NetworkTCPThroughput.setitem c k v).
Proof. destruct c; discriminate. Qed.

#[local] Hint Resolve column_quiet setitem_quiet : quiet.

Lemma throughput_parser_quiet data container :
  quiet (NetworkTCPThroughput.parser data container).
Proof.
  unfold NetworkTCPThroughput.parser. intros H.
  assert_step H d1 H1. assert_step H g1 H2. assert_step H c1 H3.
  assert_step H d2 H4. assert_step H g2 H5. assert_step H c2 H6.
  assert_step H ks H7. assert_step H d3 H8. assert_step H g3 H9.
  revert H. apply setitem_quiet.
Qed.

(** ** C3: the statistic kinds of a leaf *)

(** In this document a configuration of unknown name comes before the leaf
    with two statistic kinds. *)
Lemma ambiguous_leaf_of_sample :
  config_leaf (Sample.instances Sample.unknown_then_ambiguous)
    Sample.two_kinds.
Proof.
  unfold config_leaf, Sample.instances, Sample.unknown_then_ambiguous.
  exists [("m6g.metal",
           VDict [("cpus", VList Sample.unknown_then_ambiguous)])],
         "m6g.metal",
         (VDict [("cpus", VList Sample.unknown_then_ambiguous)]),
         (VList Sample.unknown_then_ambiguous),
         Sample.unknown_then_ambiguous,
         (Sample.cpu "ARM_NEOVERSE_N1"
            [("4vcpu_1024mb.json", Sample.one_kind 100);
             ("2vcpu_1024mb.json", Sample.two_kinds)]),
         (Sample.baselines
            [("4vcpu_1024mb.json", Sample.one_kind 100);
             ("2vcpu_1024mb.json", Sample.two_kinds)]),
         (VStr "throughput"),
         (Sample.guest_kernels
            [("4vcpu_1024mb.json", Sample.one_kind 100);
             ("2vcpu_1024mb.json", Sample.two_kinds)]),
         (VStr "vmlinux-5.10.bin"),
         (Sample.userspaces
            [("4vcpu_1024mb.json", Sample.one_kind 100);
             ("2vcpu_1024mb.json", Sample.two_kinds)]),
         (VStr "ubuntu-18.04.ext4"),
         (VDict [("4vcpu_1024mb.json", Sample.one_kind 100);
                 ("2vcpu_1024mb.json", Sample.two_kinds)]),
         (VStr "2vcpu_1024mb.json").
  repeat split; try reflexivity; try (left; reflexivity);
    unfold child; eexists; (split; [reflexivity|]);
    (split; [simpl; auto | reflexivity]).
Qed.

(** C3, as stated, fails: a document with a leaf of two statistic kinds
    whose loading raises the unknown-token exception of an earlier
    configuration, not the error of the leaf check. *)
Lemma earlier_error_hides_ambiguous_leaf :
  (exists leaf ks,
      config_leaf (Sample.instances Sample.unknown_then_ambiguous) leaf
      /\ keys leaf = Ok ks /\ List.length ks = 2%nat)
  /\ NetworkTCPThroughput.__init__
       (Sample.files (Sample.document Sample.unknown_then_ambiguous))
       "configs" KernelVersion.KERNEL_5_10 VNone
     = Raise (ExceptionF "Unknown machine configuration: "
                (VStr "4vcpu_1024mb.json")).
Proof.
  split.
  - exists Sample.two_kinds, ["Avg"; "Total"].
    split; [exact ambiguous_leaf_of_sample | split; reflexivity].
  - vm_compute. reflexivity.
Qed.

(** C3, amended. A document with a machine-configuration leaf that has no
    or several statistic-kind keys never loads: [_parse_data] raises and
    returns no tree. The exception is the [AssertionError] of the leaf
    check when that leaf is the first the traversal reaches, as in the
    sample document with two kinds; otherwise an exception met earlier may
    come instead. [AssertionError] is raised only when such a leaf exists:
    a document whose leaves all have exactly one statistic-kind key loads
    without it. The extraction function is assumed not to raise
    [AssertionError] itself. *)
Theorem leaf_statistic_kinds (parser : value -> value -> result value)
    (self : BaselineParser.t) :
  (forall data container, quiet (parser data container)) ->
  (forall leaf ks,
      config_leaf (BaselineParser._baselines self) leaf ->
      keys leaf = Ok ks -> List.length ks <> 1%nat ->
      fails (BaselineParser._parse_data parser self))
  /\ (forall leaf ks,
        first_config_leaf (BaselineParser._baselines self) leaf ->
        keys leaf = Ok ks -> List.length ks <> 1%nat ->
        BaselineParser._parse_data parser self = Raise AssertionError)
  /\ (BaselineParser._parse_data parser self = Raise AssertionError ->
      exists leaf ks,
        config_leaf (BaselineParser._baselines self) leaf
        /\ keys leaf = Ok ks /\ List.length ks <> 1%nat)
  /\ ((forall leaf, config_leaf (BaselineParser._baselines self) leaf ->
                    one_statistic_kind leaf) ->
      quiet (BaselineParser._parse_data parser self))
  /\ NetworkTCPThroughput.__init__
       (Sample.files (Sample.document Sample.ambiguous))
       "configs" KernelVersion.KERNEL_5_10 VNone
     = Raise AssertionError.
Proof.
  intros Hq. split; [|split; [|split; [|split]]].
  - intros leaf ks. apply parse_data_fails.
  - intros leaf ks. apply first_leaf_assertion.
  - apply parse_data_assert. exact Hq.
  - intros Hall H. apply (parse_data_assert parser Hq) in H.
    destruct H as (leaf & ks & Hleaf & Hks & Hn).
    apply Hn. exact (Hall leaf Hleaf ks Hks).
  - vm_compute. reflexivity.
Qed.

Lemma leaf_statistic_kinds_witness :
  (forall leaf ks,
      config_leaf (Sample.instances Sample.unknown_then_ambiguous) leaf ->
      keys leaf = Ok ks -> List.length ks <> 1%nat ->
      fails (BaselineParser._parse_data NetworkTCPThroughput.parser
               (Sample.loader
                  (Sample.instances Sample.unknown_then_ambiguous))))
  /\ fails (BaselineParser._parse_data NetworkTCPThroughput.parser
              (Sample.loader
                 (Sample.instances Sample.unknown_then_ambiguous))).
Proof.
  pose proof (leaf_statistic_kinds NetworkTCPThroughput.parser
                (Sample.loader
                   (Sample.instances Sample.unknown_then_ambiguous))
                throughput_parser_quiet) as H.
  split.
  - exact (proj1 H).
  - apply (proj1 H Sample.two_kinds ["Avg"; "Total"]).
    + exact ambiguous_leaf_of_sample.
    + reflexivity.
    + discriminate.
Defined.

(** ** C6: one leaf per coordinate *)

Section DictSet.

Context {K V : Type} (eqb : K -> K -> bool).
Hypothesis eqb_eq : forall a b, eqb a b = true <-> a = b.

Lemma dict_set_keys_incl (k : K) (v : V) d x :
  In x (map fst (dict_set eqb k v d)) -> x = k \/ In x (map fst d).
Proof.
  induction d as [|[k' v'] d IH]; simpl.
  - intros [<-|[]]; auto.
  - destruct (eqb k' k); simpl; intros [H|H]; auto.
    destruct (IH H); auto.
Qed.

Lemma dict_set_keys_NoDup (k : K) (v : V) d :
  NoDup (map fst d) -> NoDup (map fst (dict_set eqb k v d)).
Proof.
  induction d as [|[k' v'] d IH]; simpl; intros Hnd.
  - constructor; [tauto | constructor].
  - inversion Hnd as [|? ? Hnotin Hnd']; subst.
    destruct (eqb k' k) eqn:E; simpl.
    + constructor; assumption.
    + constructor; [|auto].
      intros Hin. apply dict_set_keys_incl in Hin. destruct Hin as [->|Hin].
      * assert (eqb k k = true) by (apply eqb_eq; reflexivity). congruence.
      * contradiction.
Qed.

Lemma dict_set_values (P : V -> Prop) (k : K) (v : V) d :
  P v -> Forall (fun e => P (snd e)) d ->
  Forall (fun e => P (snd e)) (dict_set eqb k v d).
Proof.
  intros Hv. induction d as [|[k' v'] d IH]; simpl; intros Hd.
  - constructor; [exact Hv | constructor].
  - inversion Hd; subst. destruct (eqb k' k); constructor; auto.
Qed.

Lemma wf_dict_set (P : V -> Prop) (k : K) (v : V) d :
  P v -> wf_dict P d -> wf_dict P (dict_set eqb k v d).
Proof.
  intros Hv [Hk Hd]. split.
  - apply dict_set_keys_NoDup; assumption.
  - apply dict_set_values; assumption.
Qed.

(** Assigning twice to one key leaves the second value alone. *)
Lemma dict_set_twice (k : K) (v1 v2 : V) :
  dict_set eqb k v2 (dict_set eqb k v1 []) = dict_set eqb k v2 [].
Proof.
  simpl. assert (E : eqb k k = true) by (apply eqb_eq; reflexivity).
  now rewrite E.
Qed.

End DictSet.

Lemma wf_dict_nil {K V} (P : V -> Prop) : wf_dict P (@nil (K * V)).
Proof. split; constructor. Qed.

Lemma CpuModel_eqb_eq a b : CpuModel.eqb a b = true <-> a = b.
Proof. destruct a, b; simpl; split; congruence. Qed.

Lemma Metric_eqb_eq a b : Metric.eqb a b = true <-> a = b.
Proof. destruct a, b; simpl; split; congruence. Qed.

Lemma KernelVersion_eqb_eq a b : KernelVersion.eqb a b = true <-> a = b.
Proof. destruct a, b; simpl; split; congruence. Qed.

Lemma GuestOs_eqb_eq a b : GuestOs.eqb a b = true <-> a = b.
Proof. destruct a, b; split; reflexivity. Qed.

Lemma MachineConfig_eqb_eq a b : MachineConfig.eqb a b = true <-> a = b.
Proof. destruct a, b; simpl; split; congruence. Qed.

Lemma NoDup_paths {K V C} (f : V -> list C) (d : list (K * V)) :
  NoDup (map fst d) -> Forall (fun e => NoDup (f (snd e))) d ->
  NoDup (paths f d).
Proof.
  unfold paths. induction d as [|[k v] d IH]; simpl; intros Hk Hv.
  - constructor.
  - inversion Hk as [|? ? Hnotin Hk']; inversion Hv; subst.
    apply NoDup_app; auto.
    + apply Injective_map_NoDup; [|assumption].
      intros a b E. congruence.
    + intros [k' c] H1 H2. apply in_map_iff in H1.
      destruct H1 as (c' & E & _). inversion E; subst.
      apply Hnotin. apply in_flat_map in H2.
      destruct H2 as ([k2 v2] & Hin & H2). apply in_map_iff in H2.
      destruct H2 as (c2 & E2 & _). simpl in E2. inversion E2; subst.
      apply in_map_iff. exists (k', v2). auto.
Qed.

Lemma wf_instances_coordinates (t : instances_t) :
  wf_instances t -> NoDup (coordinates t).
Proof.
  unfold coordinates. intros [Hk Hv].
  apply NoDup_paths; [exact Hk|].
  eapply Forall_impl; [|exact Hv]. intros [c m] [Hk1 Hv1]; simpl in *.
  apply NoDup_paths; [exact Hk1|].
  eapply Forall_impl; [|exact Hv1]. intros [mt g] [Hk2 Hv2]; simpl in *.
  apply NoDup_paths; [exact Hk2|].
  eapply Forall_impl; [|exact Hv2]. intros [kv o] [Hk3 Hv3]; simpl in *.
  apply NoDup_paths; [exact Hk3|].
  eapply Forall_impl; [|exact Hv3]. intros [os cs] [Hk4 _]; simpl in *.
  exact Hk4.
Qed.

Section TreeShape.

Variable parser : value -> value -> result value.

(** One step of a sequence that returned: every computation returned. *)
Ltac ok_step H x Hx :=
  apply bind_ok_inv in H; destruct H as (x & Hx & H).

Lemma config_body_wf baselines metric guest_kernel userspace config s s' :
  wf_configs s ->
  BaselineParser.config_body parser baselines metric guest_kernel userspace
    config s = Ok s' ->
  wf_configs s'.
Proof.
  unfold BaselineParser.config_body. intros Hs H.
  ok_step H leaf Hleaf. ok_step H ks Hks.
  destruct (negb _); [discriminate|].
  ok_step H mt Hmt. ok_step H leaf' Hleaf'. ok_step H data Hdata.
  ok_step H cfg Hcfg. ok_step H c Hc. inversion H; subst.
  repeat apply (wf_dict_set _ MachineConfig_eqb_eq); auto.
Qed.

Lemma userspace_body_wf baselines metric guest_kernel userspace s s' :
  wf_os s ->
  BaselineParser.userspace_body parser baselines metric guest_kernel
    userspace s = Ok s' ->
  wf_os s'.
Proof.
  unfold BaselineParser.userspace_body. intros Hs H.
  ok_step H u Hu. ok_step H cs Hcs. ok_step H mc Hmc. ok_step H k Hk.
  inversion H; subst.
  apply (wf_dict_set _ GuestOs_eqb_eq); [|exact Hs].
  eapply (for_each_invariant wf_configs); [| |exact Hmc].
  - intros x a b _. apply config_body_wf.
  - apply wf_dict_nil.
Qed.

Lemma guest_kernel_body_wf baselines metric guest_kernel s s' :
  wf_guest_kernels s ->
  BaselineParser.guest_kernel_body parser baselines metric guest_kernel s
  = Ok s' ->
  wf_guest_kernels s'.
Proof.
  unfold BaselineParser.guest_kernel_body. intros Hs H.
  ok_step H k Hk. ok_step H us Hus. ok_step H os Hos. ok_step H kv Hkv.
  inversion H; subst.
  apply (wf_dict_set _ KernelVersion_eqb_eq); [|exact Hs].
  eapply (for_each_invariant wf_os); [| |exact Hos].
  - intros x a b _. apply userspace_body_wf.
  - apply wf_dict_nil.
Qed.

Lemma metric_body_wf baselines metric s s' :
  wf_metrics s ->
  BaselineParser.metric_body parser baselines metric s = Ok s' ->
  wf_metrics s'.
Proof.
  unfold BaselineParser.metric_body. intros Hs H.
  ok_step H m Hm. ok_step H gks Hgks. ok_step H g Hg. ok_step H mt Hmt.
  inversion H; subst.
  apply (wf_dict_set _ Metric_eqb_eq); [|exact Hs].
  eapply (for_each_invariant wf_guest_kernels); [| |exact Hg].
  - intros x a b _. apply guest_kernel_body_wf.
  - apply wf_dict_nil.
Qed.

Lemma cpu_body_wf instance_type cpu s s' :
  wf_instances s ->
  BaselineParser.cpu_body parser instance_type cpu s = Ok s' ->
  wf_instances s'.
Proof.
  unfold BaselineParser.cpu_body. intros Hs H.
  ok_step H model Hmodel. ok_step H baselines Hb. ok_step H ms Hms.
  ok_step H metrics Hmetrics. ok_step H c Hc. inversion H; subst.
  apply (wf_dict_set _ CpuModel_eqb_eq); [|exact Hs].
  eapply (for_each_invariant wf_metrics); [| |exact Hmetrics].
  - intros x a b _. apply metric_body_wf.
  - apply wf_dict_nil.
Qed.

(** The tree of a loaded document holds each coordinate once. *)
Lemma parse_data_unique (self self' : BaselineParser.t) :
  BaselineParser._parse_data parser self = Ok self' ->
  NoDup (coordinates (BaselineParser._instances self')).
Proof.
  unfold BaselineParser._parse_data. intros H.
  ok_step H entries He. ok_step H insts Hi. inversion H; subst. simpl.
  apply wf_instances_coordinates.
  eapply (for_each_invariant wf_instances); [| |exact Hi].
  - intros [it idata] a b _ Ha Hb.
    unfold BaselineParser.instance_body in Hb. cbn [fst snd] in Hb.
    ok_step Hb cpus Hcpus. ok_step Hb cl Hcl.
    eapply (for_each_invariant wf_instances); [| exact Ha |exact Hb].
    intros x a' b' _. apply cpu_body_wf.
  - apply wf_dict_nil.
Qed.

(** What a CPU entry adds does not depend on the tree built so far: the
    entry is assigned at its model. *)
Lemma cpu_body_assigns instance_type cpu s0 s0' :
  BaselineParser.cpu_body parser instance_type cpu s0 = Ok s0' ->
  exists c metrics,
    forall s, BaselineParser.cpu_body parser instance_type cpu s
              = Ok (dict_set CpuModel.eqb c metrics s).
Proof.
  unfold BaselineParser.cpu_body. intros H.
  ok_step H model Hmodel. ok_step H baselines Hb. ok_step H ms Hms.
  ok_step H metrics Hmetrics. ok_step H c Hc.
  exists c, metrics. intros s.
  rewrite Hmodel. cbn [bind]. rewrite Hb. cbn [bind]. rewrite Hms.
  cbn [bind]. rewrite Hmetrics. cbn [bind]. rewrite Hc. reflexivity.
Qed.

End TreeShape.

Lemma parse_one_instance parser self instance_type cpus :
  BaselineParser._parse_data parser
    (holding self (one_instance instance_type cpus))
  = (instances <-
       for_each cpus (BaselineParser.cpu_body parser instance_type) [] ;;
     Ok (holding
           {| BaselineParser._meta := BaselineParser._meta self;
              BaselineParser._baselines := BaselineParser._baselines self;
              BaselineParser._instances := instances;
              BaselineParser._host_kernel :=
                BaselineParser._host_kernel self;
              BaselineParser._git_version :=
                BaselineParser._git_version self |}
           (one_instance instance_type cpus))).
Proof.
  unfold BaselineParser._parse_data, holding, one_instance.
  cbn [BaselineParser._baselines items bind for_each].
  unfold BaselineParser.instance_body. cbn [fst snd].
  change (getitem (VDict [("cpus", VList cpus)]) (VStr "cpus"))
    with (Ok (VList cpus)).
  cbn [bind iter BaselineParser._meta BaselineParser._host_kernel
       BaselineParser._git_version].
  destruct (for_each cpus (BaselineParser.cpu_body parser instance_type) []);
    reflexivity.
Qed.

(** C6, as stated, fails: a document with two CPU entries of one instance
    type and one model loads, and its tree is the tree of the document
    holding the second entry alone. *)
Lemma duplicate_cpu_entries_load :
  exists both second,
    NetworkTCPThroughput.__init__
      (Sample.files (Sample.document Sample.duplicated))
      "configs" KernelVersion.KERNEL_5_10 VNone = Ok both
    /\ NetworkTCPThroughput.__init__
         (Sample.files (Sample.document (Sample.single 105)))
         "configs" KernelVersion.KERNEL_5_10 VNone = Ok second
    /\ BaselineParser._instances both = BaselineParser._instances second.
Proof.
  eexists. eexists. split; [vm_compute; reflexivity|].
  split; [vm_compute; reflexivity|]. reflexivity.
Qed.

(** C6, amended. The tree of every loaded document holds each full
    coordinate at most once. A document with duplicate leaves for one
    coordinate is not refused: the later entry replaces the earlier one
    without an error. For two CPU entries of one instance type that resolve
    to the same model, each loading on its own, the document with both loads
    and its tree is the tree of the second entry. *)
Theorem one_leaf_per_coordinate
    (parser : value -> value -> result value) :
  (forall self self',
      BaselineParser._parse_data parser self = Ok self' ->
      NoDup (coordinates (BaselineParser._instances self')))
  /\ (forall self instance_type cpu1 cpu2 self1 self2,
        BaselineParser._parse_data parser
          (holding self (one_instance instance_type [cpu1])) = Ok self1 ->
        BaselineParser._parse_data parser
          (holding self (one_instance instance_type [cpu2])) = Ok self2 ->
        map fst (BaselineParser._instances self1)
        = map fst (BaselineParser._instances self2) ->
        exists both,
          BaselineParser._parse_data parser
            (holding self (one_instance instance_type [cpu1; cpu2]))
          = Ok both
          /\ BaselineParser._instances both
             = BaselineParser._instances self2).
Proof.
  split; [apply parse_data_unique|].
  intros self it cpu1 cpu2 self1 self2 H1 H2 Hk.
  rewrite parse_one_instance in H1, H2 |- *. cbn [for_each] in *.
  destruct (BaselineParser.cpu_body parser it cpu1 []) as [s1|] eqn:E1;
    [|discriminate].
  destruct (BaselineParser.cpu_body parser it cpu2 []) as [s2|] eqn:E2;
    [|discriminate].
  destruct (cpu_body_assigns parser it cpu1 _ _ E1) as (c1 & m1 & A1).
  destruct (cpu_body_assigns parser it cpu2 _ _ E2) as (c2 & m2 & A2).
  rewrite A1 in E1. rewrite A2 in E2.
  cbn [bind dict_set] in *.
  inversion E1; subst s1. inversion E2; subst s2.
  inversion H1; subst self1. inversion H2; subst self2.
  cbn in Hk. inversion Hk; subst c2.
  rewrite A2. cbn [bind dict_set].
  assert (E : CpuModel.eqb c1 c1 = true)
    by (apply CpuModel_eqb_eq; reflexivity).
  rewrite E. eexists. split; reflexivity.
Qed.

(** ** C7: the worktrees of a run *)

Lemma mem_In p l : Git.mem p l = true <-> In p l.
Proof.
  unfold Git.mem. rewrite existsb_exists. split.
  - intros (x & Hin & E). apply String.eqb_eq in E. now subst.
  - intros H. exists p. split; [exact H | apply String.eqb_refl].
Qed.

Lemma remove_added p l :
  ~ In p l -> filter (fun q => negb (String.eqb p q)) (l ++ [p]) = l.
Proof.
  intros Hn. rewrite filter_app. simpl. rewrite String.eqb_refl. simpl.
  rewrite app_nil_r. induction l as [|q l IH]; simpl; [reflexivity|].
  destruct (String.eqb_spec p q) as [->|Hq]; simpl.
  - exfalso. apply Hn. now left.
  - f_equal. apply IH. intros H. apply Hn. now right.
Qed.

(** The scope of [GitWorktree] leaves the worktrees as it found them,
    whether its body returns or raises, when the body itself registers and
    removes none. *)
Lemma scope_restores_worktrees {B} (rev_parse : string -> option string)
    (git_ref : string) (body : string -> cmd B) (w : world) :
  (forall hash w1, worktrees (snd (body hash w1)) = worktrees w1) ->
  worktrees (snd (GitWorktree.scope rev_parse git_ref body w)) = worktrees w.
Proof.
  intros Hbody.
  unfold GitWorktree.scope, with_, GitWorktree.__enter__, seq,
    Git.run_rev_parse, Git.worktree_add, GitWorktree.__exit__,
    Git.worktree_remove, ret, raise.
  destruct (rev_parse git_ref) as [hash|]; [|reflexivity].
  destruct (rev_parse hash); [|reflexivity].
  destruct (Git.mem hash (worktrees w)) eqn:Em; [reflexivity|].
  specialize (Hbody hash {| worktrees := worktrees w ++ [hash] |}).
  destruct (body hash {| worktrees := worktrees w ++ [hash] |}) as [r w2].
  cbn [snd worktrees] in Hbody. rewrite Hbody.
  assert (Hin : Git.mem hash (worktrees w ++ [hash]) = true).
  { apply mem_In, in_or_app. right. now left. }
  rewrite Hin. cbn [snd worktrees]. apply remove_added.
  intros H. apply mem_In in H. congruence.
Qed.

(** C7, at a failing run. Both revisions resolve and both worktrees are
    added; the construction of the comparator raises; [cmd_commit] ends with
    that exception and the two worktrees still registered. [cmd_latest]
    leaves the worktree of the latest commit in the same way. When nothing
    raises, both commands remove what they added. *)
Theorem cmd_commit_leaves_worktrees :
  CompareMain.cmd_commit SampleRun.rev_parse SampleRun.head_hash
    SampleRun.DEFAULT_BASELINE_DIRECTORY unit SampleRun.failing_comparator
    SampleRun.compare SampleRun.dump_json SampleRun.args SampleRun.clean
  = (Raise (Exception "Malformed baseline file"),
     {| worktrees := ["1111111"; "2222222"] |})
  /\ CompareMain.cmd_latest SampleRun.rev_parse SampleRun.head_hash
       SampleRun.DEFAULT_BASELINE_DIRECTORY unit SampleRun.failing_comparator
       SampleRun.compare SampleRun.dump_json SampleRun.args SampleRun.clean
     = (Raise (Exception "Malformed baseline file"),
        {| worktrees := ["c0ffee"] |})
  /\ CompareMain.cmd_commit SampleRun.rev_parse SampleRun.head_hash
       SampleRun.DEFAULT_BASELINE_DIRECTORY unit SampleRun.working_comparator
       SampleRun.compare SampleRun.dump_json SampleRun.args SampleRun.clean
     = (Ok tt, SampleRun.clean)
  /\ CompareMain.cmd_latest SampleRun.rev_parse SampleRun.head_hash
       SampleRun.DEFAULT_BASELINE_DIRECTORY unit SampleRun.working_comparator
       SampleRun.compare SampleRun.dump_json SampleRun.args SampleRun.clean
     = (Ok tt, SampleRun.clean).
Proof. repeat split; vm_compute; reflexivity. Qed.

(** When both revisions resolve and the construction of the comparator
    raises, [cmd_commit] ends with the two worktrees it added. *)
Lemma cmd_commit_leak (rev_parse : string -> option string)
    (head_hash : option string) (DEFAULT_BASELINE_DIRECTORY : string)
    (comparator : Type)
    (DirectoryComparator :
       string -> string -> list string -> list string -> list string ->
       world -> result comparator)
    (compare : comparator -> bool -> world -> result comparator)
    (dump_json : comparator -> string -> world -> result unit)
    (a : CompareMain.args) (t : string) (w : world) (e : exn) :
  CompareMain.target a = Some t ->
  rev_parse (CompareMain.source a) <> None -> rev_parse t <> None ->
  ~ In (CompareMain.source a) (worktrees w) -> ~ In t (worktrees w) ->
  CompareMain.source a <> t ->
  (forall src tgt w', DirectoryComparator src tgt (CompareMain.tests a)
                        (CompareMain.kernels a) (CompareMain.codenames a) w'
                      = Raise e) ->
  CompareMain.cmd_commit rev_parse head_hash DEFAULT_BASELINE_DIRECTORY
    comparator DirectoryComparator compare dump_json a w
  = (Raise e,
     {| worktrees := (worktrees w ++ [CompareMain.source a]) ++ [t] |}).
Proof.
  intros Ht Hs Hrt Hns Hnt Hne Hdc.
  unfold CompareMain.cmd_commit, seq, ret, lift, Git.worktree_add.
  rewrite Ht.
  destruct (rev_parse (CompareMain.source a)); [|congruence].
  destruct (rev_parse t); [|congruence].
  destruct (Git.mem (CompareMain.source a) (worktrees w)) eqn:E1.
  { apply mem_In in E1. contradiction. }
  cbn [worktrees].
  destruct (Git.mem t (worktrees w ++ [CompareMain.source a])) eqn:E2.
  { apply mem_In, in_app_or in E2. destruct E2 as [E2|[E2|[]]];
      [contradiction | congruence]. }
  rewrite Hdc. reflexivity.
Qed.

(** ** C1: the convention of the percentages and the rendering offsets *)

Lemma snd_combine {A B} (l1 : list A) (l2 : list B) :
  List.length l1 = List.length l2 -> map snd (combine l1 l2) = l2.
Proof.
  revert l2. induction l1 as [|a l1 IH]; intros [|b l2]; simpl;
    try discriminate; try reflexivity.
  intros H. f_equal. apply IH. now inversion H.
Qed.

Lemma snd_enumerate {A} (l : list A) :
  map snd (OutputImages.enumerate l) = l.
Proof.
  unfold OutputImages.enumerate. apply snd_combine.
  now rewrite length_map, length_seq.
Qed.

Lemma cpu_loop_bars (MODEL2SHORT : value) (base : Z) xs :
  forall c0 c,
    for_each xs (OutputImages.cpu_body MODEL2SHORT base) c0 = Ok c ->
    exists ys,
      OutputImages.c_y c = OutputImages.c_y c0 ++ ys
      /\ Forall2 (bar_of base) (map snd xs) ys.
Proof.
  induction xs as [|[i cpu] xs IH]; cbn [for_each]; intros c0 c H.
  - inversion H; subst. exists []. rewrite app_nil_r. split; constructor.
  - apply bind_ok_inv in H. destruct H as (c1 & H1 & H).
    apply IH in H. destruct H as (ys & Ey & Hys).
    unfold OutputImages.cpu_body in H1.
    apply bind_ok_inv in H1. destruct H1 as (m & _ & H1).
    apply bind_ok_inv in H1. destruct H1 as (label & _ & H1).
    apply bind_ok_inv in H1. destruct H1 as (mean & Hmean & H1).
    apply bind_ok_inv in H1. destruct H1 as (y & Hy & H1).
    apply bind_ok_inv in H1. destruct H1 as (stdev & _ & H1).
    inversion H1; subst c1. cbn [OutputImages.c_y] in Ey.
    exists (y :: ys). split.
    + rewrite Ey, <- app_assoc. reflexivity.
    + cbn [map snd]. constructor; [|exact Hys]. exists mean. auto.
Qed.

(** Every image [output_images] saves for a metric draws, for each entry
    under the key, the entry's mean plus the offset of the pass. *)
Lemma metric_body_bars (MODEL2SHORT raw : value) (dpath key : string)
    (base : Z) (metric : string) (v : value) saved saved' :
  OutputImages.metric_body MODEL2SHORT raw dpath key base (metric, v) saved
  = Ok saved' ->
  exists cpus cl fig,
    getitem v (VStr key) = Ok cpus /\ iter cpus = Ok cl
    /\ saved' = saved ++ [fig]
    /\ Forall2 (bar_of base) cl (OutputImages.y_vals fig).
Proof.
  unfold OutputImages.metric_body. intros H.
  apply bind_ok_inv in H. destruct H as (cpus & Hcpus & H).
  apply bind_ok_inv in H. destruct H as (cl & Hcl & H).
  apply bind_ok_inv in H. destruct H as (c & Hc & H).
  apply bind_ok_inv in H. destruct H as (m0 & _ & H).
  apply bind_ok_inv in H. destruct H as (basis & _ & H).
  apply bind_ok_inv in H. destruct H as (test & _ & H).
  apply bind_ok_inv in H. destruct H as (kernel & _ & H).
  inversion H; subst saved'. clear H.
  apply cpu_loop_bars in Hc. destruct Hc as (ys & Ey & Hys).
  cbn [OutputImages.c_y app] in Ey. rewrite snd_enumerate in Hys.
  eexists cpus, cl, _. repeat split; try eassumption; try reflexivity.
  cbn [OutputImages.y_vals]. rewrite Ey. exact Hys.
Qed.

(** C1. Two leaves present on both sides at one coordinate compare to
    [(comparison.target / basis.target) * 100] when the basis target is
    numeric and not zero, so that no change reads 100 and the example of
    basis 100 and comparison 105 reads 105. The rendering step has two
    passes, one over [target_diff_percentage] with offset 100 and one over
    [delta_percentage_diff] with offset 0, and every bar it draws is the
    mean of the entry plus the offset of the pass: the sample report with
    the values 105 and 2 is drawn with bars at 205 and 2. *)
Theorem percentage_convention
    (basis comparison : Comparator.BaselineLeaf) (b c : float) :
  Comparator.numeric (Comparator.target basis) = Some b ->
  Comparator.numeric (Comparator.target comparison) = Some c ->
  PrimFloat.eqb b 0 = false ->
  Comparator.target_diff_percentage
    (Comparator.compare_leaves basis comparison)
  = Some (c / b * 100)%float
  /\ Comparator.compare_leaves SampleReport.basis SampleReport.comparison
     = {| Comparator.target_diff_percentage := Some 105%float;
          Comparator.delta_percentage_diff := Some 2%float |}
  /\ Comparator.target_diff_percentage
       (Comparator.compare_leaves SampleReport.basis SampleReport.basis)
     = Some 100%float
  /\ OutputImages.passes
     = [("target_diff_percentage", 100%Z); ("delta_percentage_diff", 0%Z)]
  /\ (forall MODEL2SHORT raw dpath key base metric v saved saved',
        OutputImages.metric_body MODEL2SHORT raw dpath key base
          (metric, v) saved = Ok saved' ->
        exists cpus cl fig,
          getitem v (VStr key) = Ok cpus /\ iter cpus = Ok cl
          /\ saved' = saved ++ [fig]
          /\ Forall2 (bar_of base) cl (OutputImages.y_vals fig))
  /\ (forall mean base,
        OutputImages.add (VFloat mean) base
        = Ok (VFloat (mean + float_of_Z base)))
  /\ float_of_Z 100 = 100%float
  /\ float_of_Z 0 = 0%float
  /\ (exists figs,
        OutputImages.main SampleReport.MODEL2SHORT SampleReport.files
          "result.json" "comparison_results/" = Ok figs
        /\ map OutputImages.y_vals figs = [[VFloat 205]; [VFloat 2]]).
Proof.
  intros Hb Hc Hz.
  split.
  { unfold Comparator.compare_leaves. cbn [Comparator.target_diff_percentage].
    rewrite Hb, Hc, Hz. reflexivity. }
  split; [vm_compute; reflexivity|].
  split; [vm_compute; reflexivity|].
  split; [reflexivity|].
  split; [intros *; apply metric_body_bars|].
  split; [reflexivity|].
  split; [vm_compute; reflexivity|].
  split; [vm_compute; reflexivity|].
  eexists. split; [vm_compute; reflexivity | reflexivity].
Qed.

Lemma percentage_convention_witness :
  Comparator.target_diff_percentage
    (Comparator.compare_leaves SampleReport.basis SampleReport.comparison)
  = Some (105 / 100 * 100)%float.
Proof.
  exact (proj1 (percentage_convention SampleReport.basis
                  SampleReport.comparison 100%float 105%float
                  eq_refl eq_refl eq_refl)).
Defined.

(** ** Witnesses of the constructor's properties *)

Lemma sample_top_level_distinct :
  NoDup (map fst (Sample.top_level (Sample.single 100))).
Proof.
  simpl. repeat constructor; simpl; intuition discriminate.
Qed.

Lemma init_requires_hosts_witness :
  BaselineParser.__init__
    (Sample.files (Sample.document (Sample.single 100)))
    "configs/test_network_tcp_throughput_config_5.10.json"
    KernelVersion.KERNEL_5_10 VNone
  = Ok {| BaselineParser._meta := [("name", VStr "network_tcp_throughput")];
          BaselineParser._baselines :=
            Sample.instances (Sample.single 100);
          BaselineParser._instances := [];
          BaselineParser._host_kernel := KernelVersion.KERNEL_5_10;
          BaselineParser._git_version := VNone |}.
Proof.
  exact (init_requires_hosts
           (Sample.files (Sample.document (Sample.single 100)))
           "configs/test_network_tcp_throughput_config_5.10.json"
           KernelVersion.KERNEL_5_10 VNone
           (Sample.top_level (Sample.single 100))
           eq_refl sample_top_level_distinct).
Defined.

Lemma init_requires_instances_witness :
  BaselineParser.__init__
    (Sample.files (VDict [("hosts", VDict [("name", VStr "m6g.metal")])]))
    "configs/test_network_tcp_throughput_config_5.10.json"
    KernelVersion.KERNEL_5_10 VNone
  = Raise (KeyError (VStr "instances")).
Proof.
  exact (init_requires_instances
           (Sample.files (VDict [("hosts", VDict [("name", VStr "m6g.metal")])]))
           "configs/test_network_tcp_throughput_config_5.10.json"
           KernelVersion.KERNEL_5_10 VNone
           [("hosts", VDict [("name", VStr "m6g.metal")])]
           [("name", VStr "m6g.metal")]
           eq_refl eq_refl eq_refl).
Defined.

(* ===================================================================== *)
(** * Further properties of the tools                                     *)
(* ===================================================================== *)

Ltac returned H x Hx :=
  apply bind_ok_inv in H; destruct H as (x & Hx & H).

(** ** Dictionaries: entries and lookups *)

Section DictEntries.

Context {K V : Type} (eqb : K -> K -> bool).
Hypothesis eqb_eq : forall a b, eqb a b = true <-> a = b.

Lemma eqb_same (k : K) : eqb k k = true.
Proof. apply eqb_eq. reflexivity. Qed.

Lemma dict_set_set (k : K) (v1 v2 : V) d :
  dict_set eqb k v2 (dict_set eqb k v1 d) = dict_set eqb k v2 d.
Proof.
  induction d as [|[k' v'] d IH]; simpl.
  - now rewrite eqb_same.
  - destruct (eqb k' k) eqn:E; simpl; rewrite E; [reflexivity|].
    now rewrite IH.
Qed.

Lemma dict_set_entries (P : K * V -> Prop) (k : K) (v : V) d :
  P (k, v) -> Forall P d -> Forall P (dict_set eqb k v d).
Proof.
  intros Hv. induction d as [|[k' v'] d IH]; simpl; intros Hd.
  - constructor; [exact Hv | constructor].
  - inversion Hd; subst. destruct (eqb k' k) eqn:E.
    + apply eqb_eq in E. subst k'. constructor; assumption.
    + constructor; auto.
Qed.

Lemma dict_get_In (k : K) (v : V) d :
  dict_get eqb k d = Some v -> In (k, v) d.
Proof.
  induction d as [|[k' v'] d IH]; simpl; [discriminate|].
  destruct (eqb k' k) eqn:E.
  - apply eqb_eq in E. intros H. inversion H; subst. now left.
  - intros H. right. auto.
Qed.

Lemma In_dict_get (k : K) (v : V) d :
  NoDup (map fst d) -> In (k, v) d -> dict_get eqb k d = Some v.
Proof.
  induction d as [|[k' v'] d IH]; simpl; [contradiction|].
  intros Hnd [H|H]; inversion Hnd as [|? ? Hnotin Hnd']; subst.
  - inversion H; subst. now rewrite eqb_same.
  - destruct (eqb k' k) eqn:E; [|auto].
    apply eqb_eq in E. subst k'. exfalso. apply Hnotin.
    apply in_map_iff. exists (k, v). auto.
Qed.

Lemma lookup_In (show : K -> string) (k : K) (v : V) d :
  BaselineParser.lookup eqb show k d = Ok v -> In (k, v) d.
Proof.
  unfold BaselineParser.lookup.
  destruct (dict_get eqb k d) as [v'|] eqn:E; [|discriminate].
  intros H. inversion H; subst. apply dict_get_In. exact E.
Qed.

Lemma In_lookup (show : K -> string) (k : K) (v : V) d :
  NoDup (map fst d) -> In (k, v) d ->
  BaselineParser.lookup eqb show k d = Ok v.
Proof.
  intros Hnd Hin. unfold BaselineParser.lookup.
  now rewrite (In_dict_get k v d Hnd Hin).
Qed.

End DictEntries.

Lemma In_paths {K V C} (f : V -> list C) (d : list (K * V)) k c :
  In (k, c) (paths f d) <-> exists v, In (k, v) d /\ In c (f v).
Proof.
  unfold paths. rewrite in_flat_map. split.
  - intros ([k' v] & Hin & H). apply in_map_iff in H.
    destruct H as (c' & E & Hc). inversion E; subst. exists v. auto.
  - intros (v & Hin & Hc). exists (k, v). split; [exact Hin|].
    apply in_map_iff. exists c. auto.
Qed.

(** ** The tree of a loaded document and the document *)

Section Provenance.

Variable parser : value -> value -> result value.

Lemma index_single {A} (x y : A) : index [x] 0 = Ok y -> x = y.
Proof. unfold index. simpl. congruence. Qed.

Lemma length_one {A} (l : list A) :
  List.length l = 1%nat -> exists x, l = [x].
Proof.
  destruct l as [|x [|y l]]; simpl; try discriminate. eauto.
Qed.

Lemma config_body_from baselines metric guest_kernel userspace config s s' :
  from_configs parser baselines metric guest_kernel userspace s ->
  BaselineParser.config_body parser baselines metric guest_kernel userspace
    config s = Ok s' ->
  from_configs parser baselines metric guest_kernel userspace s'.
Proof.
  unfold BaselineParser.config_body. intros Hs H.
  returned H leaf Hleaf. returned H ks Hks.
  destruct (Nat.eqb_spec (List.length ks) 1) as [E|E]; [|discriminate].
  cbn [negb] in H. destruct (length_one ks E) as [kind ->].
  returned H mt Hmt. apply index_single in Hmt. subst mt.
  returned H leaf' Hleaf'. rewrite Hleaf in Hleaf'. inversion Hleaf'.
  subst leaf'. returned H data Hdata. returned H cfg Hcfg.
  returned H c Hc. inversion H; subst s'.
  rewrite (dict_set_set _ MachineConfig_eqb_eq).
  apply (dict_set_entries _ MachineConfig_eqb_eq); [|exact Hs].
  exists config. split; [exact Hcfg|]. exists leaf, kind, data. auto.
Qed.

Lemma userspace_body_from baselines metric guest_kernel userspace s s' :
  from_os parser baselines metric guest_kernel s ->
  BaselineParser.userspace_body parser baselines metric guest_kernel
    userspace s = Ok s' ->
  from_os parser baselines metric guest_kernel s'.
Proof.
  unfold BaselineParser.userspace_body. intros Hs H.
  returned H u Hu. returned H cs Hcs. returned H mc Hmc. returned H k Hk.
  inversion H; subst s'.
  apply (dict_set_entries _ GuestOs_eqb_eq); [|exact Hs].
  exists userspace. split; [exact Hk|].
  eapply (for_each_invariant
            (from_configs parser baselines metric guest_kernel userspace));
    [| |exact Hmc].
  - intros x a b _. apply config_body_from.
  - constructor.
Qed.

Lemma guest_kernel_body_from baselines metric guest_kernel s s' :
  from_guest_kernels parser baselines metric s ->
  BaselineParser.guest_kernel_body parser baselines metric guest_kernel s
  = Ok s' ->
  from_guest_kernels parser baselines metric s'.
Proof.
  unfold BaselineParser.guest_kernel_body. intros Hs H.
  returned H k Hk. returned H us Hus. returned H os Hos. returned H kv Hkv.
  inversion H; subst s'.
  apply (dict_set_entries _ KernelVersion_eqb_eq); [|exact Hs].
  exists guest_kernel. split; [exact Hkv|].
  eapply (for_each_invariant
            (from_os parser baselines metric guest_kernel)); [| |exact Hos].
  - intros x a b _. apply userspace_body_from.
  - constructor.
Qed.

Lemma metric_body_from baselines metric s s' :
  from_metrics parser baselines s ->
  BaselineParser.metric_body parser baselines metric s = Ok s' ->
  from_metrics parser baselines s'.
Proof.
  unfold BaselineParser.metric_body. intros Hs H.
  returned H m Hm. returned H gks Hgks. returned H g Hg. returned H mt Hmt.
  inversion H; subst s'.
  apply (dict_set_entries _ Metric_eqb_eq); [|exact Hs].
  exists metric. split; [exact Hmt|].
  eapply (for_each_invariant (from_guest_kernels parser baselines metric));
    [| |exact Hg].
  - intros x a b _. apply guest_kernel_body_from.
  - constructor.
Qed.

Lemma parse_data_from (self self' : BaselineParser.t) :
  BaselineParser._parse_data parser self = Ok self' ->
  from_instances parser (BaselineParser._baselines self)
    (BaselineParser._instances self').
Proof.
  unfold BaselineParser._parse_data. intros H.
  returned H entries He. returned H insts Hi. inversion H; subst. simpl.
  eapply (for_each_invariant
            (from_instances parser (BaselineParser._baselines self)));
    [| |exact Hi]; [|constructor].
  intros [it idata] a b Hin Ha Hb.
  unfold BaselineParser.instance_body in Hb. cbn [fst snd] in Hb.
  returned Hb cpus Hcpus. returned Hb cl Hcl.
  eapply (for_each_invariant
            (from_instances parser (BaselineParser._baselines self)));
    [| exact Ha | exact Hb].
  intros cpu a' b' Hcpu Ha' Hb'. unfold BaselineParser.cpu_body in Hb'.
  returned Hb' model Hmodel. returned Hb' baselines Hbl.
  returned Hb' ms Hms. returned Hb' metrics Hmetrics. returned Hb' c Hc.
  inversion Hb'; subst b'.
  apply (dict_set_entries _ CpuModel_eqb_eq); [|exact Ha'].
  exists it, model, baselines. split; [|split; [exact Hc|]].
  - exists entries, idata, cpus, cl, cpu. repeat split; assumption.
  - eapply (for_each_invariant (from_metrics parser baselines));
      [| |exact Hmetrics]; [|constructor].
    intros x a0 b0 _. apply metric_body_from.
Qed.

Lemma parse_data_wf (self self' : BaselineParser.t) :
  BaselineParser._parse_data parser self = Ok self' ->
  wf_instances (BaselineParser._instances self').
Proof.
  unfold BaselineParser._parse_data. intros H.
  returned H entries He. returned H insts Hi. inversion H; subst. simpl.
  eapply (for_each_invariant wf_instances); [| |exact Hi].
  - intros [it idata] a b _ Ha Hb.
    unfold BaselineParser.instance_body in Hb. cbn [fst snd] in Hb.
    returned Hb cpus Hcpus. returned Hb cl Hcl.
    eapply (for_each_invariant wf_instances); [| exact Ha |exact Hb].
    intros x a' b' _. apply cpu_body_wf.
  - apply wf_dict_nil.
Qed.

End Provenance.

Lemma container_at_extracted
    (parser : value -> value -> result value)
    (self self' : BaselineParser.t) (c : coordinate) (container : value) :
  BaselineParser._parse_data parser self = Ok self' ->
  container_at self' c = Ok container ->
  extracted parser (BaselineParser._baselines self) c container.
Proof.
  intros Hload Hat. destruct c as (c1 & c2 & c3 & c4 & c5).
  pose proof (parse_data_from parser self self' Hload) as Hfrom.
  unfold container_at, BaselineParser.machine_configs,
    BaselineParser.guest_rootfs, BaselineParser.guest_kernels,
    BaselineParser.metrics in Hat. cbn [fst snd] in Hat.
  returned Hat cs Hcs. returned Hcs os Hos. returned Hos gks Hgks.
  returned Hgks ms Hms.
  apply (lookup_In _ CpuModel_eqb_eq) in Hms.
  apply (lookup_In _ Metric_eqb_eq) in Hgks.
  apply (lookup_In _ KernelVersion_eqb_eq) in Hos.
  apply (lookup_In _ GuestOs_eqb_eq) in Hcs.
  apply (lookup_In _ MachineConfig_eqb_eq) in Hat.
  unfold from_instances in Hfrom. rewrite Forall_forall in Hfrom.
  destruct (Hfrom _ Hms) as (it & model & baselines & Hcpu & Hc1 & Hm).
  cbn [fst snd] in *.
  unfold from_metrics in Hm. rewrite Forall_forall in Hm.
  destruct (Hm _ Hgks) as (metric & Hc2 & Hg). cbn [fst snd] in *.
  unfold from_guest_kernels in Hg. rewrite Forall_forall in Hg.
  destruct (Hg _ Hos) as (gk & Hc3 & Ho). cbn [fst snd] in *.
  unfold from_os in Ho. rewrite Forall_forall in Ho.
  destruct (Ho _ Hcs) as (us & Hc4 & Hcf). cbn [fst snd] in *.
  unfold from_configs in Hcf. rewrite Forall_forall in Hcf.
  destruct (Hcf _ Hat) as (config & Hc5 & Hleaf). cbn [fst snd] in *.
  exists it, model, baselines, metric, gk, us, config.
  cbn [fst snd]. repeat split; assumption.
Qed.

(** X1. Whatever the accessors of a loaded tree return at a coordinate was
    extracted from the document: a CPU entry and four keys under its
    baselines parse to the coordinate, the leaf there has a single statistic
    kind, and the container is the extraction function's result on the
    statistics under it. *)
Theorem loaded_container_extracted
    (parser : value -> value -> result value)
    (self self' : BaselineParser.t) (c : coordinate) (container : value) :
  BaselineParser._parse_data parser self = Ok self' ->
  container_at self' c = Ok container ->
  extracted parser (BaselineParser._baselines self) c container.
Proof. exact (container_at_extracted parser self self' c container). Qed.

Lemma sample_loads :
  BaselineParser._parse_data NetworkTCPThroughput.parser
    SampleLoaded.unparsed = Ok SampleLoaded.loaded.
Proof. vm_compute. reflexivity. Qed.

Lemma loaded_container_extracted_witness :
  extracted NetworkTCPThroughput.parser
    (Sample.instances (Sample.single 100))
    SampleLoaded.at_2vcpu SampleLoaded.container.
Proof.
  apply (loaded_container_extracted NetworkTCPThroughput.parser
           SampleLoaded.unparsed SampleLoaded.loaded
           SampleLoaded.at_2vcpu SampleLoaded.container).
  - exact sample_loads.
  - vm_compute. reflexivity.
Defined.

Lemma coordinates_container_at
    (parser : value -> value -> result value)
    (self self' : BaselineParser.t) (c : coordinate) :
  BaselineParser._parse_data parser self = Ok self' ->
  In c (coordinates (BaselineParser._instances self'))
  <-> exists container, container_at self' c = Ok container.
Proof.
  intros Hload. destruct c as (c1 & c2 & c3 & c4 & c5).
  pose proof (parse_data_wf parser self self' Hload) as [Hk1 Hv1].
  unfold coordinates, container_at, BaselineParser.machine_configs,
    BaselineParser.guest_rootfs, BaselineParser.guest_kernels,
    BaselineParser.metrics. cbn [fst snd].
  rewrite Forall_forall in Hv1.
  split.
  - intros H.
    apply In_paths in H. destruct H as (ms & H1 & H).
    destruct (Hv1 _ H1) as [Hk2 Hv2]. rewrite Forall_forall in Hv2.
    apply In_paths in H. destruct H as (gks & H2 & H).
    destruct (Hv2 _ H2) as [Hk3 Hv3]. rewrite Forall_forall in Hv3.
    apply In_paths in H. destruct H as (os & H3 & H).
    destruct (Hv3 _ H3) as [Hk4 Hv4]. rewrite Forall_forall in Hv4.
    apply In_paths in H. destruct H as (cs & H4 & H).
    destruct (Hv4 _ H4) as [Hk5 _].
    apply in_map_iff in H. destruct H as ([c5' v] & E & H5).
    cbn [fst snd] in *. subst c5'. exists v.
    rewrite (In_lookup _ CpuModel_eqb_eq _ _ _ _ Hk1 H1). cbn [bind].
    rewrite (In_lookup _ Metric_eqb_eq _ _ _ _ Hk2 H2). cbn [bind].
    rewrite (In_lookup _ KernelVersion_eqb_eq _ _ _ _ Hk3 H3). cbn [bind].
    rewrite (In_lookup _ GuestOs_eqb_eq _ _ _ _ Hk4 H4). cbn [bind].
    exact (In_lookup _ MachineConfig_eqb_eq _ _ _ _ Hk5 H5).
  - intros (v & H).
    returned H cs Hcs. returned Hcs os Hos. returned Hos gks Hgks.
    returned Hgks ms Hms.
    apply (lookup_In _ CpuModel_eqb_eq) in Hms.
    apply (lookup_In _ Metric_eqb_eq) in Hgks.
    apply (lookup_In _ KernelVersion_eqb_eq) in Hos.
    apply (lookup_In _ GuestOs_eqb_eq) in Hcs.
    apply (lookup_In _ MachineConfig_eqb_eq) in H.
    apply In_paths. exists ms. split; [exact Hms|].
    apply In_paths. exists gks. split; [exact Hgks|].
    apply In_paths. exists os. split; [exact Hos|].
    apply In_paths. exists cs. split; [exact Hcs|].
    apply in_map_iff. exists (c5, v). auto.
Qed.

(** X2. The coordinates of a loaded tree are exactly the coordinates at
    which the accessors find a container. *)
Theorem coordinates_iff_accessors
    (parser : value -> value -> result value)
    (self self' : BaselineParser.t) (c : coordinate) :
  BaselineParser._parse_data parser self = Ok self' ->
  In c (coordinates (BaselineParser._instances self'))
  <-> exists container, container_at self' c = Ok container.
Proof. exact (coordinates_container_at parser self self' c). Qed.

Lemma coordinates_iff_accessors_witness :
  In SampleLoaded.at_2vcpu
    (coordinates (BaselineParser._instances SampleLoaded.loaded))
  <-> exists container,
        container_at SampleLoaded.loaded SampleLoaded.at_2vcpu
        = Ok container.
Proof.
  exact (coordinates_iff_accessors NetworkTCPThroughput.parser
           SampleLoaded.unparsed SampleLoaded.loaded
           SampleLoaded.at_2vcpu sample_loads).
Defined.

(** ** The containers of the throughput loader *)

Lemma bind_assoc {A B C} (r : result A) (f : A -> result B)
    (g : B -> result C) :
  bind (bind r f) g = bind r (fun a => bind (f a) g).
Proof. destruct r; reflexivity. Qed.

Lemma map_result_Forall2 {A B} (f : A -> result B) xs :
  forall ys, map_result f xs = Ok ys -> Forall2 (fun x y => f x = Ok y) xs ys.
Proof.
  induction xs as [|x xs IH]; cbn [map_result]; intros ys H.
  - inversion H. constructor.
  - returned H y Hy. returned H ys' Hys. inversion H; subst.
    constructor; auto.
Qed.

Lemma column_inv data tag field v :
  NetworkTCPThroughput.column data tag field = Ok v ->
  exists ks l, keys data = Ok ks /\ v = VList l
               /\ column_is data ks tag field l.
Proof.
  unfold NetworkTCPThroughput.column. intros H.
  returned H ks Hks. returned H l Hl. inversion H; subst.
  exists ks, l. repeat split; auto.
  apply map_result_Forall2 in Hl. exact Hl.
Qed.

Lemma parser_sections (data c : value) :
  NetworkTCPThroughput.parser data (VDict []) = Ok c ->
  exists ks dh th dg tg db tb,
    keys data = Ok ks
    /\ c = VDict
             [("host-to-guest", section dh th);
              ("guest-to-host", section dg tg);
              ("bidirectional",
               VDict [("test_type", VList (map VStr (tagged "bd" ks)));
                      ("delta_percentage", VList db);
                      ("target", VList tb)])]
    /\ column_is data ks "h2g" "delta_percentage" dh
    /\ column_is data ks "h2g" "target" th
    /\ column_is data ks "g2h" "delta_percentage" dg
    /\ column_is data ks "g2h" "target" tg
    /\ column_is data ks "bd" "delta_percentage" db
    /\ column_is data ks "bd" "target" tb
    /\ List.length dh = List.length th
    /\ List.length dg = List.length tg
    /\ List.length db = List.length tb.
Proof.
  unfold NetworkTCPThroughput.parser. intros H.
  returned H d1 H1. returned H g1 H2. returned H c1 H3.
  returned H d2 H4. returned H g2 H5. returned H c2 H6.
  returned H ks H7. returned H d3 H8. returned H g3 H9.
  apply column_inv in H1, H2, H4, H5, H8, H9.
  destruct H1 as (ks1 & dh & K1 & -> & C1).
  destruct H2 as (ks2 & th & K2 & -> & C2).
  destruct H4 as (ks4 & dg & K4 & -> & C4).
  destruct H5 as (ks5 & tg & K5 & -> & C5).
  destruct H8 as (ks8 & db & K8 & -> & C8).
  destruct H9 as (ks9 & tb & K9 & -> & C9).
  rewrite H7 in K1, K2, K4, K5, K8, K9.
  injection K1 as <-. injection K2 as <-. injection K4 as <-.
  injection K5 as <-. injection K8 as <-. injection K9 as <-.
  cbn in H3. inversion H3; subst c1. cbn in H6. inversion H6; subst c2.
  cbn in H. inversion H; subst c.
  exists ks, dh, th, dg, tg, db, tb.
  repeat split; try assumption; try reflexivity.
  - rewrite <- (Forall2_length C1). exact (Forall2_length C2).
  - rewrite <- (Forall2_length C4). exact (Forall2_length C5).
  - rewrite <- (Forall2_length C8). exact (Forall2_length C9).
Qed.

(** X3. The container the throughput extraction function makes from an
    empty one has exactly the three sections host-to-guest, guest-to-host
    and bidirectional, in this order. In each, the tolerance and target
    lists hold one element per key of the statistics that contains the
    section's tag ([h2g], [g2h], [bd]), in key order, so the two lists of a
    section are aligned; the bidirectional section also lists those keys. *)
Theorem throughput_parser_sections (data c : value) :
  NetworkTCPThroughput.parser data (VDict []) = Ok c ->
  exists ks dh th dg tg db tb,
    keys data = Ok ks
    /\ c = VDict
             [("host-to-guest", section dh th);
              ("guest-to-host", section dg tg);
              ("bidirectional",
               VDict [("test_type", VList (map VStr (tagged "bd" ks)));
                      ("delta_percentage", VList db);
                      ("target", VList tb)])]
    /\ column_is data ks "h2g" "delta_percentage" dh
    /\ column_is data ks "h2g" "target" th
    /\ column_is data ks "g2h" "delta_percentage" dg
    /\ column_is data ks "g2h" "target" tg
    /\ column_is data ks "bd" "delta_percentage" db
    /\ column_is data ks "bd" "target" tb
    /\ List.length dh = List.length th
    /\ List.length dg = List.length tg
    /\ List.length db = List.length tb.
Proof. exact (parser_sections data c). Qed.

Lemma throughput_parser_sections_witness :
  exists ks dh th dg tg db tb,
    keys SampleLoaded.statistics = Ok ks
    /\ SampleLoaded.container = VDict
             [("host-to-guest", section dh th);
              ("guest-to-host", section dg tg);
              ("bidirectional",
               VDict [("test_type", VList (map VStr (tagged "bd" ks)));
                      ("delta_percentage", VList db);
                      ("target", VList tb)])]
    /\ column_is SampleLoaded.statistics ks "h2g" "delta_percentage" dh
    /\ column_is SampleLoaded.statistics ks "h2g" "target" th
    /\ column_is SampleLoaded.statistics ks "g2h" "delta_percentage" dg
    /\ column_is SampleLoaded.statistics ks "g2h" "target" tg
    /\ column_is SampleLoaded.statistics ks "bd" "delta_percentage" db
    /\ column_is SampleLoaded.statistics ks "bd" "target" tb
    /\ List.length dh = List.length th
    /\ List.length dg = List.length tg
    /\ List.length db = List.length tb.
Proof.
  exact (throughput_parser_sections SampleLoaded.statistics
           SampleLoaded.container eq_refl).
Defined.

(** ** The accessors of the throughput loader *)

Lemma container_at_KeyError (self : BaselineParser.t) (c : coordinate) e :
  container_at self c = Raise e -> exists k, e = KeyError k.
Proof.
  unfold container_at, BaselineParser.machine_configs,
    BaselineParser.guest_rootfs, BaselineParser.guest_kernels,
    BaselineParser.metrics, BaselineParser.lookup.
  repeat match goal with
  | |- context [dict_get ?e ?k ?d] =>
      destruct (dict_get e k d); cbn [bind]
  end; intros H; inversion H; eauto.
Qed.

Lemma accessor_container_at (self : BaselineParser.t) c m k o mc l :
  (cs <- BaselineParser.machine_configs self c m k o ;;
   x <- BaselineParser.lookup MachineConfig.eqb MachineConfig.__str__
          mc cs ;;
   getitems x l)
  = (x <- container_at self (c, (m, (k, (o, mc)))) ;; getitems x l).
Proof. unfold container_at. cbn [fst snd]. now rewrite bind_assoc. Qed.

Lemma constructor_parses json_load dir host_kernel git_version self :
  NetworkTCPThroughput.__init__ json_load dir host_kernel git_version
  = Ok self ->
  exists self0,
    BaselineParser._parse_data NetworkTCPThroughput.parser self0 = Ok self.
Proof.
  unfold NetworkTCPThroughput.__init__. intros H.
  returned H self0 H0. eauto.
Qed.

(** X4. The three [..._target_delta] accessors never return on a loader
    built by the throughput constructor: the extraction function stores the
    tolerances under [delta_percentage], the accessors read [delta], so each
    raises a [KeyError], of the missing coordinate or of ["delta"]. *)
Theorem target_delta_never_returns
    (json_load : string -> result value) (dir : string)
    (host_kernel : KernelVersion.t) (git_version : value)
    (self : BaselineParser.t)
    (c : CpuModel.t) (m : Metric.t) (k : KernelVersion.t) (o : GuestOs.t)
    (mc : MachineConfig.t) :
  NetworkTCPThroughput.__init__ json_load dir host_kernel git_version
  = Ok self ->
  (exists key, NetworkTCPThroughput.guest_to_host_target_delta
                 self c m k o mc = Raise (KeyError key))
  /\ (exists key, NetworkTCPThroughput.host_to_guest_target_delta
                    self c m k o mc = Raise (KeyError key))
  /\ (exists key, NetworkTCPThroughput.bidirectional_target_delta
                    self c m k o mc = Raise (KeyError key)).
Proof.
  intros Hinit. destruct (constructor_parses _ _ _ _ _ Hinit) as [self0 H0].
  assert (Hc : forall a,
             (a = "guest-to-host" \/ a = "host-to-guest"
              \/ a = "bidirectional") ->
             exists key,
               (x <- container_at self (c, (m, (k, (o, mc)))) ;;
                getitems x [VStr a; VStr "delta"]) = Raise (KeyError key)).
  { intros a Ha.
    destruct (container_at self (c, (m, (k, (o, mc))))) as [x|e] eqn:E.
    - apply (container_at_extracted _ _ _ _ _ H0) in E.
      destruct E as (it & model & bl & metric & gk & us & config
                     & _ & _ & _ & _ & _ & _ & leaf & kind & data
                     & _ & _ & _ & Hp).
      apply parser_sections in Hp.
      destruct Hp as (ks & dh & th & dg & tg & db & tb & _ & -> & _).
      exists (VStr "delta").
      destruct Ha as [->|[->| ->]]; reflexivity.
    - destruct (container_at_KeyError _ _ _ E) as [key ->].
      exists key. reflexivity. }
  unfold NetworkTCPThroughput.guest_to_host_target_delta,
    NetworkTCPThroughput.host_to_guest_target_delta,
    NetworkTCPThroughput.bidirectional_target_delta.
  rewrite !accessor_container_at.
  repeat split; apply Hc; auto.
Qed.

Lemma sample_constructed :
  NetworkTCPThroughput.__init__
    (Sample.files (Sample.document (Sample.single 100)))
    "configs" KernelVersion.KERNEL_5_10 VNone
  = Ok SampleLoaded.constructed.
Proof. vm_compute. reflexivity. Qed.

Lemma target_delta_never_returns_witness :
  (exists key, NetworkTCPThroughput.guest_to_host_target_delta
                 SampleLoaded.constructed CpuModel.GRAVITON2
                 Metric.THROUGHPUT KernelVersion.KERNEL_5_10
                 GuestOs.UBUNTU_18_04 MachineConfig.VCPU_2_MEM_1G
               = Raise (KeyError key))
  /\ (exists key, NetworkTCPThroughput.host_to_guest_target_delta
                    SampleLoaded.constructed CpuModel.GRAVITON2
                    Metric.THROUGHPUT KernelVersion.KERNEL_5_10
                    GuestOs.UBUNTU_18_04 MachineConfig.VCPU_2_MEM_1G
                  = Raise (KeyError key))
  /\ (exists key, NetworkTCPThroughput.bidirectional_target_delta
                    SampleLoaded.constructed CpuModel.GRAVITON2
                    Metric.THROUGHPUT KernelVersion.KERNEL_5_10
                    GuestOs.UBUNTU_18_04 MachineConfig.VCPU_2_MEM_1G
                  = Raise (KeyError key)).
Proof.
  exact (target_delta_never_returns
           (Sample.files (Sample.document (Sample.single 100)))
           "configs" KernelVersion.KERNEL_5_10 VNone
           SampleLoaded.constructed CpuModel.GRAVITON2
           Metric.THROUGHPUT KernelVersion.KERNEL_5_10
           GuestOs.UBUNTU_18_04 MachineConfig.VCPU_2_MEM_1G
           sample_constructed).
Defined.

(** X5. At every coordinate of a loader built by the throughput
    constructor the three [..._target] accessors return, each a list. *)
Theorem target_accessors_return
    (json_load : string -> result value) (dir : string)
    (host_kernel : KernelVersion.t) (git_version : value)
    (self : BaselineParser.t)
    (c : CpuModel.t) (m : Metric.t) (k : KernelVersion.t) (o : GuestOs.t)
    (mc : MachineConfig.t) :
  NetworkTCPThroughput.__init__ json_load dir host_kernel git_version
  = Ok self ->
  In (c, (m, (k, (o, mc)))) (coordinates (BaselineParser._instances self)) ->
  (exists l, NetworkTCPThroughput.guest_to_host_target self c m k o mc
             = Ok (VList l))
  /\ (exists l, NetworkTCPThroughput.host_to_guest_target self c m k o mc
                = Ok (VList l))
  /\ (exists l, NetworkTCPThroughput.bidirectional_target self c m k o mc
                = Ok (VList l)).
Proof.
  intros Hinit Hin.
  destruct (constructor_parses _ _ _ _ _ Hinit) as [self0 H0].
  apply (coordinates_container_at _ _ _ _ H0) in Hin.
  destruct Hin as [x E].
  pose proof (container_at_extracted _ _ _ _ _ H0 E) as Hx.
  destruct Hx as (it & model & bl & metric & gk & us & config
                  & _ & _ & _ & _ & _ & _ & leaf & kind & data
                  & _ & _ & _ & Hp).
  apply parser_sections in Hp.
  destruct Hp as (ks & dh & th & dg & tg & db & tb & _ & -> & _).
  unfold NetworkTCPThroughput.guest_to_host_target,
    NetworkTCPThroughput.host_to_guest_target,
    NetworkTCPThroughput.bidirectional_target.
  rewrite !accessor_container_at, E.
  repeat split; eexists; reflexivity.
Qed.

Lemma sample_coordinate :
  In SampleLoaded.at_2vcpu
    (coordinates (BaselineParser._instances SampleLoaded.constructed)).
Proof. vm_compute. left. reflexivity. Qed.

Lemma target_accessors_return_witness :
  exists l,
    NetworkTCPThroughput.guest_to_host_target SampleLoaded.constructed
      CpuModel.GRAVITON2 Metric.THROUGHPUT KernelVersion.KERNEL_5_10
      GuestOs.UBUNTU_18_04 MachineConfig.VCPU_2_MEM_1G
    = Ok (VList l).
Proof.
  exact (proj1 (target_accessors_return
                  (Sample.files (Sample.document (Sample.single 100)))
                  "configs" KernelVersion.KERNEL_5_10 VNone
                  SampleLoaded.constructed CpuModel.GRAVITON2
                  Metric.THROUGHPUT KernelVersion.KERNEL_5_10
                  GuestOs.UBUNTU_18_04 MachineConfig.VCPU_2_MEM_1G
                  sample_constructed sample_coordinate)).
Defined.

(** ** The constructor of the loader, case by case *)

(** X6. What [BaselineParser.__init__] does for every content of the file:
    an error of the load is passed on; a top-level value that is not an
    object raises [AttributeError]; an object without ["hosts"] raises the
    malformed-file exception; a ["hosts"] entry that is not an object raises
    [TypeError]; one without ["instances"] raises [KeyError]; otherwise the
    constructor returns a loader with an empty tree that holds
    [hosts["instances"]]. *)
Theorem init_outcomes (json_load : string -> result value)
    (baselines : string) (host_kernel : KernelVersion.t)
    (git_version : value) :
  match json_load baselines with
  | Raise e =>
      BaselineParser.__init__ json_load baselines host_kernel git_version
      = Raise e
  | Ok (VDict kvs) =>
      match dict_get String.eqb "hosts" kvs with
      | None =>
          BaselineParser.__init__ json_load baselines host_kernel
            git_version
          = Raise (Exception "Malformed baseline file")
      | Some (VDict hosts) =>
          match dict_get String.eqb "instances" hosts with
          | Some instances =>
              exists meta,
                BaselineParser.__init__ json_load baselines host_kernel
                  git_version
                = Ok {| BaselineParser._meta := meta;
                        BaselineParser._baselines := instances;
                        BaselineParser._instances := [];
                        BaselineParser._host_kernel := host_kernel;
                        BaselineParser._git_version := git_version |}
          | None =>
              BaselineParser.__init__ json_load baselines host_kernel
                git_version
              = Raise (KeyError (VStr "instances"))
          end
      | Some _ =>
          BaselineParser.__init__ json_load baselines host_kernel
            git_version
          = Raise TypeError
      end
  | Ok _ =>
      BaselineParser.__init__ json_load baselines host_kernel git_version
      = Raise (AttributeError "keys")
  end.
Proof.
  unfold BaselineParser.__init__.
  destruct (json_load baselines) as [raw|e]; [|reflexivity].
  destruct raw as [ | | | | | | |kvs]; try reflexivity.
  cbn [bind keys]. rewrite has_key_dict_get.
  destruct (dict_get String.eqb "hosts" kvs) as [hosts|] eqn:Eh;
    cbn [negb]; [|reflexivity].
  destruct (meta_comprehension_ok kvs
              (filter (fun x => negb (x =? "hosts")) (map fst kvs))
              (fun k H => proj1 (proj1 (filter_In _ _ _) H)) [])
    as [meta Hmeta].
  destruct hosts as [ | | | | | | |hosts];
    try (rewrite Hmeta; cbn [bind getitem hashable]; rewrite Eh;
         reflexivity).
  destruct (dict_get String.eqb "instances" hosts) as [i|] eqn:Ei.
  - exists meta. rewrite Hmeta. cbn [bind getitem hashable]. rewrite Eh.
    cbn [bind getitem hashable]. rewrite Ei. reflexivity.
  - rewrite Hmeta. cbn [bind getitem hashable]. rewrite Eh.
    cbn [bind getitem hashable]. rewrite Ei. reflexivity.
Qed.

(** ** The enumerations: labels and the table of models *)

(** X7. Within each dimension the display strings are pairwise distinct:
    two values with the same [__str__] are the same value. *)
Theorem display_strings_distinct :
  (forall a b, CpuModel.__str__ a = CpuModel.__str__ b -> a = b)
  /\ (forall a b, GuestOs.__str__ a = GuestOs.__str__ b -> a = b)
  /\ (forall a b, MachineConfig.__str__ a = MachineConfig.__str__ b ->
                  a = b)
  /\ (forall a b, Metric.__str__ a = Metric.__str__ b -> a = b)
  /\ (forall a b, KernelVersion.__str__ a = KernelVersion.__str__ b ->
                  a = b).
Proof.
  repeat split; intros [] []; simpl; intros H;
    try reflexivity; discriminate H.
Qed.

(** X8. The table of [CpuModel.from_str] is one to one onto the models:
    every model is the value of exactly one pair of instance type and CPU
    description. *)
Theorem model_table_one_to_one (c : CpuModel.t) :
  exists instance_type model : string,
    CpuModel.from_str (VStr instance_type) (VStr model) = Ok c
    /\ forall instance_type' model' : string,
         CpuModel.from_str (VStr instance_type') (VStr model') = Ok c ->
         instance_type' = instance_type /\ model' = model.
Proof.
  assert (Huniq : forall it m it' m',
             In (it, m, c) CpuModel.MODELCODE ->
             In (it', m', c) CpuModel.MODELCODE ->
             it' = it /\ m' = m).
  { intros it m it' m' H1 H2. unfold CpuModel.MODELCODE in *.
    simpl in H1, H2.
    repeat match goal with
    | H : _ \/ _ |- _ => destruct H
    | H : False |- _ => destruct H
    | H : (_, _, _) = (_, _, _) |- _ => inversion H; clear H
    end; subst; try discriminate; auto. }
  assert (Hin : exists it m, In (it, m, c) CpuModel.MODELCODE).
  { destruct c; simpl; eauto 12. }
  destruct Hin as (it & m & Hin). exists it, m.
  assert (Hfwd : forall it' m',
             CpuModel.from_str (VStr it') (VStr m') = Ok c ->
             In (it', m', c) CpuModel.MODELCODE).
  { intros it' m' H. pose proof (CpuModel_from_str_pairs it' m') as P.
    rewrite H in P. exact P. }
  split.
  - pose proof (CpuModel_from_str_pairs it m) as P.
    destruct (CpuModel.from_str (VStr it) (VStr m)) as [c'|e].
    + destruct (Huniq it m it m Hin Hin) as [_ _].
      f_equal.
      assert (Hc : forall a b, In (it, m, a) CpuModel.MODELCODE ->
                               In (it, m, b) CpuModel.MODELCODE -> a = b).
      { intros a b H1 H2. unfold CpuModel.MODELCODE in *.
        simpl in H1, H2.
        repeat match goal with
        | H : _ \/ _ |- _ => destruct H
        | H : False |- _ => destruct H
        | H : (_, _, _) = (_, _, _) |- _ => inversion H; clear H
        end; subst; try discriminate; auto. }
      exact (Hc _ _ P Hin).
    + exfalso. apply (proj1 P). apply in_map_iff.
      exists (it, m, c). auto.
  - intros it' m' H. exact (Huniq it m it' m' Hin (Hfwd _ _ H)).
Qed.

(** ** The baselines of a CPU entry must be an object *)

Lemma metric_body_fails_on_non_string
    (parser : value -> value -> result value) baselines metric :
  (forall s : string, metric <> VStr s) ->
  forall st, fails (BaselineParser.metric_body parser baselines metric st).
Proof.
  intros Hns st. unfold BaselineParser.metric_body.
  apply fails_bind. intros m _. apply fails_bind. intros gks _.
  apply fails_bind. intros g _.
  assert (E : Metric.from_str metric
              = Raise (ExceptionF "Unknown metric " metric)).
  { unfold Metric.from_str.
    destruct metric; try reflexivity. exfalso. eapply Hns. reflexivity. }
  rewrite E. apply fails_raise.
Qed.

Lemma metric_body_fails_on_sequence
    (parser : value -> value -> result value) baselines metric :
  (forall kvs, baselines <> VDict kvs) ->
  forall st, fails (BaselineParser.metric_body parser baselines metric st).
Proof.
  intros Hnd st.
  destruct metric as [ | | | |s| | | ];
    try (apply metric_body_fails_on_non_string; intros s; discriminate).
  unfold BaselineParser.metric_body.
  assert (E : getitem baselines (VStr s) = Raise TypeError).
  { destruct baselines; try reflexivity. exfalso. eapply Hnd. reflexivity. }
  rewrite E. apply fails_raise.
Qed.

(** X9. The baselines of a CPU entry have to be an object. With any other
    value there the entry does not load, except for an empty array or an
    empty string, which load as an entry without metrics. *)
Theorem baselines_must_be_object
    (parser : value -> value -> result value) (instance_type : string)
    (cpu baselines : value) (instances : instances_t) :
  getitem cpu (VStr "baselines") = Ok baselines ->
  (forall kvs, baselines <> VDict kvs) ->
  (baselines <> VList [] /\ baselines <> VTuple [] /\ baselines <> VStr "" ->
   fails (BaselineParser.cpu_body parser instance_type cpu instances))
  /\ (baselines = VList [] \/ baselines = VTuple [] \/ baselines = VStr "" ->
      forall model c,
        getitem cpu (VStr "model") = Ok model ->
        CpuModel.from_str (VStr instance_type) model = Ok c ->
        BaselineParser.cpu_body parser instance_type cpu instances
        = Ok (dict_set CpuModel.eqb c [] instances)).
Proof.
  intros Hb Hnd. split.
  - intros (H1 & H2 & H3). unfold BaselineParser.cpu_body.
    apply fails_bind. intros model _. rewrite Hb. cbn [bind].
    destruct (iter baselines) as [ms|e] eqn:Ei; [|apply fails_raise].
    cbn [bind].
    destruct ms as [|x ms].
    + exfalso. destruct baselines as [ | | | |s|l|l|kvs];
        try discriminate.
      * destruct s; [now apply H3 | discriminate].
      * cbn in Ei. inversion Ei. subst. now apply H1.
      * cbn in Ei. inversion Ei. subst. now apply H2.
      * eapply Hnd. reflexivity.
    + eapply failed_loop_fails; [left; reflexivity|].
      apply metric_body_fails_on_sequence. exact Hnd.
  - intros He model c Hm Hc. unfold BaselineParser.cpu_body.
    rewrite Hm. cbn [bind]. rewrite Hb. cbn [bind].
    destruct He as [->|[->| ->]]; cbn [iter chars bind for_each
      list_ascii_of_string map]; rewrite Hc; reflexivity.
Qed.

Lemma baselines_must_be_object_witness :
  fails (BaselineParser.cpu_body NetworkTCPThroughput.parser "m6g.metal"
           (VDict [("model", VStr "ARM_NEOVERSE_N1");
                   ("baselines", VList [VStr "throughput"])])
           []).
Proof.
  apply (proj1 (baselines_must_be_object NetworkTCPThroughput.parser
                  "m6g.metal"
                  (VDict [("model", VStr "ARM_NEOVERSE_N1");
                          ("baselines", VList [VStr "throughput"])])
                  (VList [VStr "throughput"]) []
                  eq_refl
                  (fun kvs H => ltac:(discriminate H)))).
  repeat split; discriminate.
Defined.

(** ** The scope of a worktree *)

(** X10. A [with GitWorktree(ref)] block whose body registers and removes
    no worktree leaves the registered worktrees as they were, whatever
    happens. When the revision does not resolve, or the checkout path is
    already in use, the block raises before its body runs; otherwise the
    body runs with the worktree registered and the block returns or raises
    what the body does. *)
Theorem worktree_scope_outcome {B} (rev_parse : string -> option string)
    (git_ref : string) (body : string -> cmd B) (w : world) :
  (forall hash w1, worktrees (snd (body hash w1)) = worktrees w1) ->
  worktrees (snd (GitWorktree.scope rev_parse git_ref body w)) = worktrees w
  /\ match rev_parse git_ref with
     | None =>
         fst (GitWorktree.scope rev_parse git_ref body w)
         = Raise (CalledProcessError ["git"; "rev-parse"; git_ref])
     | Some hash =>
         if match rev_parse hash with
            | Some _ => Git.mem hash (worktrees w)
            | None => true
            end
         then fst (GitWorktree.scope rev_parse git_ref body w)
              = Raise (CalledProcessError
                         ["git"; "worktree"; "add"; hash; hash])
         else fst (GitWorktree.scope rev_parse git_ref body w)
              = fst (body hash {| worktrees := worktrees w ++ [hash] |})
     end.
Proof.
  intros Hbody. split; [now apply scope_restores_worktrees|].
  unfold GitWorktree.scope, with_, GitWorktree.__enter__, seq,
    Git.run_rev_parse, Git.worktree_add, GitWorktree.__exit__,
    Git.worktree_remove, ret, raise.
  destruct (rev_parse git_ref) as [hash|]; [|reflexivity].
  destruct (rev_parse hash); [|reflexivity].
  destruct (Git.mem hash (worktrees w)) eqn:Em; [reflexivity|].
  specialize (Hbody hash {| worktrees := worktrees w ++ [hash] |}).
  destruct (body hash {| worktrees := worktrees w ++ [hash] |}) as [r w2].
  cbn [snd worktrees fst] in *. rewrite Hbody.
  assert (Hin : Git.mem hash (worktrees w ++ [hash]) = true).
  { apply mem_In, in_or_app. right. now left. }
  rewrite Hin. reflexivity.
Qed.

Lemma worktree_scope_outcome_witness :
  worktrees (snd (GitWorktree.scope SampleRun.rev_parse "main"
                    (fun hash => raise (A:=unit)
                                   (FileNotFoundError hash))
                    SampleRun.clean))
  = [].
Proof.
  exact (proj1 (worktree_scope_outcome SampleRun.rev_parse "main"
                  (fun hash => raise (A:=unit) (FileNotFoundError hash))
                  SampleRun.clean (fun hash w1 => eq_refl))).
Defined.

(** ** The revision commands, in general *)

Lemma world_eta (w : world) : {| worktrees := worktrees w |} = w.
Proof. destruct w. reflexivity. Qed.

Lemma mem_false p l : ~ In p l -> Git.mem p l = false.
Proof.
  intros H. destruct (Git.mem p l) eqn:E; [|reflexivity].
  apply mem_In in E. contradiction.
Qed.

Lemma remove_other p q l :
  ~ In p l -> p <> q ->
  filter (fun x => negb (String.eqb p x)) ((l ++ [p]) ++ [q]) = l ++ [q].
Proof.
  intros Hn Hne. rewrite filter_app, remove_added by exact Hn. simpl.
  destruct (String.eqb_spec p q); [contradiction | reflexivity].
Qed.

Section RevisionCommands.

Variable rev_parse : string -> option string.
Variable head_hash : option string.
Variable DEFAULT_BASELINE_DIRECTORY : string.
Variable comparator : Type.
Variable DirectoryComparator :
  string -> string -> list string -> list string -> list string ->
  world -> result comparator.
Variable compare : comparator -> bool -> world -> result comparator.
Variable dump_json : comparator -> string -> world -> result unit.

(** X11. [cmd_commit] on two distinct revisions that resolve and are not
    checked out yet. The comparator is built while both worktrees are
    registered. If that raises, the command ends with both still
    registered; if it returns, both are removed, and [compare] and
    [dump_json] run afterwards, without them, and decide the outcome. *)
Theorem cmd_commit_outcome (a : CompareMain.args) (t : string) (w : world) :
  CompareMain.target a = Some t ->
  rev_parse (CompareMain.source a) <> None -> rev_parse t <> None ->
  ~ In (CompareMain.source a) (worktrees w) -> ~ In t (worktrees w) ->
  CompareMain.source a <> t ->
  let both := {| worktrees := (worktrees w ++ [CompareMain.source a])
                                ++ [t] |} in
  CompareMain.cmd_commit rev_parse head_hash DEFAULT_BASELINE_DIRECTORY
    comparator DirectoryComparator compare dump_json a w
  = match DirectoryComparator
            (CompareMain.path_join (CompareMain.source a)
               DEFAULT_BASELINE_DIRECTORY)
            (CompareMain.path_join t DEFAULT_BASELINE_DIRECTORY)
            (CompareMain.tests a) (CompareMain.kernels a)
            (CompareMain.codenames a) both with
    | Raise e => (Raise e, both)
    | Ok comp =>
        (comp' <- compare comp (CompareMain.auxiliary a) w ;;
         dump_json comp' (CompareMain.output a) w, w)
    end.
Proof.
  intros Ht Hs Hrt Hns Hnt Hne both.
  unfold CompareMain.cmd_commit, seq, ret, lift, Git.worktree_add,
    Git.worktree_remove.
  rewrite Ht.
  destruct (rev_parse (CompareMain.source a)); [|congruence].
  destruct (rev_parse t); [|congruence].
  rewrite (mem_false _ _ Hns). cbn [worktrees].
  assert (Hnt' : ~ In t (worktrees w ++ [CompareMain.source a])).
  { intros H. apply in_app_or in H. destruct H as [H|[H|[]]];
      [contradiction | congruence]. }
  rewrite (mem_false _ _ Hnt'). fold both.
  destruct (DirectoryComparator _ _ _ _ _ both) as [comp|e]; [|reflexivity].
  cbn [worktrees both].
  assert (H1 : Git.mem (CompareMain.source a)
                 ((worktrees w ++ [CompareMain.source a]) ++ [t]) = true).
  { apply mem_In. apply in_or_app. left. apply in_or_app. right.
    now left. }
  rewrite H1. cbn [worktrees].
  rewrite (remove_other _ _ _ Hns Hne).
  assert (H2 : Git.mem t (worktrees w ++ [t]) = true).
  { apply mem_In. apply in_or_app. right. now left. }
  rewrite H2. cbn [worktrees]. rewrite (remove_added _ _ Hnt), world_eta.
  destruct (compare comp (CompareMain.auxiliary a) w); reflexivity.
Qed.

(** X12. [cmd_commit] with the same revision as source and target: the
    second checkout is refused because its path is in use, the command
    raises, and the worktree of the first checkout stays registered. *)
Theorem cmd_commit_same_revision (a : CompareMain.args) (w : world) :
  CompareMain.target a = Some (CompareMain.source a) ->
  rev_parse (CompareMain.source a) <> None ->
  ~ In (CompareMain.source a) (worktrees w) ->
  CompareMain.cmd_commit rev_parse head_hash DEFAULT_BASELINE_DIRECTORY
    comparator DirectoryComparator compare dump_json a w
  = (Raise (CalledProcessError
              ["git"; "worktree"; "add";
               CompareMain.source a; CompareMain.source a]),
     {| worktrees := worktrees w ++ [CompareMain.source a] |}).
Proof.
  intros Ht Hs Hns.
  unfold CompareMain.cmd_commit, seq, ret, lift, Git.worktree_add.
  rewrite Ht.
  destruct (rev_parse (CompareMain.source a)); [|congruence].
  rewrite (mem_false _ _ Hns). cbn [worktrees].
  assert (H1 : Git.mem (CompareMain.source a)
                 (worktrees w ++ [CompareMain.source a]) = true).
  { apply mem_In. apply in_or_app. right. now left. }
  rewrite H1. reflexivity.
Qed.

(** X13. [cmd_latest] when the checked out commit resolves and has no
    worktree yet: as for [cmd_commit], the one worktree stays registered
    when the construction of the comparator raises and is removed before
    [compare] and [dump_json] run when it returns. *)
Theorem cmd_latest_outcome (a : CompareMain.args) (h : string) (w : world) :
  head_hash = Some h -> rev_parse h <> None -> ~ In h (worktrees w) ->
  let added := {| worktrees := worktrees w ++ [h] |} in
  CompareMain.cmd_latest rev_parse head_hash DEFAULT_BASELINE_DIRECTORY
    comparator DirectoryComparator compare dump_json a w
  = match DirectoryComparator
            (CompareMain.path_join h DEFAULT_BASELINE_DIRECTORY)
            DEFAULT_BASELINE_DIRECTORY
            (CompareMain.tests a) (CompareMain.kernels a)
            (CompareMain.codenames a) added with
    | Raise e => (Raise e, added)
    | Ok comp =>
        (comp' <- compare comp (CompareMain.auxiliary a) w ;;
         dump_json comp' (CompareMain.output a) w, w)
    end.
Proof.
  intros Hh Hr Hn added.
  unfold CompareMain.cmd_latest, CompareMain.show_head, seq, ret, lift,
    Git.worktree_add, Git.worktree_remove.
  rewrite Hh. destruct (rev_parse h); [|congruence].
  rewrite (mem_false _ _ Hn). fold added.
  destruct (DirectoryComparator _ _ _ _ _ added) as [comp|e]; [|reflexivity].
  cbn [worktrees added].
  assert (H1 : Git.mem h (worktrees w ++ [h]) = true).
  { apply mem_In. apply in_or_app. right. now left. }
  rewrite H1. cbn [worktrees]. rewrite (remove_added _ _ Hn), world_eta.
  destruct (compare comp (CompareMain.auxiliary a) w); reflexivity.
Qed.

End RevisionCommands.

Lemma cmd_commit_outcome_witness :
  CompareMain.cmd_commit SampleRun.rev_parse SampleRun.head_hash
    SampleRun.DEFAULT_BASELINE_DIRECTORY unit SampleRun.working_comparator
    SampleRun.compare SampleRun.dump_json SampleRun.args SampleRun.clean
  = (Ok tt, SampleRun.clean).
Proof.
  apply (cmd_commit_outcome SampleRun.rev_parse SampleRun.head_hash
           SampleRun.DEFAULT_BASELINE_DIRECTORY unit
           SampleRun.working_comparator SampleRun.compare
           SampleRun.dump_json SampleRun.args "2222222" SampleRun.clean).
  - reflexivity.
  - discriminate.
  - discriminate.
  - simpl. tauto.
  - simpl. tauto.
  - discriminate.
Defined.

Lemma cmd_commit_same_revision_witness :
  CompareMain.cmd_commit SampleRun.rev_parse SampleRun.head_hash
    SampleRun.DEFAULT_BASELINE_DIRECTORY unit SampleRun.working_comparator
    SampleRun.compare SampleRun.dump_json SampleRun.same_revision
    SampleRun.clean
  = (Raise (CalledProcessError
              ["git"; "worktree"; "add"; "1111111"; "1111111"]),
     {| worktrees := ["1111111"] |}).
Proof.
  apply (cmd_commit_same_revision SampleRun.rev_parse SampleRun.head_hash
           SampleRun.DEFAULT_BASELINE_DIRECTORY unit
           SampleRun.working_comparator SampleRun.compare
           SampleRun.dump_json SampleRun.same_revision SampleRun.clean).
  - reflexivity.
  - discriminate.
  - simpl. tauto.
Defined.

Lemma cmd_latest_outcome_witness :
  CompareMain.cmd_latest SampleRun.rev_parse SampleRun.head_hash
    SampleRun.DEFAULT_BASELINE_DIRECTORY unit SampleRun.failing_comparator
    SampleRun.compare SampleRun.dump_json SampleRun.args SampleRun.clean
  = (Raise (Exception "Malformed baseline file"),
     {| worktrees := ["c0ffee"] |}).
Proof.
  apply (cmd_latest_outcome SampleRun.rev_parse SampleRun.head_hash
           SampleRun.DEFAULT_BASELINE_DIRECTORY unit
           SampleRun.failing_comparator SampleRun.compare
           SampleRun.dump_json SampleRun.args "c0ffee" SampleRun.clean).
  - reflexivity.
  - discriminate.
  - simpl. tauto.
Defined.

(** ** The rendering step: what is drawn and how much *)

Section Rendering.

Variable MODEL2SHORT : value.

Lemma fst_combine {A B} (l1 : list A) (l2 : list B) :
  List.length l1 = List.length l2 -> map fst (combine l1 l2) = l1.
Proof.
  revert l2. induction l1 as [|a l1 IH]; intros [|b l2]; simpl;
    try discriminate; try reflexivity.
  intros H. f_equal. apply IH. now inversion H.
Qed.

Lemma fst_enumerate {A} (l : list A) :
  map fst (OutputImages.enumerate l)
  = map Z.of_nat (List.seq 0 (List.length l)).
Proof.
  unfold OutputImages.enumerate. apply fst_combine.
  now rewrite length_map, length_seq.
Qed.

Lemma cpu_loop_columns (base : Z) xs :
  forall c0 c,
    for_each xs (OutputImages.cpu_body MODEL2SHORT base) c0 = Ok c ->
    OutputImages.c_x c = OutputImages.c_x c0 ++ map fst xs
    /\ List.length (OutputImages.c_labels c)
       = (List.length (OutputImages.c_labels c0) + List.length xs)%nat
    /\ List.length (OutputImages.c_y c)
       = (List.length (OutputImages.c_y c0) + List.length xs)%nat
    /\ List.length (OutputImages.c_yerrs c)
       = (List.length (OutputImages.c_yerrs c0) + List.length xs)%nat.
Proof.
  induction xs as [|[i cpu] xs IH]; cbn [for_each]; intros c0 c H.
  - inversion H; subst. rewrite app_nil_r.
    repeat split; try reflexivity; simpl; lia.
  - returned H c1 H1. apply IH in H. destruct H as (Ex & El & Ey & Ee).
    unfold OutputImages.cpu_body in H1.
    returned H1 m Hm. returned H1 label Hl. returned H1 mean Hmean.
    returned H1 y Hy. returned H1 stdev Hs. inversion H1; subst c1.
    cbn [OutputImages.c_x OutputImages.c_labels OutputImages.c_y
         OutputImages.c_yerrs] in *.
    rewrite Ex, El, Ey, Ee, !length_app, <- app_assoc. simpl.
    repeat split; try reflexivity; lia.
Qed.

Lemma first_entry_exists cpus cl m0 :
  iter cpus = Ok cl ->
  getitems cpus [VInt 0; VStr "model"] = Ok m0 ->
  cl <> [].
Proof.
  intros Hi Hg Hnil. subst cl. cbn [getitems] in Hg.
  returned Hg x Hx.
  destruct cpus as [ | | | |s|l|l|kvs]; try discriminate;
    cbn in Hi; inversion Hi; subst; try discriminate Hx.
  destruct s; discriminate.
Qed.

Lemma metric_body_figure raw dpath key base metric v saved saved' :
  OutputImages.metric_body MODEL2SHORT raw dpath key base (metric, v) saved
  = Ok saved' ->
  exists cpus cl fig,
    getitem v (VStr key) = Ok cpus /\ iter cpus = Ok cl /\ cl <> []
    /\ saved' = saved ++ [fig]
    /\ OutputImages.x_vals fig
       = map Z.of_nat (List.seq 0 (List.length cl))
    /\ List.length (OutputImages.y_vals fig) = List.length cl
    /\ List.length (OutputImages.tick_label fig) = List.length cl
    /\ List.length (OutputImages.yerr fig) = List.length cl.
Proof.
  unfold OutputImages.metric_body. intros H.
  returned H cpus Hcpus. returned H cl Hcl. returned H c Hc.
  returned H m0 Hm0. returned H basis Hb. returned H test Ht.
  returned H kernel Hk. inversion H; subst saved'. clear H.
  apply cpu_loop_columns in Hc. destruct Hc as (Ex & El & Ey & Ee).
  cbn [OutputImages.c_x OutputImages.c_labels OutputImages.c_y
       OutputImages.c_yerrs app List.length Nat.add] in *.
  rewrite fst_enumerate in Ex.
  assert (Hlen : List.length (OutputImages.enumerate cl) = List.length cl).
  { unfold OutputImages.enumerate.
    rewrite length_combine, length_map, length_seq. lia. }
  rewrite Hlen in El, Ey, Ee.
  eexists cpus, cl, _. repeat split; try eassumption; try reflexivity.
  eapply first_entry_exists; eassumption.
Qed.

(** X14. In every image the rendering step saves the four columns are
    aligned: there is at least one entry, the positions are 0, 1, ... in
    order, and there is one bar, one label and one error bar per entry
    under the key. *)
Theorem figure_columns_aligned raw dpath key base metric v saved saved' :
  OutputImages.metric_body MODEL2SHORT raw dpath key base (metric, v) saved
  = Ok saved' ->
  exists cpus cl fig,
    getitem v (VStr key) = Ok cpus /\ iter cpus = Ok cl /\ cl <> []
    /\ saved' = saved ++ [fig]
    /\ OutputImages.x_vals fig
       = map Z.of_nat (List.seq 0 (List.length cl))
    /\ List.length (OutputImages.y_vals fig) = List.length cl
    /\ List.length (OutputImages.tick_label fig) = List.length cl
    /\ List.length (OutputImages.yerr fig) = List.length cl.
Proof. apply metric_body_figure. Qed.

Lemma metric_loop_appends raw dpath key base entries :
  forall saved saved',
    for_each entries (OutputImages.metric_body MODEL2SHORT raw dpath key base)
      saved = Ok saved' ->
    exists new, saved' = saved ++ new
                /\ List.length new = List.length entries.
Proof.
  induction entries as [|[metric v] entries IH]; cbn [for_each];
    intros saved saved' H.
  - inversion H; subst. exists []. now rewrite app_nil_r.
  - returned H s1 H1. apply metric_body_figure in H1.
    destruct H1 as (cpus & cl & fig & _ & _ & _ & -> & _).
    apply IH in H. destruct H as (new & -> & Hlen).
    exists (fig :: new). rewrite <- app_assoc. simpl. auto.
Qed.

Lemma raw_body_appends dpath key base raw saved saved' :
  OutputImages.raw_body MODEL2SHORT dpath key base raw saved = Ok saved' ->
  exists new, saved' = saved ++ new /\ List.length new = plots_of raw.
Proof.
  unfold OutputImages.raw_body, plots_of. intros H.
  returned H stats Hs. returned H entries He. rewrite Hs.
  destruct stats; try discriminate. cbn in He. inversion He; subst.
  eapply metric_loop_appends. exact H.
Qed.

Lemma raw_loop_appends dpath key base raws :
  forall saved saved',
    for_each raws (OutputImages.raw_body MODEL2SHORT dpath key base) saved
    = Ok saved' ->
    exists new, saved' = saved ++ new
                /\ List.length new = plots_total raws.
Proof.
  induction raws as [|raw raws IH]; cbn [for_each]; intros saved saved' H.
  - inversion H; subst. exists []. rewrite app_nil_r. auto.
  - returned H s1 H1. apply raw_body_appends in H1.
    destruct H1 as (new1 & -> & L1).
    apply IH in H. destruct H as (new & -> & L).
    exists (new1 ++ new). rewrite <- app_assoc. split; [reflexivity|].
    unfold plots_total in *. simpl. rewrite length_app. lia.
Qed.

Lemma output_images_appends result dpath key base saved saved' :
  OutputImages.output_images MODEL2SHORT result dpath key base saved
  = Ok saved' ->
  exists raws new,
    values result = Ok raws /\ saved' = saved ++ new
    /\ List.length new = plots_total raws.
Proof.
  unfold OutputImages.output_images. intros H. returned H raws Hr.
  apply raw_loop_appends in H. destruct H as (new & -> & L).
  exists raws, new. auto.
Qed.

(** X15. [output_images] only adds to the saved images, one per metric of
    every entry of the report; [main], with its two passes, saves twice as
    many images as the report has metrics. *)
Theorem images_counted :
  (forall result dpath key base saved saved',
      OutputImages.output_images MODEL2SHORT result dpath key base saved
      = Ok saved' ->
      exists raws new,
        values result = Ok raws /\ saved' = saved ++ new
        /\ List.length new = plots_total raws)
  /\ (forall json_load input output figs,
        OutputImages.main MODEL2SHORT json_load input output = Ok figs ->
        exists result raws,
          json_load input = Ok result /\ values result = Ok raws
          /\ List.length figs = (2 * plots_total raws)%nat).
Proof.
  split; [apply output_images_appends|].
  intros json_load input output figs H. unfold OutputImages.main in H.
  returned H report Hr. exists report.
  unfold OutputImages.passes in H. cbn [for_each fst snd] in H.
  returned H s1 H1. returned H s2 H2. inversion H; subst s2. clear H.
  apply output_images_appends in H1, H2.
  destruct H1 as (raws & new1 & Hv & -> & L1).
  destruct H2 as (raws' & new2 & Hv' & -> & L2).
  rewrite Hv in Hv'. inversion Hv'; subst raws'.
  exists raws. repeat split; auto.
  rewrite app_nil_l, length_app. lia.
Qed.

(** X16. A metric whose list of entries under the key is empty cannot be
    rendered: reading the basis model of the first entry raises
    [IndexError], and with it the whole call of [output_images] on a report
    that holds such a metric raises. *)
Theorem empty_entries_not_rendered :
  (forall raw dpath key base metric v saved,
      getitem v (VStr key) = Ok (VList []) ->
      OutputImages.metric_body MODEL2SHORT raw dpath key base (metric, v)
        saved = Raise IndexError)
  /\ (forall result raws raw entries dpath key base metric v saved,
        values result = Ok raws -> In raw raws ->
        getitems raw [VStr "stats"] = Ok (VDict entries) ->
        In (metric, v) entries ->
        getitem v (VStr key) = Ok (VList []) ->
        fails (OutputImages.output_images MODEL2SHORT result dpath key base
                 saved)).
Proof.
  assert (H0 : forall raw dpath key base metric v saved,
             getitem v (VStr key) = Ok (VList []) ->
             OutputImages.metric_body MODEL2SHORT raw dpath key base
               (metric, v) saved = Raise IndexError).
  { intros raw dpath key base metric v saved Hg.
    unfold OutputImages.metric_body. rewrite Hg. reflexivity. }
  split; [exact H0|].
  intros result raws raw entries dpath key base metric v saved
         Hv Hin Hs Hm Hg.
  unfold OutputImages.output_images. rewrite Hv. cbn [bind].
  eapply for_each_fails; [exact Hin|].
  intros s. unfold OutputImages.raw_body.
  rewrite getitems_one in Hs. rewrite Hs. cbn [bind items].
  eapply for_each_fails; [exact Hm|].
  intros s'. rewrite (H0 _ _ _ _ _ _ _ Hg). apply fails_raise.
Qed.

End Rendering.

Lemma figure_columns_aligned_witness :
  exists cpus cl fig,
    getitem (VDict [("target_diff_percentage",
                     VList [Comparator.report_entry
                              "Intel(R) Xeon(R) Platinum 8259CL CPU @ 2.50GHz"
                              105 0])])
      (VStr "target_diff_percentage") = Ok cpus
    /\ iter cpus = Ok cl /\ cl <> []
    /\ [SampleReport.figure] = [] ++ [fig]
    /\ OutputImages.x_vals fig
       = map Z.of_nat (List.seq 0 (List.length cl))
    /\ List.length (OutputImages.y_vals fig) = List.length cl
    /\ List.length (OutputImages.tick_label fig) = List.length cl
    /\ List.length (OutputImages.yerr fig) = List.length cl.
Proof.
  exact (figure_columns_aligned SampleReport.MODEL2SHORT
           (VDict [("test", VStr "network_tcp_throughput");
                   ("kernel", VStr "5.10")])
           "out" "target_diff_percentage" 100%Z "throughput"
           (VDict [("target_diff_percentage",
                    VList [Comparator.report_entry
                             "Intel(R) Xeon(R) Platinum 8259CL CPU @ 2.50GHz"
                             105 0])])
           [] [SampleReport.figure] eq_refl).
Defined.

(** ** The performance pipeline *)

Lemma for_each_app {A S} (l1 l2 : list A) (body : A -> S -> result S) s :
  for_each (l1 ++ l2) body s = (s' <- for_each l1 body s ;; for_each l2 body s').
Proof.
  revert s. induction l1 as [|x l1 IH]; intros s; cbn [app for_each bind].
  - reflexivity.
  - destruct (body x s); cbn [bind]; auto.
Qed.

Section StringDict.

Context {V : Type}.
Implicit Types (d : list (string * V)) (k : string) (v : V).

Lemma dict_get_set_same k v d :
  dict_get String.eqb k (dict_set String.eqb k v d) = Some v.
Proof.
  induction d as [|[k' v'] d IH]; simpl.
  - now rewrite String.eqb_refl.
  - destruct (String.eqb k' k) eqn:E; simpl; rewrite E; auto.
Qed.

Lemma dict_get_set_other k k' v d :
  k' <> k ->
  dict_get String.eqb k (dict_set String.eqb k' v d)
  = dict_get String.eqb k d.
Proof.
  intros Hne. induction d as [|[k2 v2] d IH]; simpl.
  - destruct (String.eqb_spec k' k); [contradiction | reflexivity].
  - destruct (String.eqb_spec k2 k') as [->|E2]; simpl.
    + destruct (String.eqb_spec k' k); [contradiction | reflexivity].
    + destruct (String.eqb_spec k2 k); auto.
Qed.

End StringDict.

Lemma dict_get_del_same k (d : PipelinePerf.dict) :
  dict_get String.eqb k (PipelinePerf.dict_del k d) = None.
Proof.
  unfold PipelinePerf.dict_del.
  induction d as [|[k' v'] d IH]; simpl; [reflexivity|].
  destruct (String.eqb_spec k' k); simpl; [exact IH|].
  destruct (String.eqb_spec k' k); [contradiction | exact IH].
Qed.

Lemma dict_get_del_other k k' (d : PipelinePerf.dict) :
  k' <> k ->
  dict_get String.eqb k (PipelinePerf.dict_del k' d)
  = dict_get String.eqb k d.
Proof.
  intros Hne. unfold PipelinePerf.dict_del.
  induction d as [|[k2 v2] d IH]; simpl; [reflexivity|].
  destruct (String.eqb_spec k2 k') as [->|E2]; simpl.
  - destruct (String.eqb_spec k' k); [contradiction | exact IH].
  - destruct (String.eqb_spec k2 k); auto.
Qed.

Lemma dict_get_setdefault_other k k' v (d : PipelinePerf.dict) :
  k' <> k ->
  dict_get String.eqb k (PipelinePerf.setdefault k' v d)
  = dict_get String.eqb k d.
Proof.
  intros Hne. unfold PipelinePerf.setdefault.
  destruct (dict_get String.eqb k' d); [reflexivity|].
  now apply dict_get_set_other.
Qed.

Lemma dict_get_setdefault_same k v (d : PipelinePerf.dict) :
  dict_get String.eqb k (PipelinePerf.setdefault k v d)
  = Some match dict_get String.eqb k d with Some x => x | None => v end.
Proof.
  unfold PipelinePerf.setdefault.
  destruct (dict_get String.eqb k d) eqn:E; [exact E|].
  apply dict_get_set_same.
Qed.

Lemma dict_get_update_absent k (other d : PipelinePerf.dict) :
  dict_get String.eqb k other = None ->
  dict_get String.eqb k (PipelinePerf.update other d)
  = dict_get String.eqb k d.
Proof.
  unfold PipelinePerf.update. revert d.
  induction other as [|[k' v'] other IH]; intros d H; simpl in *.
  - reflexivity.
  - destruct (String.eqb_spec k' k); [discriminate|].
    rewrite IH by exact H. now apply dict_get_set_other.
Qed.

Lemma dict_get_update_present k v (other d : PipelinePerf.dict) :
  NoDup (map fst other) ->
  dict_get String.eqb k other = Some v ->
  dict_get String.eqb k (PipelinePerf.update other d) = Some v.
Proof.
  unfold PipelinePerf.update. revert d.
  induction other as [|[k' v'] other IH]; intros d Hnd H; simpl in *.
  - discriminate.
  - inversion Hnd as [|? ? Hnotin Hnd']; subst.
    destruct (String.eqb_spec k' k) as [->|Hne].
    + inversion H; subst.
      change (fold_left _ other ?x) with (PipelinePerf.update other x).
      rewrite dict_get_update_absent; [apply dict_get_set_same|].
      destruct (dict_get String.eqb k other) eqn:E; [|reflexivity].
      exfalso. apply Hnotin. apply (dict_get_In _ String.eqb_eq) in E.
      apply in_map_iff. exists (k, v0). auto.
    + apply IH; assumption.
Qed.

Section Pipeline.

Variable DEFAULT_INSTANCES DEFAULT_KERNELS : value.
Variable group :
  value -> list value -> value -> value -> value -> value ->
  PipelinePerf.dict -> result value.

Local Abbreviation build_group := (PipelinePerf.build_group group).
Local Abbreviation prepare :=
  (PipelinePerf.prepare DEFAULT_INSTANCES DEFAULT_KERNELS).
Local Abbreviation loop_body :=
  (PipelinePerf.loop_body DEFAULT_INSTANCES DEFAULT_KERNELS group).

Lemma pop_inv k d v d' :
  PipelinePerf.pop k d = Ok (v, d') ->
  dict_get String.eqb k d = Some v /\ d' = PipelinePerf.dict_del k d.
Proof.
  unfold PipelinePerf.pop. destruct (dict_get String.eqb k d);
    intros H; inversion H; auto.
Qed.

(** What [build_group] passes on and leaves behind. *)
Lemma build_group_inv test step rest :
  build_group test = Ok (step, rest) ->
  exists devtool_opts test_path label instances kernels,
    dict_get String.eqb "devtool_opts" test = Some devtool_opts
    /\ dict_get String.eqb "test_path" test = Some test_path
    /\ dict_get String.eqb "label" test = Some label
    /\ dict_get String.eqb "instances" test = Some instances
    /\ dict_get String.eqb "kernels" test = Some kernels
    /\ rest = PipelinePerf.dict_del "kernels"
                (PipelinePerf.dict_del "instances"
                   (PipelinePerf.dict_del "label"
                      (PipelinePerf.dict_del "test_path"
                         (PipelinePerf.dict_del "devtool_opts" test))))
    /\ group label
         [VStr "./tools/devtool -y test "; devtool_opts;
          VStr " -- --nonci -s --dump-results-to-file --log-cli-level=INFO ";
          test_path]
         (VList [VStr "ag=1"]) (VList [VStr "./test_results/*"])
         instances kernels rest = Ok step.
Proof.
  unfold PipelinePerf.build_group. intros H.
  returned H p1 H1. destruct p1 as [v1 d1]. apply pop_inv in H1.
  returned H p2 H2. destruct p2 as [v2 d2]. apply pop_inv in H2.
  returned H p3 H3. destruct p3 as [v3 d3]. apply pop_inv in H3.
  returned H p4 H4. destruct p4 as [v4 d4]. apply pop_inv in H4.
  returned H p5 H5. destruct p5 as [v5 d5]. apply pop_inv in H5.
  cbn [fst snd] in *.
  destruct (existsb _ d5); [discriminate|].
  returned H st Hst. inversion H; subst st rest. clear H.
  destruct H1 as [G1 ->]. destruct H2 as [G2 ->]. destruct H3 as [G3 ->].
  destruct H4 as [G4 ->]. destruct H5 as [G5 ->].
  rewrite dict_get_del_other in G2 by discriminate.
  rewrite !dict_get_del_other in G3 by discriminate.
  rewrite !dict_get_del_other in G4 by discriminate.
  rewrite !dict_get_del_other in G5 by discriminate.
  exists v1, v2, v3, v4, v5. repeat split; assumption.
Qed.

Lemma prepare_keeps_absent a d :
  dict_get String.eqb "devtool_opts" (PipelinePerf.extra a) = None ->
  dict_get String.eqb "devtool_opts" d = None ->
  dict_get String.eqb "devtool_opts" (prepare a d) = None.
Proof.
  intros He Hd. unfold PipelinePerf.prepare.
  assert (H : dict_get String.eqb "devtool_opts"
                (PipelinePerf.update (PipelinePerf.extra a)
                   (PipelinePerf.setdefault "instances"
                      (PipelinePerf.instances_of DEFAULT_INSTANCES a)
                      (PipelinePerf.setdefault "kernels"
                         (PipelinePerf.kernels_of DEFAULT_KERNELS a) d)))
              = None).
  { rewrite dict_get_update_absent by exact He.
    rewrite !dict_get_setdefault_other by discriminate. exact Hd. }
  destruct (0 <? PipelinePerf.retries a)%Z; [|exact H].
  rewrite dict_get_setdefault_other by discriminate. exact H.
Qed.

Lemma loop_body_consumes a name st st' :
  loop_body a name st = Ok st' -> consumed name (fst st').
Proof.
  unfold PipelinePerf.loop_body, consumed. intros H.
  destruct (dict_get String.eqb name (fst st)) as [d|]; [|discriminate].
  returned H p Hp. destruct p as [step rest]. inversion H; subst st'.
  cbn [fst snd]. rewrite dict_get_set_same.
  apply build_group_inv in Hp.
  destruct Hp as (v1 & v2 & v3 & v4 & v5 & _ & _ & _ & _ & _ & -> & _).
  rewrite !dict_get_del_other by discriminate.
  apply dict_get_del_same.
Qed.

Lemma loop_body_keeps_consumed a name other st st' :
  consumed name (fst st) ->
  loop_body a other st = Ok st' -> consumed name (fst st').
Proof.
  intros Hc H. destruct (String.eqb_spec other name) as [->|Hne].
  - eapply loop_body_consumes. exact H.
  - unfold PipelinePerf.loop_body in H.
    destruct (dict_get String.eqb other (fst st)) as [d|]; [|discriminate].
    returned H p Hp. inversion H; subst st'. cbn [fst].
    unfold consumed in *. now rewrite dict_get_set_other.
Qed.

Lemma loop_body_on_consumed a name st :
  dict_get String.eqb "devtool_opts" (PipelinePerf.extra a) = None ->
  consumed name (fst st) ->
  fails (loop_body a name st)
  /\ (dict_get String.eqb name (fst st) <> None ->
      loop_body a name st = Raise (KeyError (VStr "devtool_opts"))).
Proof.
  intros He Hc. unfold PipelinePerf.loop_body, consumed in *.
  destruct (dict_get String.eqb name (fst st)) as [d|];
    [|split; [apply fails_raise | congruence]].
  pose proof (prepare_keeps_absent a d He Hc) as Hp.
  unfold PipelinePerf.build_group, PipelinePerf.pop. rewrite Hp.
  split; [apply fails_raise | reflexivity].
Qed.

Lemma loop_body_selecting a tests name st :
  PipelinePerf.loop_body DEFAULT_INSTANCES DEFAULT_KERNELS group
    (selecting a tests) name st
  = loop_body a name st.
Proof. reflexivity. Qed.

(** X17. A test selected twice cannot be built twice: [build_group] pops
    the definition out of the table's own dictionary, so the second step
    finds no [devtool_opts]. Unless [--extra] puts the key back, a selection
    that repeats a name makes the pipeline raise; and when the pipeline of
    the name alone returns, the pipeline of the name given twice raises
    [KeyError] on [devtool_opts]. *)
Theorem test_selected_twice_fails
    (perf_test : list (string * PipelinePerf.dict))
    (a : PipelinePerf.args) (name : string) :
  dict_get String.eqb "devtool_opts" (PipelinePerf.extra a) = None ->
  (forall l1 l2 l3,
      PipelinePerf.test a = l1 ++ name :: l2 ++ name :: l3 ->
      fails (PipelinePerf.pipeline DEFAULT_INSTANCES DEFAULT_KERNELS group
               perf_test a))
  /\ (forall p,
        PipelinePerf.pipeline DEFAULT_INSTANCES DEFAULT_KERNELS group
          perf_test (selecting a [name]) = Ok p ->
        PipelinePerf.pipeline DEFAULT_INSTANCES DEFAULT_KERNELS group
          perf_test (selecting a [name; name])
        = Raise (KeyError (VStr "devtool_opts"))).
Proof.
  intros He. split.
  - intros l1 l2 l3 Et. unfold PipelinePerf.pipeline.
    apply fails_bind. intros _ _. rewrite Et.
    rewrite for_each_app.
    destruct (for_each l1 (loop_body a) (perf_test, [])) as [s1|e1];
      cbn [bind]; [|apply fails_raise].
    cbn [for_each].
    destruct (loop_body a name s1) as [s2|e2] eqn:E2;
      cbn [bind]; [|apply fails_raise].
    rewrite for_each_app.
    destruct (for_each l2 (loop_body a) s2) as [s3|e3] eqn:E3;
      cbn [bind]; [|apply fails_raise].
    assert (Hc : consumed name (fst s3)).
    { eapply (for_each_invariant (fun s => consumed name (fst s)));
        [| |exact E3].
      - intros x u v _. apply loop_body_keeps_consumed.
      - eapply loop_body_consumes. exact E2. }
    cbn [for_each].
    destruct (proj1 (loop_body_on_consumed a name s3 He Hc)) as [e ->].
    apply fails_raise.
  - intros p H. unfold PipelinePerf.pipeline in *.
    cbn [PipelinePerf.test selecting map_result for_each] in *.
    destruct (dict_get String.eqb name perf_test) as [d|] eqn:Ed;
      [|discriminate].
    cbn [bind] in *. rewrite !loop_body_selecting in *.
    destruct (loop_body a name (perf_test, [])) as [s1|e1] eqn:E1;
      cbn [bind] in *; [|discriminate].
    assert (Hc : consumed name (fst s1))
      by (eapply loop_body_consumes; exact E1).
    assert (Hp : dict_get String.eqb name (fst s1) <> None).
    { unfold PipelinePerf.loop_body in E1. cbn [fst] in E1.
      rewrite Ed in E1. returned E1 q Hq. inversion E1; subst s1.
      cbn [fst]. rewrite dict_get_set_same. discriminate. }
    rewrite loop_body_selecting.
    rewrite (proj2 (loop_body_on_consumed a name s1 He Hc) Hp).
    reflexivity.
Qed.

Lemma dict_get_update k (other d : PipelinePerf.dict) :
  NoDup (map fst other) ->
  dict_get String.eqb k (PipelinePerf.update other d)
  = match dict_get String.eqb k other with
    | Some v => Some v
    | None => dict_get String.eqb k d
    end.
Proof.
  intros Hnd. destruct (dict_get String.eqb k other) as [v|] eqn:E.
  - now apply dict_get_update_present.
  - now apply dict_get_update_absent.
Qed.

Lemma prepare_before_retry a d k :
  NoDup (map fst (PipelinePerf.extra a)) ->
  k <> "retry" ->
  dict_get String.eqb k (prepare a d)
  = dict_get String.eqb k
      (PipelinePerf.update (PipelinePerf.extra a)
         (PipelinePerf.setdefault "instances"
            (PipelinePerf.instances_of DEFAULT_INSTANCES a)
            (PipelinePerf.setdefault "kernels"
               (PipelinePerf.kernels_of DEFAULT_KERNELS a) d))).
Proof.
  intros Hnd Hk. unfold PipelinePerf.prepare.
  destruct (0 <? PipelinePerf.retries a)%Z; [|reflexivity].
  apply dict_get_setdefault_other. congruence.
Qed.

(** X18. What a step is built from. The instances and the kernels handed
    to [group] are those of [--extra] when it names them, else the test's
    own, else those of the command line or the defaults. The remaining
    keyword arguments are the prepared definition without the five keys
    [build_group] consumes; every other key passes through unchanged. *)
Theorem step_arguments (a : PipelinePerf.args) (d : PipelinePerf.dict)
    (step : value) (rest : PipelinePerf.dict) :
  NoDup (map fst (PipelinePerf.extra a)) ->
  build_group (prepare a d) = Ok (step, rest) ->
  (exists devtool_opts test_path label,
      group label
        [VStr "./tools/devtool -y test "; devtool_opts;
         VStr " -- --nonci -s --dump-results-to-file --log-cli-level=INFO ";
         test_path]
        (VList [VStr "ag=1"]) (VList [VStr "./test_results/*"])
        (chosen "instances" (PipelinePerf.extra a) d
           (PipelinePerf.instances_of DEFAULT_INSTANCES a))
        (chosen "kernels" (PipelinePerf.extra a) d
           (PipelinePerf.kernels_of DEFAULT_KERNELS a))
        rest = Ok step)
  /\ (forall k,
        In k ["devtool_opts"; "test_path"; "label"; "instances"; "kernels"] ->
        dict_get String.eqb k rest = None)
  /\ (forall k,
        ~ In k ["devtool_opts"; "test_path"; "label"; "instances";
                "kernels"] ->
        dict_get String.eqb k rest = dict_get String.eqb k (prepare a d)).
Proof.
  intros Hnd H. apply build_group_inv in H.
  destruct H as (v1 & v2 & v3 & v4 & v5 & G1 & G2 & G3 & G4 & G5 & -> & Hg).
  split; [|split].
  - exists v1, v2, v3.
    rewrite prepare_before_retry in G4, G5 by (auto; discriminate).
    rewrite dict_get_update in G4, G5 by exact Hnd.
    rewrite dict_get_setdefault_same in G4.
    rewrite dict_get_setdefault_other in G4 by discriminate.
    rewrite dict_get_setdefault_other in G5 by discriminate.
    rewrite dict_get_setdefault_same in G5.
    unfold chosen.
    destruct (dict_get String.eqb "instances" (PipelinePerf.extra a));
      destruct (dict_get String.eqb "kernels" (PipelinePerf.extra a));
      inversion G4; inversion G5; subst; exact Hg.
  - intros k Hk. simpl in Hk.
    destruct Hk as [E|[E|[E|[E|[E|[]]]]]]; subst k;
      rewrite ?dict_get_del_same;
      repeat (rewrite dict_get_del_other by discriminate;
              rewrite ?dict_get_del_same); reflexivity.
  - intros k Hk. simpl in Hk.
    rewrite !dict_get_del_other; [reflexivity| | | | |];
      intros E; subst k; apply Hk; tauto.
Qed.

(** X19. The retry of a step. With [--retries] above zero every step gets
    a [retry] argument: the one [--extra] or the test itself brings, else
    the automatic retry on exit status 1 with the given limit. Without
    retries a step has a [retry] argument only if [--extra] or the test
    brings one. *)
Theorem step_retry (a : PipelinePerf.args) (d : PipelinePerf.dict)
    (step : value) (rest : PipelinePerf.dict) :
  NoDup (map fst (PipelinePerf.extra a)) ->
  build_group (prepare a d) = Ok (step, rest) ->
  dict_get String.eqb "retry" rest
  = if (0 <? PipelinePerf.retries a)%Z
    then Some (chosen "retry" (PipelinePerf.extra a) d
                 (PipelinePerf.retry (PipelinePerf.retries a)))
    else match dict_get String.eqb "retry" (PipelinePerf.extra a) with
         | Some v => Some v
         | None => dict_get String.eqb "retry" d
         end.
Proof.
  intros Hnd H. apply build_group_inv in H.
  destruct H as (v1 & v2 & v3 & v4 & v5 & _ & _ & _ & _ & _ & -> & _).
  rewrite !dict_get_del_other by discriminate.
  assert (Hu : dict_get String.eqb "retry"
                 (PipelinePerf.update (PipelinePerf.extra a)
                    (PipelinePerf.setdefault "instances"
                       (PipelinePerf.instances_of DEFAULT_INSTANCES a)
                       (PipelinePerf.setdefault "kernels"
                          (PipelinePerf.kernels_of DEFAULT_KERNELS a) d)))
               = match dict_get String.eqb "retry" (PipelinePerf.extra a)
                 with
                 | Some v => Some v
                 | None => dict_get String.eqb "retry" d
                 end).
  { rewrite dict_get_update by exact Hnd.
    now rewrite !dict_get_setdefault_other by discriminate. }
  unfold PipelinePerf.prepare.
  destruct (0 <? PipelinePerf.retries a)%Z; [|exact Hu].
  rewrite dict_get_setdefault_same, Hu. unfold chosen.
  destruct (dict_get String.eqb "retry" (PipelinePerf.extra a));
    [reflexivity|].
  destruct (dict_get String.eqb "retry" d); reflexivity.
Qed.

End Pipeline.

Lemma test_selected_twice_fails_witness :
  PipelinePerf.pipeline (VList []) (VList []) sample_group
    PipelinePerf.perf_test (selecting (sample_args []) ["block"; "block"])
  = Raise (KeyError (VStr "devtool_opts")).
Proof.
  eapply (proj2 (test_selected_twice_fails (VList []) (VList [])
                   sample_group PipelinePerf.perf_test (sample_args [])
                   "block" eq_refl)).
  vm_compute. reflexivity.
Defined.

Lemma sample_extra_distinct :
  NoDup (map fst (PipelinePerf.extra (sample_args ["block"]))).
Proof. simpl. repeat constructor. simpl. tauto. Qed.

Lemma step_arguments_witness :
  dict_get String.eqb "kernels" sample_rest = None
  /\ dict_get String.eqb "timeout_in_minutes" sample_rest
     = dict_get String.eqb "timeout_in_minutes"
         (PipelinePerf.prepare (VList []) (VList [])
            (sample_args ["block"]) sample_definition).
Proof.
  pose proof (step_arguments (VList []) (VList []) sample_group
                (sample_args ["block"]) sample_definition
                sample_step sample_rest
                sample_extra_distinct eq_refl) as [_ [gone kept]].
  split.
  - apply gone. simpl. tauto.
  - apply kept. simpl. intuition discriminate.
Defined.

Lemma step_retry_witness :
  dict_get String.eqb "retry" sample_rest
  = Some (PipelinePerf.retry 2).
Proof.
  exact (step_retry (VList []) (VList []) sample_group
           (sample_args ["block"]) sample_definition
           sample_step sample_rest sample_extra_distinct eq_refl).
Defined.

(** ** The history plots of print_baselines *)

Lemma keeps_ret {A} (a : A) : keeps_worktrees (ret a).
Proof. intros w. reflexivity. Qed.

Lemma keeps_lift {A} (r : world -> result A) : keeps_worktrees (lift r).
Proof. intros w. reflexivity. Qed.

Lemma keeps_seq {A B} (c : cmd A) (k : A -> cmd B) :
  keeps_worktrees c -> (forall a, keeps_worktrees (k a)) ->
  keeps_worktrees (seq c k).
Proof.
  intros Hc Hk w. unfold seq. specialize (Hc w).
  destruct (c w) as [[a|e] w1]; cbn [snd] in *.
  - rewrite (Hk a w1). exact Hc.
  - exact Hc.
Qed.

Lemma keeps_for_cmd {A S} (xs : list A) (body : A -> S -> cmd S) :
  (forall x s, keeps_worktrees (body x s)) ->
  forall s, keeps_worktrees (for_cmd xs body s).
Proof.
  intros Hb. induction xs as [|x xs IH]; intros s; cbn [for_cmd].
  - apply keeps_ret.
  - apply keeps_seq; auto.
Qed.

Lemma keeps_scope {B} (rev_parse : string -> option string)
    (git_ref : string) (body : string -> cmd B) :
  (forall hash, keeps_worktrees (body hash)) ->
  keeps_worktrees (GitWorktree.scope rev_parse git_ref body).
Proof.
  intros Hb w. apply scope_restores_worktrees. intros hash w1. apply Hb.
Qed.

Section History.

Variable rev_parse : string -> option string.
Variable json_load : world -> string -> result value.
Variable hash_builtin : value.

Lemma keeps_in_worktree data_parser machine hk gk git_ref st worktree :
  keeps_worktrees
    (PlotThroughput.in_worktree json_load hash_builtin data_parser machine
       hk gk git_ref st worktree).
Proof. intros w. reflexivity. Qed.

Lemma keeps_plot git_versions machine hk gk outdir saved :
  keeps_worktrees
    (PlotThroughput.plot_network_tcp_throughput rev_parse json_load
       hash_builtin git_versions machine hk gk outdir saved).
Proof.
  unfold PlotThroughput.plot_network_tcp_throughput,
    PlotThroughput._plot_network_tcp_throughput.
  apply keeps_seq; [|intros st; apply keeps_ret].
  apply keeps_for_cmd. intros git_ref st. apply keeps_scope.
  intros hash. apply keeps_in_worktree.
Qed.

(** X20. The plotting command of print_baselines leaves no checkout
    behind: whatever the arguments, the revisions, the files and the
    outcome, the worktrees registered after [cmd_git] are those registered
    before it. *)
Theorem cmd_git_keeps_worktrees (a : PrintMain.args)
    (saved : list PlotThroughput.plot) (w : world) :
  worktrees (snd (PrintMain.cmd_git rev_parse json_load hash_builtin a
                    saved w))
  = worktrees w.
Proof.
  revert w. change (keeps_worktrees
                      (PrintMain.cmd_git rev_parse json_load hash_builtin a
                         saved)).
  unfold PrintMain.cmd_git. apply keeps_for_cmd. intros machine s.
  apply keeps_seq; [apply keeps_lift|]. intros m.
  unfold PrintMain.plot_machine_metrics. apply keeps_for_cmd.
  intros host_kernel s1. apply keeps_seq; [apply keeps_lift|]. intros hk.
  unfold PrintMain.plot_host_kernel_metrics. apply keeps_for_cmd.
  intros guest_kernel s2. apply keeps_seq; [apply keeps_lift|]. intros gk.
  unfold PrintMain.plot_guest_kernel_metrics. apply keeps_for_cmd.
  intros test s3. destruct (test =? "network_tcp_throughput").
  - apply keeps_plot.
  - apply keeps_ret.
Qed.

(** A loop that returns has added, for each element, what its body adds. *)
Lemma for_cmd_count {A B} (f : A -> nat) (xs : list A)
    (body : A -> list B -> cmd (list B)) :
  (forall x s w s' w',
      body x s w = (Ok s', w') ->
      List.length s' = (List.length s + f x)%nat) ->
  forall s w s' w',
    for_cmd xs body s w = (Ok s', w') ->
    List.length s' = (List.length s + list_sum (map f xs))%nat.
Proof.
  intros Hb. induction xs as [|x xs IH]; cbn [for_cmd]; intros s w s' w' H.
  - unfold ret in H. inversion H; subst. simpl. lia.
  - unfold seq in H. destruct (body x s w) as [[s1|e] w1] eqn:E;
      [|discriminate].
    apply Hb in E. apply IH in H. simpl. lia.
Qed.

Lemma list_sum_const {A} (c : nat) (xs : list A) :
  list_sum (map (fun _ => c) xs) = (List.length xs * c)%nat.
Proof. induction xs as [|x xs IH]; simpl; lia. Qed.

Lemma list_sum_indicator (p : string -> bool) (xs : list string) :
  list_sum (map (fun x => if p x then 1%nat else 0%nat) xs)
  = List.length (filter p xs).
Proof.
  induction xs as [|x xs IH]; simpl; [reflexivity|].
  destruct (p x); simpl; lia.
Qed.

Lemma plot_adds_one git_versions machine hk gk outdir s w s' w' :
  PlotThroughput.plot_network_tcp_throughput rev_parse json_load
    hash_builtin git_versions machine hk gk outdir s w = (Ok s', w') ->
  List.length s' = (List.length s + 1)%nat.
Proof.
  unfold PlotThroughput.plot_network_tcp_throughput,
    PlotThroughput._plot_network_tcp_throughput, seq, ret.
  match goal with
  | |- context [for_cmd ?l ?b ?i w] => destruct (for_cmd l b i w) as [[st|e] w1]
  end; intros H; inversion H; subst.
  rewrite length_app. reflexivity.
Qed.

(** X21. When [cmd_git] returns it has saved one plot for every
    combination of CPU model, host kernel and guest kernel, once per
    occurrence of the test that has a history plot. *)
Theorem cmd_git_plots_counted (a : PrintMain.args)
    (saved saved' : list PlotThroughput.plot) (w w' : world) :
  PrintMain.cmd_git rev_parse json_load hash_builtin a saved w
  = (Ok saved', w') ->
  List.length saved'
  = (List.length saved
     + List.length (PrintMain.cpu_models a)
       * (List.length (PrintMain.host_kernels a)
          * (List.length (PrintMain.guest_kernels a)
             * plotted (PrintMain.tests a))))%nat.
Proof.
  unfold PrintMain.cmd_git. intros H.
  apply (for_cmd_count
           (fun _ => (List.length (PrintMain.host_kernels a)
                      * (List.length (PrintMain.guest_kernels a)
                         * plotted (PrintMain.tests a)))%nat)) in H.
  { rewrite H, list_sum_const. reflexivity. }
  clear. intros machine s w s' w' H. unfold seq, lift in H.
  destruct (CpuModel.from_codename (VStr machine)) as [m|]; [|discriminate].
  unfold PrintMain.plot_machine_metrics in H.
  apply (for_cmd_count
           (fun _ => (List.length (PrintMain.guest_kernels a)
                      * plotted (PrintMain.tests a))%nat)) in H.
  { rewrite H, list_sum_const. reflexivity. }
  clear. intros host_kernel s w s' w' H. unfold seq, lift in H.
  destruct (KernelVersion.from_str (VStr host_kernel)) as [hk|];
    [|discriminate].
  unfold PrintMain.plot_host_kernel_metrics in H.
  apply (for_cmd_count (fun _ => plotted (PrintMain.tests a))) in H.
  { rewrite H, list_sum_const. reflexivity. }
  clear. intros guest_kernel s w s' w' H. unfold seq, lift in H.
  destruct (KernelVersion.from_str (VStr guest_kernel)) as [gk|];
    [|discriminate].
  unfold PrintMain.plot_guest_kernel_metrics in H.
  apply (for_cmd_count
           (fun t => if t =? "network_tcp_throughput"
                     then 1%nat else 0%nat)) in H.
  { rewrite H, list_sum_indicator. reflexivity. }
  clear. intros test s w s' w' H.
  destruct (test =? "network_tcp_throughput").
  - eapply plot_adds_one. exact H.
  - unfold ret in H. inversion H; subst. lia.
Qed.

(** X23. In the worktree of a revision the history plot reads one file
    only, and it is not the configuration file: the loader receives the
    path of that file as its directory and appends the file name again.
    The block behaves as in a file system that holds this path alone. *)
Theorem history_reads_doubled_path
    (data_parser : BaselineParser.t -> result (value * value * value))
    (machine : CpuModel.t) (host_kernel guest_kernel : KernelVersion.t)
    (git_ref : string) (st : PlotThroughput.state) (worktree : string)
    (w : world) :
  PlotThroughput.in_worktree json_load hash_builtin data_parser machine
    host_kernel guest_kernel git_ref st worktree w
  = PlotThroughput.in_worktree
      (only_file (history_file worktree host_kernel)
         (json_load w (history_file worktree host_kernel)))
      hash_builtin data_parser machine host_kernel guest_kernel git_ref st
      worktree w.
Proof.
  unfold PlotThroughput.in_worktree, NetworkTCPThroughput.__init__,
    BaselineParser.__init__, only_file, history_file.
  rewrite String.eqb_refl. reflexivity.
Qed.

End History.

Lemma sample_print_run :
  PrintMain.cmd_git SampleRun.rev_parse
    (fun w p => Raise (FileNotFoundError p)) VNone
    sample_print_args [] SampleRun.clean
  = (Ok sample_plots, SampleRun.clean).
Proof. vm_compute. reflexivity. Qed.

Lemma cmd_git_plots_counted_witness :
  List.length sample_plots
  = (List.length (A:=PlotThroughput.plot) []
     + List.length (PrintMain.cpu_models sample_print_args)
       * (List.length (PrintMain.host_kernels sample_print_args)
          * (List.length (PrintMain.guest_kernels sample_print_args)
             * plotted (PrintMain.tests sample_print_args))))%nat.
Proof.
  exact (cmd_git_plots_counted SampleRun.rev_parse
           (fun w p => Raise (FileNotFoundError p)) VNone
           sample_print_args [] sample_plots SampleRun.clean
           SampleRun.clean sample_print_run).
Defined.

(** X24. [git_combinations] never yields a combination of a machine, a
    host kernel and a guest kernel: whatever the three lists hold, it
    yields exactly three tuples of one element each, the lists themselves.
    The product of the three lists, which [plot_for_git] unpacks its
    elements as, has triples instead. *)
Theorem git_combinations_are_the_lists (self : MetricPlotter.t) :
  MetricPlotter.git_combinations self
  = [VTuple [VList (MetricPlotter._machines self)];
     VTuple [VList (MetricPlotter._host_kernels self)];
     VTuple [VList (MetricPlotter._guest_kernels self)]]
  /\ Forall (fun t => List.length t = 3%nat)
       (MetricPlotter.product
          [MetricPlotter._machines self; MetricPlotter._host_kernels self;
           MetricPlotter._guest_kernels self])
  /\ List.length
       (MetricPlotter.product
          [MetricPlotter._machines self; MetricPlotter._host_kernels self;
           MetricPlotter._guest_kernels self])
     = (List.length (MetricPlotter._machines self)
        * (List.length (MetricPlotter._host_kernels self)
           * List.length (MetricPlotter._guest_kernels self)))%nat.
Proof.
  split; [reflexivity|].
  assert (Hlen : forall (xs : list value) (l : list (list value)) n,
             Forall (fun t => List.length t = n) l ->
             Forall (fun t => List.length t = S n)
               (flat_map (fun x => map (cons x) l) xs)).
  { intros xs l n Hl. rewrite Forall_forall in *. intros t Ht.
    apply in_flat_map in Ht. destruct Ht as (x & _ & Ht).
    apply in_map_iff in Ht. destruct Ht as (t' & <- & Ht').
    simpl. f_equal. auto. }
  assert (Hcount : forall (xs : list value) (l : list (list value)),
             List.length (flat_map (fun x => map (cons x) l) xs)
             = (List.length xs * List.length l)%nat).
  { intros xs l. induction xs as [|x xs IH]; simpl; [reflexivity|].
    rewrite length_app, length_map, IH. reflexivity. }
  split.
  - cbn [MetricPlotter.product]. apply Hlen, Hlen, Hlen.
    constructor; [reflexivity | constructor].
  - cbn [MetricPlotter.product]. rewrite !Hcount. simpl. lia.
Qed.

(** ** The series of the history plot *)

Lemma dict_get_append_same t v (d : PlotThroughput.series) :
  dict_get String.eqb t (PlotThroughput.append t v d)
  = Some (stored t d ++ [v]).
Proof.
  unfold PlotThroughput.append, stored.
  destruct (dict_get String.eqb t d); apply dict_get_set_same.
Qed.

Lemma dict_get_append_other k t v (d : PlotThroughput.series) :
  t <> k ->
  dict_get String.eqb k (PlotThroughput.append t v d)
  = dict_get String.eqb k d.
Proof.
  intros Hne. unfold PlotThroughput.append.
  destruct (dict_get String.eqb t d); now apply dict_get_set_other.
Qed.

Lemma fold_append_get (pairs : list (string * value)) :
  NoDup (map fst pairs) ->
  forall (d : PlotThroughput.series) k,
    dict_get String.eqb k
      (fold_left (fun acc tv => PlotThroughput.append (fst tv) (snd tv) acc)
         pairs d)
    = match dict_get String.eqb k pairs with
      | Some v => Some (stored k d ++ [v])
      | None => dict_get String.eqb k d
      end.
Proof.
  induction pairs as [|[t v] pairs IH]; intros Hnd d k; simpl.
  - reflexivity.
  - inversion Hnd as [|? ? Hnotin Hnd']; subst.
    rewrite (IH Hnd'). destruct (String.eqb_spec t k) as [->|Hne].
    + destruct (dict_get String.eqb k pairs) as [v'|] eqn:E.
      * exfalso. apply Hnotin. apply (dict_get_In _ String.eqb_eq) in E.
        apply in_map_iff. exists (k, v'). auto.
      * apply dict_get_append_same.
    + unfold stored. rewrite !dict_get_append_other by exact Hne.
      reflexivity.
Qed.

Lemma combine_keys_NoDup {A B} (a : list A) (b : list B) :
  NoDup a -> NoDup (map fst (combine a b)).
Proof.
  revert b. induction a as [|x a IH]; intros b Hnd; simpl.
  - constructor.
  - destruct b as [|y b]; simpl; [constructor|].
    inversion Hnd as [|? ? Hnotin Hnd']; subst.
    constructor; [|auto].
    intros Hin. apply Hnotin. apply in_map_iff in Hin.
    destruct Hin as ([x' y'] & E & Hin). simpl in E. subst x'.
    eapply in_combine_l. exact Hin.
Qed.

Lemma dict_get_combine (a : list string) (b : list value) i t v :
  NoDup a -> nth_error a i = Some t -> nth_error b i = Some v ->
  dict_get String.eqb t (combine a b) = Some v.
Proof.
  intros Hnd Ha Hb.
  apply (In_dict_get _ String.eqb_eq).
  - apply combine_keys_NoDup. exact Hnd.
  - clear Hnd. revert b i Ha Hb.
    induction a as [|x a IH]; intros b i Ha Hb.
    + destruct i; discriminate.
    + destruct b as [|y b]; [destruct i; discriminate|].
      destruct i as [|i]; simpl in *.
      * inversion Ha; inversion Hb; subst. now left.
      * right. eapply IH; eassumption.
Qed.

Lemma dict_get_combine_none (a : list string) (b : list value) t :
  (forall i, nth_error a i = Some t -> nth_error b i = None) ->
  dict_get String.eqb t (combine a b) = None.
Proof.
  revert b. induction a as [|x a IH]; intros b H; simpl; [reflexivity|].
  destruct b as [|y b]; [reflexivity|]. simpl.
  destruct (String.eqb_spec x t) as [->|Hne].
  - specialize (H 0%nat eq_refl). discriminate.
  - apply IH. intros i Hi. exact (H (S i) Hi).
Qed.

Lemma TESTS_distinct : NoDup NetworkTCPThroughput.TESTS.
Proof.
  unfold NetworkTCPThroughput.TESTS.
  repeat constructor; simpl; intuition discriminate.
Qed.

(** X22. The history plot matches values and test names by position: the
    value at position i of a loader's list is appended to the series of the
    name at position i of [TESTS], whatever the key it came from was
    called; a name with no value at its position keeps its series, so
    values past the sixth are dropped. *)
Theorem history_series_by_position (values : list value)
    (d : PlotThroughput.series) (t : string) :
  (forall i v,
      nth_error NetworkTCPThroughput.TESTS i = Some t ->
      nth_error values i = Some v ->
      dict_get String.eqb t (PlotThroughput.zip_append values d)
      = Some (stored t d ++ [v]))
  /\ ((forall i, nth_error NetworkTCPThroughput.TESTS i = Some t ->
                 nth_error values i = None) ->
      dict_get String.eqb t (PlotThroughput.zip_append values d)
      = dict_get String.eqb t d).
Proof.
  unfold PlotThroughput.zip_append. split.
  - intros i v Ht Hv.
    rewrite fold_append_get by (apply combine_keys_NoDup, TESTS_distinct).
    now rewrite (dict_get_combine _ _ i t v TESTS_distinct Ht Hv).
  - intros Hnone.
    rewrite fold_append_get by (apply combine_keys_NoDup, TESTS_distinct).
    now rewrite (dict_get_combine_none _ _ t Hnone).
Qed.

(** ** An unknown codename on the command line of print_baselines *)

Lemma for_cmd_app {A S} (l1 l2 : list A) (body : A -> S -> cmd S) s w :
  for_cmd (l1 ++ l2) body s w
  = match for_cmd l1 body s w with
    | (Ok s1, w1) => for_cmd l2 body s1 w1
    | (Raise e, w1) => (Raise e, w1)
    end.
Proof.
  revert s w. induction l1 as [|x l1 IH]; intros s w; cbn [app for_cmd].
  - reflexivity.
  - unfold seq. destruct (body x s w) as [[s1|e] w1]; [apply IH|].
    reflexivity.
Qed.

(** X25. [cmd_git] checks no codename before it starts: with an unknown
    CPU codename on the list, the models before it are plotted first, as if
    they were the whole list, and only then the command raises the
    unknown-model exception; the models after it are never reached. *)
Theorem cmd_git_unknown_codename
    (rev_parse : string -> option string)
    (json_load : world -> string -> result value) (hash_builtin : value)
    (a : PrintMain.args) (before after : list string) (unknown : string)
    (saved : list PlotThroughput.plot) (w : world) :
  PrintMain.cpu_models a = before ++ unknown :: after ->
  ~ In (lower unknown) CpuModel.codenames ->
  PrintMain.cmd_git rev_parse json_load hash_builtin a saved w
  = match PrintMain.cmd_git rev_parse json_load hash_builtin
            (with_cpu_models a before) saved w with
    | (Ok _, w1) =>
        (Raise (ExceptionF "Unknown CPU model: " (VStr (lower unknown))), w1)
    | (Raise e, w1) => (Raise e, w1)
    end.
Proof.
  intros Hm Hu. unfold PrintMain.cmd_git. rewrite Hm, for_cmd_app.
  cbn [PrintMain.cpu_models with_cpu_models].
  change (fun (machine : string) (saved0 : list PlotThroughput.plot) =>
            seq (lift (fun _ => CpuModel.from_codename (VStr machine)))
              (fun m => PrintMain.plot_machine_metrics rev_parse json_load
                          hash_builtin (with_cpu_models a before) m saved0))
    with (fun (machine : string) (saved0 : list PlotThroughput.plot) =>
            seq (lift (fun _ => CpuModel.from_codename (VStr machine)))
              (fun m => PrintMain.plot_machine_metrics rev_parse json_load
                          hash_builtin a m saved0)).
  match goal with
  | |- context [for_cmd before ?b saved w] =>
      destruct (for_cmd before b saved w) as [[s1|e] w1]
  end; [|reflexivity].
  cbn [for_cmd]. unfold seq at 1, lift.
  pose proof (CpuModel_from_codename_parses unknown) as P.
  destruct (CpuModel.from_codename (VStr unknown)) as [c|e].
  - contradiction.
  - destruct P as [_ ->]. reflexivity.
Qed.

Lemma cmd_git_unknown_codename_witness :
  PrintMain.cmd_git SampleRun.rev_parse
    (fun w p => Raise (FileNotFoundError p)) VNone
    (with_cpu_models sample_print_args ["skylake"; "pentium"; "milan"])
    [] SampleRun.clean
  = (Raise (ExceptionF "Unknown CPU model: " (VStr "pentium")),
     SampleRun.clean).
Proof.
  exact (cmd_git_unknown_codename SampleRun.rev_parse
           (fun w p => Raise (FileNotFoundError p)) VNone
           (with_cpu_models sample_print_args
              ["skylake"; "pentium"; "milan"])
           ["skylake"] ["milan"] "pentium" [] SampleRun.clean eq_refl
           (fun H => ltac:(simpl in H; intuition discriminate))).
Defined.
